(** * crawler-assistant: locator synthesis and crawl traversal

    A shallow embedding of the parts of the crawler that the specification
    talks about:

    - [app/core/ai/selector_generator.py]  (module [SelectorGenerator])
    - [app/core/ai/page_analyzer.py]       (module [PageAnalyzer])
    - [app/models/job.py]                  (module [Job])
    - [app/services/crawling_service.py]   (module [CrawlingService])
    - [app/core/browser/anti_detection.py] (module [AntiDetection])
    - [app/core/browser/crawler_agent.py]  (module [CrawlerAgent])
    - [app/core/browser/browser_controller.py] (module [BrowserController])

    Conventions.  Python [float] is IEEE binary64, modelled by Rocq's
    primitive floats; the one quotient of two [int]s, [overall_score], is
    kept as an exact rational.  A Python [dict] is an insertion-ordered
    association list.  Calls into external collaborators (BeautifulSoup,
    Playwright, the random module) are explicit arguments: a call that can
    raise returns a [Result], and a random draw is an index supplied by the
    caller.  Logging and waiting are left out. *)

From Stdlib Require Import List String Ascii Bool Arith ZArith QArith Floats Lia.
From Stdlib Require Import DecimalString.
Import ListNotations.

Set Warnings "-inexact-float,-register-all".

Local Close Scope Q_scope.
Local Open Scope string_scope.
Local Open Scope list_scope.
Local Open Scope nat_scope.

(* ===================================================================== *)
(** * Python runtime fragments *)
(* ===================================================================== *)

Module Py.

(** An expression either returns a value or raises [Exception(msg)]. *)
Inductive Result (A : Type) : Type :=
| Ok (a : A)
| Raise (msg : string).
Arguments Ok {A} a.
Arguments Raise {A} msg.

Definition bind {A B} (m : Result A) (k : A -> Result B) : Result B :=
  match m with
  | Ok a => k a
  | Raise e => Raise e
  end.

(** [try: body / except Exception as e: handler(e)] *)
Definition try_except {A} (body : Result A) (handler : string -> Result A)
  : Result A :=
  match body with
  | Ok a => Ok a
  | Raise e => handler e
  end.

(** The same when the handler returns a value: nothing is raised. *)
Definition catch {A} (body : Result A) (handler : string -> A) : A :=
  match body with
  | Ok a => a
  | Raise e => handler e
  end.

(** Truthiness of [str], of [list] and of [Optional[str]]. *)
Definition truthy (s : string) : bool :=
  match s with EmptyString => false | String _ _ => true end.

Definition nonempty {A} (l : list A) : bool :=
  match l with [] => false | _ :: _ => true end.

Definition truthy_opt (o : option string) : bool :=
  match o with Some s => truthy s | None => false end.

(** [min(a, b)] on floats: [b] when it is smaller, else [a]. *)
Definition min_float (a b : float) : float :=
  if PrimFloat.ltb b a then b else a.

(** ** Characters.  Strings are byte strings; a byte above 127 belongs
    to a non-ASCII letter (the CJK text this code base uses), which
    Python's [\w] accepts and [[a-zA-Z]] does not. *)
Definition is_space (c : ascii) : bool :=
  let n := nat_of_ascii c in
  ((9 <=? n) && (n <=? 13)) || ((28 <=? n) && (n <=? 32)).

Definition is_upper (c : ascii) : bool :=
  let n := nat_of_ascii c in (65 <=? n) && (n <=? 90).

Definition is_alpha (c : ascii) : bool :=
  let n := nat_of_ascii c in
  ((65 <=? n) && (n <=? 90)) || ((97 <=? n) && (n <=? 122)).

Definition is_digit (c : ascii) : bool :=
  let n := nat_of_ascii c in (48 <=? n) && (n <=? 57).

(** [\w] *)
Definition is_word (c : ascii) : bool :=
  is_alpha c || is_digit c || (nat_of_ascii c =? 95) || (128 <=? nat_of_ascii c).

(** [[\w-]] *)
Definition is_name_char (c : ascii) : bool :=
  is_word c || (nat_of_ascii c =? 45).

(** ** [str.split()] with no argument: split on runs of whitespace. *)
Fixpoint split_from (word : string) (s : string) : list string :=
  match s with
  | EmptyString => if truthy word then [word] else []
  | String c rest =>
      if is_space c
      then (if truthy word then word :: split_from "" rest
            else split_from "" rest)
      else split_from (word ++ String c "")%string rest
  end.

Definition split (s : string) : list string := split_from "" s.

(** ** [str.strip()] *)
Fixpoint lstrip (s : string) : string :=
  match s with
  | EmptyString => EmptyString
  | String c rest => if is_space c then lstrip rest else s
  end.

Fixpoint rstrip (s : string) : string :=
  match s with
  | EmptyString => EmptyString
  | String c rest =>
      match rstrip rest with
      | EmptyString => if is_space c then EmptyString else String c EmptyString
      | r => String c r
      end
  end.

Definition strip (s : string) : string := rstrip (lstrip s).

(** ** [str.lower()] on ASCII *)
Definition lower_char (c : ascii) : ascii :=
  if is_upper c then ascii_of_nat (nat_of_ascii c + 32) else c.

Fixpoint lower (s : string) : string :=
  match s with
  | EmptyString => EmptyString
  | String c rest => String (lower_char c) (lower rest)
  end.

(** ** [needle in haystack] *)
Fixpoint contains (needle hay : string) : bool :=
  String.prefix needle hay
  || match hay with
     | EmptyString => false
     | String _ rest => contains needle rest
     end.

(** [str.startswith] *)
Definition startswith (s p : string) : bool := String.prefix p s.

(** ** [sep.join(parts)] *)
Definition join (sep : string) (parts : list string) : string :=
  String.concat sep parts.

(** ** [s.split(sep)] for a separator of one character *)
Fixpoint split_on (sep : ascii) (s : string) : list string :=
  match s with
  | EmptyString => [EmptyString]
  | String c rest =>
      if Ascii.eqb c sep then EmptyString :: split_on sep rest
      else match split_on sep rest with
           | [] => [String c EmptyString]
           | part :: parts => String c part :: parts
           end
  end.

(** ** [str(n)] for an [int] *)
Definition str_of_nat (n : nat) : string :=
  NilEmpty.string_of_uint (Nat.to_uint n).

Definition str_of_Z (z : Z) : string :=
  NilEmpty.string_of_int (Z.to_int z).

(** The double-quote character, for selectors such as [[class*=...]]. *)
Definition dq : string := String (ascii_of_nat 34) EmptyString.

(** ** Insertion-ordered dictionaries with [str] keys *)
Definition dict (V : Type) : Type := list (string * V).

Fixpoint get {V} (d : dict V) (k : string) : option V :=
  match d with
  | [] => None
  | (k', v) :: rest => if String.eqb k k' then Some v else get rest k
  end.

(** [d.get(k, default)] *)
Definition get_default {V} (d : dict V) (k : string) (default : V) : V :=
  match get d k with Some v => v | None => default end.

(** [d[k] = v]: overwrite in place, or append a new key at the end. *)
Fixpoint set {V} (d : dict V) (k : string) (v : V) : dict V :=
  match d with
  | [] => [(k, v)]
  | (k', v') :: rest =>
      if String.eqb k k' then (k', v) :: rest else (k', v') :: set rest k v
  end.

Definition keys {V} (d : dict V) : list string := map fst d.

(** An association list is a dictionary when no key repeats. *)
Definition well_formed {V} (d : dict V) : Prop := NoDup (keys d).

End Py.

Import Py.

Declare Scope py_scope.
Delimit Scope py_scope with py.
Notation "x <- m ;; k" := (Py.bind m (fun x => k))
  (at level 61, m at next level, right associativity) : py_scope.
Local Open Scope py_scope.

(* ===================================================================== *)
(** * app/core/ai/selector_generator.py *)
(* ===================================================================== *)

Module SelectorGenerator.

(** A [bs4.Tag] as the generator reads it: its name, its [class]
    attribute ([tag.get('class')], a list of class names or [None]) and its
    parent. *)
Inductive Tag : Type :=
| mkTag (name : string) (attr_class : option (list string)) (parent : option Tag).

Definition tag_class (t : Tag) : option (list string) :=
  match t with mkTag _ c _ => c end.

Definition tag_parent (t : Tag) : option Tag :=
  match t with mkTag _ _ p => p end.

(** The parsed document offers [soup.select(selector)], which raises on a
    selector it cannot parse. *)
Record Soup : Type := { select : string -> Result (list Tag) }.

(** ** Keyword lists of [__init__] *)
Definition job_related_keywords : list string :=
  ["job"; "position"; "career"; "work"; "employment"; "vacancy";
   "posting"; "opening"; "opportunity"; "role"; "listing"].

Definition company_keywords : list string :=
  ["company"; "employer"; "organization"; "corp"; "inc";
   "firm"; "enterprise"; "business"].

Definition location_keywords : list string :=
  ["location"; "city"; "address"; "place"; "region";
   "area"; "district"; "zone"].

Definition time_keywords : list string :=
  ["time"; "date"; "published"; "posted"; "created";
   "updated"; "ago"; "recent"].

(** ** [_calculate_specificity] *)

Definition starts_with_name_char (s : string) : bool :=
  match s with
  | EmptyString => false
  | String c _ => is_name_char c
  end.

(** [len(re.findall(mark + r'[\w-]+', s))]: the mark is outside the class,
    so every mark followed by a class character opens a match. *)
Fixpoint count_marked (mark : ascii) (s : string) : nat :=
  match s with
  | EmptyString => 0
  | String c rest =>
      (if Ascii.eqb c mark && starts_with_name_char rest then 1 else 0)
      + count_marked mark rest
  end.

Definition close_run (run : option bool) : nat :=
  match run with Some true => 1 | _ => 0 end.

(** [len(re.findall(r'\b[a-zA-Z]+\b', s))]: the maximal runs of word
    characters made of ASCII letters only.  [run] is [Some b] inside a run,
    [b] telling whether it is all letters so far. *)
Fixpoint count_alpha_words (run : option bool) (s : string) : nat :=
  match s with
  | EmptyString => close_run run
  | String c rest =>
      if is_word c
      then count_alpha_words
             (Some (match run with
                    | Some b => b && is_alpha c
                    | None => is_alpha c
                    end)) rest
      else close_run run + count_alpha_words None rest
  end.

Definition _calculate_specificity (selector : string) : nat :=
  let specificity := 0 in
  let specificity := specificity + count_marked "#"%char selector in
  let specificity := specificity + count_marked "."%char selector in
  let specificity := specificity + count_alpha_words None selector in
  specificity.

(** ** [_is_semantically_relevant] *)

Definition any_keyword_in (keywords : list string) (text : string) : bool :=
  existsb (fun keyword => contains keyword text) keywords.

Definition in_list (x : string) (l : list string) : bool :=
  existsb (String.eqb x) l.

Definition _is_semantically_relevant (selector selector_type : string) : bool :=
  let selector_lower := lower selector in
  if in_list selector_type ["jobList"; "jobItem"; "jobTitle"; "jobDescription"]
  then any_keyword_in job_related_keywords selector_lower
  else if String.eqb selector_type "companyName"
  then any_keyword_in company_keywords selector_lower
  else if String.eqb selector_type "location"
  then any_keyword_in location_keywords selector_lower
  else if String.eqb selector_type "publishedAt"
  then any_keyword_in time_keywords selector_lower
  else false.

(** ** [_evaluate_selector_quality] *)

(** The cardinality term: [score += ...] by selector type. *)
Definition add_cardinality (selector_type : string) (element_count : nat)
    (score : float) : float :=
  if String.eqb selector_type "jobList" then
    if (1 <=? element_count) && (element_count <=? 2) then (score + 0.3)%float
    else if element_count <=? 5 then (score + 0.2)%float
    else score
  else if in_list selector_type ["jobItem"] then
    if (5 <=? element_count) && (element_count <=? 100) then (score + 0.3)%float
    else if (1 <=? element_count) && (element_count <=? 200) then (score + 0.2)%float
    else score
  else if String.eqb selector_type "nextPage" then
    if element_count =? 1 then (score + 0.3)%float
    else if element_count <=? 3 then (score + 0.2)%float
    else score
  else
    if 0 <? element_count then (score + 0.3)%float else score.

(** The specificity term. *)
Definition add_specificity (specificity : nat) (score : float) : float :=
  if (2 <=? specificity) && (specificity <=? 4) then (score + 0.2)%float
  else if specificity <=? 6 then (score + 0.1)%float
  else score.

Definition _evaluate_selector_quality (selector_type selector : string)
    (elements : list Tag) (soup : Soup) : float :=
  let score := 0.0%float in
  let score := if nonempty elements then (score + 0.4)%float else score in
  let element_count := List.length elements in
  let score := add_cardinality selector_type element_count score in
  let specificity := _calculate_specificity selector in
  let score := add_specificity specificity score in
  let score :=
    if _is_semantically_relevant selector selector_type
    then (score + 0.1)%float else score in
  min_float score 1.0%float.

(** ** [_improve_selector]

    Two attempts, one after the other; [None] says that nothing better
    was found.  A selector that [soup.select] rejects raises out of the
    function. *)
Definition simplify_move (original_selector : string) (elements : list Tag)
    (soup : Soup) : Result (option string) :=
  if 4 <? List.length (split original_selector) then
    let parts := split original_selector in
    let simplified := last parts "" in
    test_elements <- select soup simplified ;;
    if nonempty test_elements
       && (List.length test_elements <=? List.length elements * 2)
    then Ok (Some simplified)
    else Ok None
  else Ok None.

Definition narrow_move (original_selector : string) (elements : list Tag)
    (soup : Soup) : Result (option string) :=
  if 50 <? List.length elements then
    match elements with
    | [] => Ok None
    | first_element :: _ =>
        match tag_parent first_element with
        | None => Ok None
        | Some parent =>
            match tag_class parent with
            | Some (c :: cs) =>
                let parent_class := join "." (c :: cs) in
                let improved :=
                  ("." ++ parent_class ++ " " ++ original_selector)%string in
                test_elements <- select soup improved ;;
                if nonempty test_elements
                   && (List.length test_elements <? List.length elements)
                then Ok (Some improved)
                else Ok None
            | _ => Ok None
            end
        end
    end
  else Ok None.

Definition _improve_selector (original_selector : string)
    (elements : list Tag) (soup : Soup) : Result (option string) :=
  r <- simplify_move original_selector elements soup ;;
  match r with
  | Some simplified => Ok (Some simplified)
  | None => narrow_move original_selector elements soup
  end.

(** ** [_select_best_candidate] *)

Definition candidate_score (candidate : string) (elements : list Tag) : float :=
  let element_count := List.length elements in
  let specificity := _calculate_specificity candidate in
  let score := 0.0%float in
  let score := if (1 <=? element_count) && (element_count <=? 50)
               then (score + 0.5)%float else score in
  let score := if (1 <=? specificity) && (specificity <=? 4)
               then (score + 0.3)%float else score in
  let score := if 0 <? element_count then (score + 0.2)%float else score in
  score.

Fixpoint best_candidate_loop (candidates : list string) (soup : Soup)
    (best_candidate : option string) (best_score : float) : option string :=
  match candidates with
  | [] => best_candidate
  | candidate :: rest =>
      match select soup candidate with
      | Ok elements =>
          if nonempty elements then
            let score := candidate_score candidate elements in
            if PrimFloat.ltb best_score score
            then best_candidate_loop rest soup (Some candidate) score
            else best_candidate_loop rest soup best_candidate best_score
          else best_candidate_loop rest soup best_candidate best_score
      | Raise _ => best_candidate_loop rest soup best_candidate best_score
      end
  end.

Definition _select_best_candidate (candidates : list string) (soup : Soup)
  : option string :=
  match candidates with
  | [] => None
  | _ => best_candidate_loop candidates soup None 0.0%float
  end.

(** ** [_optimize_selector] *)

Definition quality_threshold : float := 0.7%float.

Definition _optimize_selector (selector_type ai_selector : string)
    (soup : Soup) (detected_elements : dict (list string))
  : Result (option string) :=
  if negb (truthy ai_selector) then Ok None
  else
    try_except
      (elements <- select soup ai_selector ;;
       if nonempty elements then
         let quality_score :=
           _evaluate_selector_quality selector_type ai_selector elements soup in
         if PrimFloat.leb quality_threshold quality_score
         then Ok (Some ai_selector)
         else
           optimized <- _improve_selector ai_selector elements soup ;;
           Ok (if truthy_opt optimized then optimized else Some ai_selector)
       else
         let candidates :=
           get_default detected_elements
             (selector_type ++ "_elements")%string [] in
         Ok (_select_best_candidate candidates soup))
      (fun e => Ok (Some ai_selector)).

(** ** [_generate_fallback_selector] *)

Definition quoted (s : string) : string := (dq ++ s ++ dq)%string.

Definition fallback_patterns : dict (list string) :=
  [ ("jobList",
      [".jobs-list"; ".job-list"; ".positions"; ".careers";
       ".search-results"; ".listings";
       "[class*=" ++ quoted "job" ++ "]";
       "ul[class*=" ++ quoted "job" ++ "]";
       "div[class*=" ++ quoted "list" ++ "]"]);
    ("jobItem",
      [".job-item"; ".job-card"; ".position"; ".listing";
       ".job-posting";
       "[class*=" ++ quoted "job-item" ++ "]";
       "li[class*=" ++ quoted "job" ++ "]";
       "div[class*=" ++ quoted "item" ++ "]";
       ".result-item"]);
    ("jobTitle",
      [".job-title"; ".position-title"; ".title"; "h1"; "h2"; "h3";
       "a[class*=" ++ quoted "title" ++ "]";
       "[class*=" ++ quoted "job-title" ++ "]";
       ".name"]);
    ("jobLink",
      ["a[href*=" ++ quoted "/job/" ++ "]";
       "a[href*=" ++ quoted "/position/" ++ "]";
       "a[href*=" ++ quoted "/career/" ++ "]";
       ".job-link"; ".title-link"; "a.title"; "h3 a"; "h2 a"]);
    ("companyName",
      [".company"; ".employer"; ".company-name"; ".organization";
       "[class*=" ++ quoted "company" ++ "]";
       "[class*=" ++ quoted "employer" ++ "]";
       ".firm"]);
    ("publishedAt",
      [".date"; ".time"; ".published"; ".posted"; ".created";
       "[class*=" ++ quoted "date" ++ "]";
       "[class*=" ++ quoted "time" ++ "]";
       ".ago"]);
    ("location",
      [".location"; ".city"; ".address"; ".place";
       "[class*=" ++ quoted "location" ++ "]";
       "[class*=" ++ quoted "city" ++ "]";
       ".region"]);
    ("jobDescription",
      [".description"; ".summary"; ".content"; ".details";
       "[class*=" ++ quoted "description" ++ "]";
       "[class*=" ++ quoted "summary" ++ "]";
       "p"]);
    ("nextPage",
      [".next"; ".next-page";
       "[aria-label*=" ++ quoted "next" ++ "]";
       "[aria-label*=" ++ quoted "下一页" ++ "]";
       "a[href*=" ++ quoted "page=" ++ "]";
       ".pagination .next";
       "button[class*=" ++ quoted "next" ++ "]"]) ]%string.

Fixpoint first_matching (patterns : list string) (soup : Soup) : option string :=
  match patterns with
  | [] => None
  | pattern :: rest =>
      match select soup pattern with
      | Ok elements =>
          if nonempty elements then Some pattern else first_matching rest soup
      | Raise _ => first_matching rest soup
      end
  end.

Definition _generate_fallback_selector (selector_type : string) (soup : Soup)
  : option string :=
  let patterns := get_default fallback_patterns selector_type [] in
  first_matching patterns soup.

(** ** [_generate_heuristic_selectors] and [generate_selectors]

    [doc] is what [BeautifulSoup(html_content, 'html.parser')] gives for
    the page, a parsed document or an exception. *)

Definition selector_types : list string :=
  ["jobList"; "jobItem"; "jobTitle"; "jobLink"; "companyName";
   "publishedAt"; "location"; "jobDescription"; "nextPage"].

Definition opt_str (o : option string) : string :=
  match o with Some s => s | None => "" end.

Definition _generate_heuristic_selectors (doc : Result Soup)
  : Result (dict string) :=
  soup <- doc ;;
  Ok (fold_left
        (fun selectors selector_type =>
           let fallback := _generate_fallback_selector selector_type soup in
           if truthy_opt fallback
           then set selectors selector_type (opt_str fallback)
           else selectors)
        selector_types []).

(** One turn of the [for key in [...]] loop of [generate_selectors]. *)
Definition generate_for_key (ai_selectors : dict string)
    (detected_elements : dict (list string)) (soup : Soup)
    (selectors : dict string) (key : string) : Result (dict string) :=
  let ai_selector := get_default ai_selectors key "" in
  optimized_selector <-
    _optimize_selector key ai_selector soup detected_elements ;;
  if truthy_opt optimized_selector
  then Ok (set selectors key (opt_str optimized_selector))
  else
    let fallback_selector := _generate_fallback_selector key soup in
    if truthy_opt fallback_selector
    then Ok (set selectors key (opt_str fallback_selector))
    else Ok selectors.

Definition generate_selectors (ai_selectors : dict string)
    (detected_elements : dict (list string)) (doc : Result Soup)
  : Result (dict string) :=
  try_except
    (soup <- doc ;;
     fold_left
       (fun acc key =>
          selectors <- acc ;;
          generate_for_key ai_selectors detected_elements soup selectors key)
       selector_types (Ok []))
    (fun e => _generate_heuristic_selectors doc).

(** [generate_selector_variations] *)
Definition generate_selector_variations (base_selector : string)
  : list string :=
  let variations := [base_selector] in
  let variations :=
    if contains "." base_selector then
      let parts := split_on "."%char base_selector in
      if 2 <? List.length parts
      then variations ++ [join "." (removelast parts)]
      else variations
    else variations in
  let variations :=
    if negb (contains "[" base_selector) then
      variations ++ [(base_selector ++ "[href]")%string;
                     (base_selector ++ "[title]")%string;
                     (base_selector ++ "[data-*]")%string]
    else variations in
  variations ++ [(base_selector ++ ":not(.hidden)")%string;
                 (base_selector ++ ":visible")%string;
                 (base_selector ++ ":first-child")%string].

End SelectorGenerator.

(* ===================================================================== *)
(** * app/core/ai/page_analyzer.py *)
(* ===================================================================== *)

Module PageAnalyzer.

Import SelectorGenerator.

(** One entry of [validation_result["selector_results"]]. *)
Record SelectorResult : Type := {
  valid : bool;
  count : nat;
  selector : string;
  notes : string
}.

(** [overall_score] is the true division of two [int]s; it is kept as the
    exact quotient. *)
Record ValidationResult : Type := {
  overall_score : Q;
  selector_results : dict SelectorResult;
  suggestions : list string
}.

(** The body of [for key, selector in selectors.items()], on the pair
    [(valid_selectors, selector_results)]. *)
Definition validate_entry (soup : Soup)
    (state : nat * dict SelectorResult) (item : string * string)
  : nat * dict SelectorResult :=
  let '(valid_selectors, results) := state in
  let '(key, selector) := item in
  match select soup selector with
  | Ok elements =>
      let count := List.length elements in
      let is_valid := 0 <? count in
      let valid_selectors :=
        if is_valid then valid_selectors + 1 else valid_selectors in
      (valid_selectors,
       set results key
         {| valid := is_valid;
            count := count;
            selector := selector;
            notes := if 0 <? count
                     then ("找到" ++ str_of_nat count ++ "个元素")%string
                     else "未找到元素" |})
  | Raise e =>
      (valid_selectors,
       set results key
         {| valid := false;
            count := 0;
            selector := selector;
            notes := ("选择器错误: " ++ e)%string |})
  end.

Definition make_suggestions (results : dict SelectorResult) : list string :=
  fold_left
    (fun suggestions (item : string * SelectorResult) =>
       let '(key, result) := item in
       if negb (valid result)
       then suggestions ++ [(key ++ "选择器无效，需要调整")%string]
       else if count result =? 0
       then suggestions ++ [(key ++ "选择器未找到元素，可能需要更宽泛的选择器")%string]
       else suggestions)
    results [].

Definition validate_selectors (selectors : dict string) (doc : Result Soup)
  : Result ValidationResult :=
  try_except
    (soup <- doc ;;
     let total_selectors := List.length selectors in
     let '(valid_selectors, results) :=
       fold_left (validate_entry soup) selectors (0, []) in
     Ok {| overall_score :=
             if 0 <? total_selectors
             then (Z.of_nat valid_selectors # Pos.of_nat total_selectors)
             else 0%Q;
           selector_results := results;
           suggestions := make_suggestions results |})
    (fun e =>
       Ok {| overall_score := 0%Q;
             selector_results := [];
             suggestions := [("验证过程出错: " ++ e)%string] |}).

End PageAnalyzer.

(* ===================================================================== *)
(** * app/models/job.py *)
(* ===================================================================== *)

Module Job.

(** [datetime.datetime], as far as the crawler looks at it. *)
Record datetime : Type := {
  year : Z; month : Z; day : Z; hour : Z; minute : Z; second : Z
}.

(** A column value read with [getattr(self, field)]. *)
Inductive Value : Type :=
| VNone
| VStr (s : string)
| VDate (d : datetime)
| VList (l : list string).

Definition value_truthy (v : Value) : bool :=
  match v with
  | VNone => false
  | VStr s => truthy s
  | VDate _ => true
  | VList l => nonempty l
  end.

Definition is_nonblank_str (v : Value) : bool :=
  match v with
  | VStr s => 0 <? String.length (strip s)
  | _ => false
  end.

Definition is_datetime (v : Value) : bool :=
  match v with VDate _ => true | _ => false end.

Definition is_nonempty_list (v : Value) : bool :=
  match v with VList l => 0 <? List.length l | _ => false end.

Record t : Type := {
  title : string;
  company_name : string;
  job_link : string;
  location : string;
  published_at : option datetime;
  job_description : string;
  salary_range : option string;
  job_type : option string;
  experience_level : option string;
  skills_required : option (list string);
  raw_data : dict string;
  data_quality_score : float
}.

Definition of_opt_str (o : option string) : Value :=
  match o with Some s => VStr s | None => VNone end.

Definition of_opt_date (o : option datetime) : Value :=
  match o with Some d => VDate d | None => VNone end.

Definition of_opt_list (o : option (list string)) : Value :=
  match o with Some l => VList l | None => VNone end.

(** [required_fields], in the order of the dictionary literal, each
    with the value [getattr] finds. *)
Definition required_fields (self : t) : list (Value * float) :=
  [ (VStr (title self), 0.3%float);
    (VStr (company_name self), 0.2%float);
    (VStr (location self), 0.1%float);
    (VStr (job_description self), 0.2%float);
    (of_opt_date (published_at self), 0.1%float);
    (VStr (job_link self), 0.1%float) ].

Definition bonus_fields (self : t) : list Value :=
  [ of_opt_str (salary_range self);
    of_opt_str (job_type self);
    of_opt_str (experience_level self);
    of_opt_list (skills_required self) ].

Definition float_of_nat (n : nat) : float :=
  PrimFloat.of_uint63 (Uint63.of_Z (Z.of_nat n)).

(** One turn of the loop over [required_fields], on
    [(score, total_weight)]. *)
Definition required_step (acc : float * float) (field : Value * float)
  : float * float :=
  let '(score, total_weight) := acc in
  let '(value, weight) := field in
  let total_weight := (total_weight + weight)%float in
  if value_truthy value then
    if is_nonblank_str value then ((score + weight)%float, total_weight)
    else if is_datetime value then ((score + weight)%float, total_weight)
    else if value_truthy value then ((score + weight)%float, total_weight)
    else (score, total_weight)
  else (score, total_weight).

Definition bonus_step (bonus_count : nat) (value : Value) : nat :=
  if value_truthy value then
    if is_nonempty_list value then bonus_count + 1
    else if is_nonblank_str value then bonus_count + 1
    else bonus_count
  else bonus_count.

Definition calculate_quality_score (self : t) : float :=
  let '(score, total_weight) :=
    fold_left required_step (required_fields self) (0.0%float, 0.0%float) in
  let bonus_weight := 0.1%float in
  let bonus_count := fold_left bonus_step (bonus_fields self) 0 in
  let bonus_score :=
    ((float_of_nat bonus_count / float_of_nat (List.length (bonus_fields self)))
     * bonus_weight)%float in
  let final_score := ((score / total_weight) + bonus_score)%float in
  min_float final_score 1.0%float.

Definition update_quality_score (self : t) : t :=
  {| title := title self;
     company_name := company_name self;
     job_link := job_link self;
     location := location self;
     published_at := published_at self;
     job_description := job_description self;
     salary_range := salary_range self;
     job_type := job_type self;
     experience_level := experience_level self;
     skills_required := skills_required self;
     raw_data := raw_data self;
     data_quality_score := calculate_quality_score self |}.

End Job.

(* ===================================================================== *)
(** * The Playwright objects the crawler drives *)
(* ===================================================================== *)

Module Playwright.

(** The page calls made by [apply_stealth_measures]. *)
Inductive PageCall : Type :=
| set_extra_http_headers
| set_viewport_size
| add_init_script
| emulate_timezone
| set_geolocation.

Record Viewport : Type := { width : Z; height : Z }.
Record Geolocation : Type := { latitude : float; longitude : float }.

(** An element found inside a job item: a field of the job. *)
Record FieldElement : Type := {
  get_attribute_href : Result (option string);
  inner_text : Result string
}.

(** A job item element. *)
Record ItemElement : Type := {
  query_selector : string -> Result (option FieldElement);
  inner_html : Result string
}.

(** A job list element. *)
Record ListElement : Type := {
  list_query_selector_all : string -> Result (list ItemElement)
}.

(** A page: its document as the element queries see it, the calls that
    raise on it, and the identity signals set on it so far. *)
Record Page : Type := {
  url : string;
  query_selector_all : string -> Result (list ListElement);
  call_raises : PageCall -> option string;
  user_agent : option string;
  viewport : option Viewport;
  init_scripts : nat;
  timezone : option string;
  geolocation : option Geolocation
}.

Definition with_user_agent (ua : string) (p : Page) : Page :=
  {| url := url p; query_selector_all := query_selector_all p;
     call_raises := call_raises p;
     user_agent := Some ua; viewport := viewport p;
     init_scripts := init_scripts p; timezone := timezone p;
     geolocation := geolocation p |}.

Definition with_viewport (v : Viewport) (p : Page) : Page :=
  {| url := url p; query_selector_all := query_selector_all p;
     call_raises := call_raises p;
     user_agent := user_agent p; viewport := Some v;
     init_scripts := init_scripts p; timezone := timezone p;
     geolocation := geolocation p |}.

Definition with_init_script (p : Page) : Page :=
  {| url := url p; query_selector_all := query_selector_all p;
     call_raises := call_raises p;
     user_agent := user_agent p; viewport := viewport p;
     init_scripts := S (init_scripts p); timezone := timezone p;
     geolocation := geolocation p |}.

Definition with_timezone (tz : string) (p : Page) : Page :=
  {| url := url p; query_selector_all := query_selector_all p;
     call_raises := call_raises p;
     user_agent := user_agent p; viewport := viewport p;
     init_scripts := init_scripts p; timezone := Some tz;
     geolocation := geolocation p |}.

Definition with_geolocation (g : Geolocation) (p : Page) : Page :=
  {| url := url p; query_selector_all := query_selector_all p;
     call_raises := call_raises p;
     user_agent := user_agent p; viewport := viewport p;
     init_scripts := init_scripts p; timezone := timezone p;
     geolocation := Some g |}.

(** An element that a next-page selector finds.  The four fields are
    [get_attribute("disabled")], [get_attribute("class")],
    [get_attribute("href")], and [click()] followed by the navigation it is
    waited for: the URL of the page once navigation is over. *)
Record NextElement : Type := {
  next_disabled : Result (option string);
  next_class : Result (option string);
  next_href : Result (option string);
  next_click : Result string
}.

End Playwright.

(* ===================================================================== *)
(** * app/core/browser/anti_detection.py *)
(* ===================================================================== *)

Module AntiDetection.

Import Playwright.

(** [random.choice(seq)], the index drawn being supplied by the caller. *)
Definition random_choice {A} (draw : nat) (seq : list A) (default : A) : A :=
  nth (draw mod List.length seq) seq default.

Record BehaviorPattern : Type := {
  scroll_delay : float * float;
  click_delay : float * float;
  type_delay : float * float
}.

Definition user_agents : list string :=
  ["Mozilla/5.0 (Windows NT 10.0; Win64; x64) AppleWebKit/537.36 (KHTML, like Gecko) Chrome/120.0.0.0 Safari/537.36";
   "Mozilla/5.0 (Macintosh; Intel Mac OS X 10_15_7) AppleWebKit/537.36 (KHTML, like Gecko) Chrome/120.0.0.0 Safari/537.36";
   "Mozilla/5.0 (X11; Linux x86_64) AppleWebKit/537.36 (KHTML, like Gecko) Chrome/120.0.0.0 Safari/537.36";
   "Mozilla/5.0 (Windows NT 10.0; Win64; x64; rv:121.0) Gecko/20100101 Firefox/121.0";
   "Mozilla/5.0 (Macintosh; Intel Mac OS X 10.15; rv:121.0) Gecko/20100101 Firefox/121.0"].

Definition viewport_sizes : list Viewport :=
  [ {| width := 1920; height := 1080 |};
    {| width := 1366; height := 768 |};
    {| width := 1536; height := 864 |};
    {| width := 1440; height := 900 |};
    {| width := 1600; height := 900 |} ]%Z.

Definition behavior_patterns : list BehaviorPattern :=
  [ {| scroll_delay := (1, 3); click_delay := (0.5, 1.5);
       type_delay := (0.1, 0.3) |};
    {| scroll_delay := (2, 4); click_delay := (1, 2);
       type_delay := (0.2, 0.4) |};
    {| scroll_delay := (1.5, 2.5); click_delay := (0.8, 1.8);
       type_delay := (0.15, 0.35) |} ]%float.

Definition timezones : list string :=
  ["Asia/Shanghai"; "Asia/Beijing"; "Asia/Hong_Kong"].

Definition locations : list Geolocation :=
  [ {| latitude := 39.9042; longitude := 116.4074 |};
    {| latitude := 31.2304; longitude := 121.4737 |};
    {| latitude := 22.3193; longitude := 114.1694 |} ]%float.

(** The manager's only mutable attribute. *)
Record t : Type := { current_behavior : BehaviorPattern }.

Definition default_pattern : BehaviorPattern :=
  {| scroll_delay := (0, 0); click_delay := (0, 0); type_delay := (0, 0) |}%float.

(** [__init__]: one draw. *)
Definition init (draw : nat) : t :=
  {| current_behavior := random_choice draw behavior_patterns default_pattern |}.

Definition update_behavior_pattern (self : t) (draw : nat) : t :=
  {| current_behavior := random_choice draw behavior_patterns default_pattern |}.

(** The four draws one call of [apply_stealth_measures] makes. *)
Record StealthDraws : Type := {
  user_agent_draw : nat;
  viewport_draw : nat;
  timezone_draw : nat;
  location_draw : nat
}.

(** A page call inside the [try]: once one call has raised, the rest of
    the body is skipped and the page stays as it is. *)
Definition call (c : PageCall) (effect : Page -> Page)
    (state : Page * option string) : Page * option string :=
  let '(page, raised) := state in
  match raised with
  | Some _ => state
  | None =>
      match call_raises page c with
      | Some e => (page, Some e)
      | None => (effect page, None)
      end
  end.

(** [apply_stealth_measures]: the page after the call (the exception, if
    any, is logged and dropped). *)
Definition apply_stealth_measures (self : t) (user_agent_rotation : bool)
    (draws : StealthDraws) (page : Page) : Page :=
  let state := (page, None) in
  let state :=
    if user_agent_rotation then
      let user_agent :=
        random_choice (user_agent_draw draws) user_agents "" in
      call set_extra_http_headers (with_user_agent user_agent) state
    else state in
  let viewport :=
    random_choice (viewport_draw draws) viewport_sizes
      {| width := 0; height := 0 |} in
  let state := call set_viewport_size (with_viewport viewport) state in
  let state := call add_init_script with_init_script state in
  let timezone := random_choice (timezone_draw draws) timezones "" in
  let state := call emulate_timezone (with_timezone timezone) state in
  let location :=
    random_choice (location_draw draws) locations
      {| latitude := 0; longitude := 0 |} in
  let state := call set_geolocation (with_geolocation location) state in
  fst state.

(** What a server can observe of a page. *)
Definition fingerprint (p : Page)
  : option string * option Viewport * option string * option Geolocation :=
  (user_agent p, viewport p, timezone p, geolocation p).

(** ** [detect_bot_detection]

    [detection_type] and [indicator_type] are the [type] keys of the two
    dictionaries of the source. *)
Record Indicator : Type := {
  indicator_type : string;
  keyword : string
}.

Record Detection : Type := {
  detected : bool;
  detection_type : option string;
  confidence : float;
  indicators : list Indicator
}.

Definition bot_indicators : dict (list string) :=
  [ ("captcha", ["captcha"; "recaptcha"; "hcaptcha"]);
    ("cloudflare", ["cloudflare"; "checking your browser"; "ddos protection"]);
    ("rate_limit", ["too many requests"; "rate limit"; "slow down"]);
    ("access_denied", ["access denied"; "forbidden"; "blocked"]);
    ("human_verification", ["human verification"; "verify you are human"]) ].

(** The initial [detection_result]. *)
Definition no_detection : Detection :=
  {| detected := false;
     detection_type := None;
     confidence := 0.0%float;
     indicators := [] |}.

(** The two nested loops over [bot_indicators]. *)
Definition find_indicators (page_text : string) : list Indicator :=
  flat_map
    (fun entry : string * list string =>
       let '(detection_type, keywords) := entry in
       flat_map
         (fun keyword =>
            if contains keyword page_text
            then [{| indicator_type := detection_type; keyword := keyword |}]
            else [])
         keywords)
    bot_indicators.

(** [detect_bot_detection]; [content] is what [page.content()] gives. *)
Definition detect_bot_detection (content : Result string) : Detection :=
  catch
    (page_content <- content ;;
     let page_text := lower page_content in
     let detected_indicators := find_indicators page_text in
     Ok (match detected_indicators with
         | first :: _ =>
             {| detected := true;
                detection_type := Some (indicator_type first);
                confidence :=
                  min_float
                    (Job.float_of_nat (List.length detected_indicators) * 0.3)%float
                    1.0%float;
                indicators := detected_indicators |}
         | [] => no_detection
         end))
    (fun e => no_detection).

End AntiDetection.

(* ===================================================================== *)
(** * app/core/browser/crawler_agent.py *)
(* ===================================================================== *)

Module CrawlerAgent.

Import Playwright.

(** The dictionary [extract_jobs] returns. *)
Record Extraction : Type := {
  success : bool;
  jobs : list (dict string);
  error : option string
}.

Definition failed (msg : string) : Extraction :=
  {| success := false; jobs := []; error := Some msg |}.

(** The dictionary [find_next_page] returns, left to the environment. *)
Record NextPage : Type := {
  has_next : bool;
  next_url : option string
}.

Section WithUrljoin.

(** [urllib.parse.urljoin] *)
Variable urljoin : string -> string -> Result string.

Definition _normalize_url (link base_url : string) : string :=
  catch
    (if negb (truthy link) then Ok ""
     else if startswith link "http://" || startswith link "https://"
     then Ok link
     else urljoin base_url link)
    (fun e => link).

Definition _extract_field_value (job_element : ItemElement)
    (selector field_type : string) (page : Page) : string :=
  catch
    (element <- query_selector job_element selector ;;
     match element with
     | None => Ok ""
     | Some element =>
         if String.eqb field_type "link" then
           href <- get_attribute_href element ;;
           Ok (match href with
               | Some h => if truthy h then h else ""
               | None => ""
               end)
         else
           text <- inner_text element ;;
           Ok (if truthy text then strip text else "")
     end)
    (fun e => "").

Definition field_mapping : dict string :=
  [ ("title", "jobTitle");
    ("company", "companyName");
    ("location", "location");
    ("published_at", "publishedAt");
    ("description", "jobDescription");
    ("link", "jobLink") ].

(** The [for field, selector_key in field_mapping.items()] loop. *)
Definition extract_fields (job_element : ItemElement)
    (selectors : dict string) (page : Page) : dict string :=
  fold_left
    (fun job_data (entry : string * string) =>
       let '(field, selector_key) := entry in
       let selector := get_default selectors selector_key "" in
       if truthy selector then
         let value := _extract_field_value job_element selector field page in
         set job_data field value
       else job_data)
    field_mapping [].

(** [not job_data.get(key)] *)
Definition missing (job_data : dict string) (key : string) : bool :=
  negb (truthy_opt (get job_data key)).

Definition _extract_single_job (job_element : ItemElement)
    (selectors : dict string) (page : Page) : option (dict string) :=
  catch
    (let job_data := extract_fields job_element selectors page in
     if missing job_data "title" && missing job_data "company"
     then Ok None
     else
       let job_data :=
         if truthy_opt (get job_data "link")
         then set job_data "link"
                (_normalize_url (get_default job_data "link" "") (url page))
         else job_data in
       raw_html <- inner_html job_element ;;
       let job_data := set job_data "raw_html" raw_html in
       Ok (Some job_data))
    (fun e => None).

(** The inner [for job_item in job_items] loop. *)
Definition extract_items (job_items : list ItemElement)
    (selectors : dict string) (page : Page) (jobs : list (dict string))
  : list (dict string) :=
  fold_left
    (fun jobs job_item =>
       match _extract_single_job job_item selectors page with
       | Some job_data =>
           if nonempty job_data then jobs ++ [job_data] else jobs
       | None => jobs
       end)
    job_items jobs.

(** The outer [for job_list in job_list_elements] loop. *)
Fixpoint extract_lists (job_list_elements : list ListElement)
    (job_item_selector : string) (selectors : dict string) (page : Page)
    (jobs : list (dict string)) : Result (list (dict string)) :=
  match job_list_elements with
  | [] => Ok jobs
  | job_list :: rest =>
      job_items <- list_query_selector_all job_list job_item_selector ;;
      extract_lists rest job_item_selector selectors page
        (extract_items job_items selectors page jobs)
  end.

(** [extract_jobs]; [_wait_for_content_load] catches its own exceptions
    and reads nothing. *)
Definition extract_jobs (page : Page) (selectors : dict string) : Extraction :=
  catch
    (let job_list_selector := get_default selectors "jobList" "" in
     if negb (truthy job_list_selector)
     then Ok (failed "缺少职位列表选择器")
     else
       job_list_elements <- query_selector_all page job_list_selector ;;
       if negb (nonempty job_list_elements)
       then Ok (failed ("未找到职位列表: " ++ job_list_selector))
       else
         let job_item_selector := get_default selectors "jobItem" "" in
         if negb (truthy job_item_selector)
         then Ok (failed "缺少职位项选择器")
         else
           jobs <- extract_lists job_list_elements job_item_selector
                     selectors page [] ;;
           Ok {| success := true; jobs := jobs; error := None |})
    (fun e => failed e).

(** ** [find_next_page]

    [query] is [page.query_selector_all] on next-page selectors.  The
    result is the returned dictionary: [has_next] and [next_url], with the
    [error] entry beside them. *)

Definition fallback_selectors : list string :=
  [ "a[aria-label*=" ++ SelectorGenerator.quoted "next" ++ "]";
    "a[aria-label*=" ++ SelectorGenerator.quoted "下一页" ++ "]";
    ".next:not(.disabled)";
    "[data-page=" ++ SelectorGenerator.quoted "next" ++ "]";
    "a:has-text(" ++ SelectorGenerator.quoted "Next" ++ ")";
    "a:has-text(" ++ SelectorGenerator.quoted "下一页" ++ ")";
    "a:has-text(" ++ SelectorGenerator.quoted ">" ++ ")" ]%string.

(** The [for fallback in fallback_selectors] loop; [next_elements] is the
    variable it overwrites. *)
Fixpoint try_fallbacks (query : string -> Result (list NextElement))
    (fallbacks : list string) (next_elements : list NextElement)
  : Result (list NextElement) :=
  match fallbacks with
  | [] => Ok next_elements
  | fallback :: rest =>
      next_elements <- query fallback ;;
      if nonempty next_elements then Ok next_elements
      else try_fallbacks query rest next_elements
  end.

(** The [for element in next_elements] loop. *)
Fixpoint first_usable (next_elements : list NextElement)
  : Result (option NextElement) :=
  match next_elements with
  | [] => Ok None
  | element :: rest =>
      is_disabled <- next_disabled element ;;
      class_attr <- next_class element ;;
      let class_attr :=
        if truthy_opt class_attr then SelectorGenerator.opt_str class_attr
        else "" in
      if negb (truthy_opt is_disabled)
         && negb (contains "disabled" (lower class_attr))
      then Ok (Some element)
      else first_usable rest
  end.

Definition no_next : NextPage := {| has_next := false; next_url := None |}.

Definition find_next_page (query : string -> Result (list NextElement))
    (page : Page) (next_page_selector : string) : NextPage * option string :=
  catch
    (if negb (truthy next_page_selector)
     then Ok (no_next, Some "缺少下一页选择器")
     else
       next_elements <- query next_page_selector ;;
       next_elements <-
         (if negb (nonempty next_elements)
          then try_fallbacks query fallback_selectors next_elements
          else Ok next_elements) ;;
       if negb (nonempty next_elements)
       then Ok (no_next, Some "未找到下一页元素")
       else
         next_element <- first_usable next_elements ;;
         match next_element with
         | None => Ok (no_next, Some "下一页元素不可用")
         | Some next_element =>
             href <- next_href next_element ;;
             if truthy_opt href then
               let next_url :=
                 _normalize_url (SelectorGenerator.opt_str href) (url page) in
               Ok ({| has_next := true; next_url := Some next_url |}, None)
             else
               Ok (catch
                     (new_url <- next_click next_element ;;
                      Ok ({| has_next := true; next_url := Some new_url |},
                          None))
                     (fun e =>
                        (no_next, Some ("点击下一页失败: " ++ e)%string)))
         end)
    (fun e => (no_next, Some e)).

(** ** [validate_page_structure]

    [checked_selector], [found] and [check_valid] are the [selector],
    [found] and [valid] of one entry; [structure_valid], [checks] and
    [structure_errors] are the [valid], [selectors] and [errors] of the
    result. *)
Record SelectorCheck : Type := {
  checked_selector : string;
  found : nat;
  check_valid : bool
}.

Record StructureValidation : Type := {
  structure_valid : bool;
  checks : dict SelectorCheck;
  structure_errors : list string
}.

Definition required_selectors : list string := ["jobList"; "jobItem"; "jobTitle"].

(** The [for key in required_selectors] loop; the third component is the
    exception that left it, if one did. *)
Fixpoint check_required (page : Page) (selectors : dict string)
    (required : list string) (checked : dict SelectorCheck)
    (errors : list string)
  : dict SelectorCheck * list string * option string :=
  match required with
  | [] => (checked, errors, None)
  | key :: rest =>
      let selector := get_default selectors key "" in
      if negb (truthy selector) then
        check_required page selectors rest checked
          (errors ++ [("缺少必需选择器: " ++ key)%string])
      else
        match query_selector_all page selector with
        | Raise e => (checked, errors, Some e)
        | Ok elements =>
            let checked :=
              set checked key
                {| checked_selector := selector;
                   found := List.length elements;
                   check_valid := 0 <? List.length elements |} in
            let errors :=
              if List.length elements =? 0
              then errors ++
                   [("选择器无效: " ++ key ++ "[" ++ selector ++ "]")%string]
              else errors in
            check_required page selectors rest checked errors
        end
  end.

Definition validate_page_structure (page : Page) (selectors : dict string)
  : StructureValidation :=
  match check_required page selectors required_selectors [] [] with
  | (checked, errors, Some e) =>
      {| structure_valid := false;
         checks := checked;
         structure_errors := errors ++ [("验证过程出错: " ++ e)%string] |}
  | (checked, errors, None) =>
      let job_items :=
        match get checked "jobItem" with
        | Some entry => found entry
        | None => 0
        end in
      let errors :=
        if job_items =? 0 then errors ++ ["未找到任何职位项"]
        else if 200 <? job_items
        then errors ++ [("职位项数量异常: " ++ str_of_nat job_items)%string]
        else errors in
      {| structure_valid := List.length errors =? 0;
         checks := checked;
         structure_errors := errors |}
  end.

End WithUrljoin.

End CrawlerAgent.

(* ===================================================================== *)
(** * app/core/browser/browser_controller.py *)
(* ===================================================================== *)

Module BrowserController.

Import Playwright.

(** [CrawlResult] and [PageLoadResult], without the wall-clock fields
    [processing_time] and [load_time].  [load_success] and [load_url] are
    the [success] and [url] of [PageLoadResult], whose names [CrawlResult]
    and [Page] already use. *)
Record CrawlResult : Type := {
  success : bool;
  jobs : list (dict string);
  pages_crawled : Z;
  total_pages : option Z;
  errors : list string;
  next_page_url : option string;
  has_next_page : bool
}.

Record PageLoadResult : Type := {
  load_success : bool;
  html_content : string;
  screenshot_path : option string;
  load_url : string;
  error_message : option string
}.

Inductive Browser : Type := BrowserHandle.

(** The attributes of a controller that the crawl reads or writes. *)
Record t : Type := {
  anti_detection : AntiDetection.t;
  browser : option Browser;
  current_page : option Page
}.

(** [__init__]: the anti-detection manager is built here, with its one
    draw. *)
Definition init (behavior_draw : nat) : t :=
  {| anti_detection := AntiDetection.init behavior_draw;
     browser := None;
     current_page := None |}.

Definition initialize (self : t) : t :=
  {| anti_detection := anti_detection self;
     browser := Some BrowserHandle;
     current_page := current_page self |}.

Definition set_current_page (self : t) (page : Page) : t :=
  {| anti_detection := anti_detection self;
     browser := browser self;
     current_page := Some page |}.

(** The settings read from [app.config.settings]. *)
Record Settings : Type := {
  user_agent_rotation : bool;
  human_behavior_simulation : bool
}.

(** What the browser answers during one [load_page]: the page that
    [new_page] opens, the draws of the stealth measures, and the outcome
    of navigation and of reading the content. *)
Record Load : Type := {
  new_page : Result Page;
  stealth_draws : AntiDetection.StealthDraws;
  goto : Result unit;
  content : Result string;
  screenshot : option string
}.

Definition load_failure (target : string) (e : string) : PageLoadResult :=
  {| load_success := false;
     html_content := "";
     screenshot_path := None;
     load_url := target;
     error_message := Some ("页面加载失败: " ++ e)%string |}.

(** [load_page].  [_wait_for_page_load] and [simulate_human_behavior]
    catch their own exceptions and leave the page's identity signals
    alone. *)
Definition load_page (settings : Settings) (self : t) (w : Load)
    (target : string) (wait_for_load take_screenshot : bool)
  : t * PageLoadResult :=
  match browser self with
  | None => (self, load_failure target "浏览器未初始化")
  | Some _ =>
      match new_page w with
      | Raise e => (self, load_failure target e)
      | Ok page =>
          let page :=
            AntiDetection.apply_stealth_measures (anti_detection self)
              (user_agent_rotation settings) (stealth_draws w) page in
          let self := set_current_page self page in
          match goto w with
          | Raise e => (self, load_failure target e)
          | Ok _ =>
              match content w with
              | Raise e => (self, load_failure target e)
              | Ok html =>
                  (self,
                   {| load_success := true;
                      html_content := html;
                      screenshot_path :=
                        if take_screenshot then screenshot w else None;
                      load_url := target;
                      error_message := None |})
              end
          end
      end
  end.

(** What the outside world answers during one turn of the crawl loop. *)
Record Turn : Type := {
  load : Load;
  next_page : CrawlerAgent.NextPage;
  sleep : Result unit
}.

(** The whole run: whether building the agent raises, and the turns. *)
Record World : Type := {
  agent : Result unit;
  turn : nat -> Turn
}.

(** The local variables of [crawl_jobs] together with [self]; [crawled]
    and [errs] are the locals [pages_crawled] and [errors], named apart from
    the fields of [CrawlResult]. *)
Record Loop : Type := {
  self : t;
  all_jobs : list (dict string);
  crawled : Z;
  errs : list string;
  current_url : option string
}.

Section Crawl.

Variable urljoin : string -> string -> Result string.
Variable settings : Settings.
Variable selectors : dict string.
Variable max_pages : Z.

(** The [while] condition. *)
Definition continues (st : Loop) : bool :=
  (crawled st <? max_pages)%Z && truthy_opt (current_url st).

(** [crawler_agent.extract_jobs(self.current_page, selectors)]; with no
    current page the attribute error is caught inside [extract_jobs]. *)
Definition extract_current (self' : t) : CrawlerAgent.Extraction :=
  match current_page self' with
  | Some page => CrawlerAgent.extract_jobs urljoin page selectors
  | None =>
      CrawlerAgent.failed
        "'NoneType' object has no attribute 'query_selector_all'"
  end.

(** One turn of the loop body; the boolean is [true] when the turn
    ends in [break].  The exception handler of the turn is reached when
    the delay before the next page raises. *)
Definition loop_body (w : Turn) (st : Loop) : Loop * bool :=
  let '(self', page_result) :=
    load_page settings (self st) (load w)
      (SelectorGenerator.opt_str (current_url st)) true false in
  if negb (load_success page_result) then
    ({| self := self';
        all_jobs := all_jobs st;
        crawled := crawled st;
        errs := errs st ++
          [("页面 " ++ str_of_Z (crawled st + 1) ++ " 加载失败: "
            ++ SelectorGenerator.opt_str (error_message page_result))%string];
        current_url := current_url st |}, true)
  else
    let extraction_result := extract_current self' in
    if CrawlerAgent.success extraction_result then
      let all_jobs' := all_jobs st ++ CrawlerAgent.jobs extraction_result in
      let crawled' := (crawled st + 1)%Z in
      let next_page_result := next_page w in
      if CrawlerAgent.has_next next_page_result then
        let current_url' := CrawlerAgent.next_url next_page_result in
        match sleep w with
        | Ok _ =>
            ({| self := self';
                all_jobs := all_jobs';
                crawled := crawled';
                errs := errs st;
                current_url := current_url' |}, false)
        | Raise e =>
            ({| self := self';
                all_jobs := all_jobs';
                crawled := crawled';
                errs := errs st ++
                  [("第 " ++ str_of_Z (crawled' + 1) ++ " 页处理异常: "
                    ++ e)%string];
                current_url := current_url' |}, true)
        end
      else
        ({| self := self';
            all_jobs := all_jobs';
            crawled := crawled';
            errs := errs st;
            current_url := current_url st |}, true)
    else
      ({| self := self';
          all_jobs := all_jobs st;
          crawled := crawled st;
          errs := errs st ++
            [("第 " ++ str_of_Z (crawled st + 1) ++ " 页数据提取失败: "
              ++ match CrawlerAgent.error extraction_result with
                 | Some e => e
                 | None => "未知错误"
                 end)%string];
          current_url := current_url st |}, true).

(** The [while] loop.  Every turn that does not [break] adds one to
    [pages_crawled], so [max_pages - pages_crawled] turns are enough;
    [fuel] bounds the turns and [i] numbers them. *)
Fixpoint crawl_loop (fuel : nat) (w : World) (i : nat) (st : Loop) : Loop :=
  if continues st then
    match fuel with
    | O => st
    | S fuel' =>
        let '(st', stop) := loop_body (turn w i) st in
        if stop then st' else crawl_loop fuel' w (S i) st'
    end
  else st.

(** The states at the head of the loop, first to last. *)
Fixpoint crawl_states (fuel : nat) (w : World) (i : nat) (st : Loop)
  : list Loop :=
  st ::
  (if continues st then
     match fuel with
     | O => []
     | S fuel' =>
         let '(st', stop) := loop_body (turn w i) st in
         if stop then [st'] else crawl_states fuel' w (S i) st'
     end
   else []).

Definition initial (self0 : t) (start_url : option string) : Loop :=
  {| self := self0;
     all_jobs := [];
     crawled := 0;
     errs := [];
     current_url := start_url |}.

Definition enough_fuel : nat := Z.to_nat max_pages.

Definition crawl_jobs (self0 : t) (w : World) (start_url : option string)
  : t * CrawlResult :=
  let st0 := initial self0 start_url in
  match agent w with
  | Raise e =>
      (self0,
       {| success := false;
          jobs := all_jobs st0;
          pages_crawled := crawled st0;
          total_pages := None;
          errors := errs st0 ++ [("爬取过程发生异常: " ++ e)%string];
          next_page_url := None;
          has_next_page := false |})
  | Ok _ =>
      let st := crawl_loop enough_fuel w 0 st0 in
      (self st,
       {| success := 0 <? List.length (all_jobs st);
          jobs := all_jobs st;
          pages_crawled := crawled st;
          total_pages := None;
          errors := errs st;
          next_page_url :=
            if (crawled st <? max_pages)%Z then current_url st else None;
          has_next_page :=
            match current_url st with
            | Some _ => (crawled st <? max_pages)%Z
            | None => false
            end |})
  end.

End Crawl.

End BrowserController.

(* ===================================================================== *)
(** * app/services/crawling_service.py *)
(* ===================================================================== *)

Module CrawlingService.

Inductive SessionStatus : Type :=
| PENDING | RUNNING | COMPLETED | FAILED | CANCELLED.

(** The columns of [CrawlSession] that [save_crawl_results] writes. *)
Record CrawlSession : Type := {
  status : SessionStatus;
  pages_crawled : Z;
  jobs_found : nat;
  jobs_saved : nat;
  errors_count : nat
}.

Definition quality_threshold : float := 0.5%float.

(** [job.data_quality_score >= 0.5] *)
Definition meets_threshold (data_quality_score : float) : bool :=
  PrimFloat.leb quality_threshold data_quality_score.

Section WithStrptime.

(** [datetime.strptime(text, fmt)]; [None] stands for [ValueError]. *)
Variable strptime : string -> string -> option Job.datetime.

Definition date_formats : list string :=
  ["%Y-%m-%d"; "%Y/%m/%d"; "%m/%d/%Y"; "%d/%m/%Y";
   "%Y-%m-%d %H:%M:%S"; "%Y/%m/%d %H:%M:%S"].

Fixpoint first_parse (text : string) (formats : list string)
  : option Job.datetime :=
  match formats with
  | [] => None
  | fmt :: rest =>
      match strptime text fmt with
      | Some d => Some d
      | None => first_parse text rest
      end
  end.

Definition _parse_date (date_str : option string) : option Job.datetime :=
  if negb (truthy_opt date_str) then None
  else first_parse (strip (SelectorGenerator.opt_str date_str)) date_formats.

(** [Job(...)] as [save_crawl_results] builds it from one extracted
    record, then [update_quality_score]. *)
Definition make_job (job_data : dict string) : Job.t :=
  Job.update_quality_score
    {| Job.title := get_default job_data "title" "";
       Job.company_name := get_default job_data "company" "";
       Job.job_link := get_default job_data "link" "";
       Job.location := get_default job_data "location" "";
       Job.job_description := get_default job_data "description" "";
       Job.published_at := _parse_date (get job_data "published_at");
       Job.salary_range := None;
       Job.job_type := None;
       Job.experience_level := None;
       Job.skills_required := None;
       Job.raw_data := job_data;
       Job.data_quality_score := 0.0%float |}.

(** The [for job_data in jobs] loop, on [(db, saved_jobs)]; [db] is
    the list of rows handed to [self.db.add]. *)
Definition save_step (acc : list Job.t * nat) (job_data : dict string)
  : list Job.t * nat :=
  let '(db, saved_jobs) := acc in
  let job := make_job job_data in
  if meets_threshold (Job.data_quality_score job)
  then (db ++ [job], saved_jobs + 1)
  else (db, saved_jobs).

(** [save_crawl_results]: the rows added and the session as updated,
    or the [ValueError] when the session is unknown ([session] is what
    the query for [session_id] finds). *)
Definition save_crawl_results (session_id : string)
    (session : option CrawlSession)
    (jobs : list (dict string)) (crawl_result : BrowserController.CrawlResult)
  : Result (list Job.t * CrawlSession) :=
  match session with
  | None => Raise ("会话不存在: " ++ session_id)
  | Some _ =>
      let '(db, saved_jobs) := fold_left save_step jobs ([], 0) in
      Ok (db,
          {| status := COMPLETED;
             pages_crawled := BrowserController.pages_crawled crawl_result;
             jobs_found := List.length jobs;
             jobs_saved := saved_jobs;
             errors_count :=
               List.length (BrowserController.errors crawl_result) |})
  end.

End WithStrptime.

End CrawlingService.

(* ===================================================================== *)
(** * Concrete documents, pages and runs *)
(* ===================================================================== *)

Module Examples.

Import SelectorGenerator Playwright.

(** A document given by the table of what its selectors find; a selector
    outside the table finds nothing. *)
Definition soup_of (table : dict (Result (list Tag))) : Soup :=
  {| select := fun selector => get_default table selector (Ok []) |}.

Definition plain (name : string) : Tag := mkTag name None None.

Definition under (classes : list string) (name : string) : Tag :=
  mkTag name None (Some (mkTag "div" (Some classes) None)).

(** Scenario A of the specification: one [.job-list] holding three
    [.job-item], each with a [.title] and a [.company]. *)
Definition scenario_a : Soup :=
  soup_of
    [ (".job-list", Ok [plain "ul"]);
      (".job-item", Ok (repeat (under ["job-list"] "li") 3));
      (".title", Ok (repeat (under ["job-item"] "h3") 3));
      (".company", Ok (repeat (under ["job-item"] "span") 3));
      ("[[broken", Raise "Malformed attribute selector") ].

Definition scenario_a_selectors : dict string :=
  [ ("jobList", ".job-list"); ("jobItem", ".job-item");
    ("jobTitle", ".title"); ("companyName", ".company") ].

(** A document on which a long selector is first simplified, and the
    simplified selector is then narrowed. *)
Definition long_selector : string := "main section ul li .x".

Definition drifting : Soup :=
  soup_of
    [ (long_selector, Ok (repeat (under ["list"] "a") 60));
      (".x", Ok (repeat (under ["list"] "a") 100));
      (".list .x", Ok (repeat (under ["list"] "a") 80)) ].

(** A document with ten [div]s and one [.jobs-list]. *)
Definition ten_divs : Soup :=
  soup_of
    [ ("div", Ok (repeat (plain "div") 10));
      (".jobs-list", Ok [plain "ul"]) ].

(** A document for which the selector [div[[] is malformed, while the
    catalogue's [.job-title] finds two headings. *)
Definition strict : Soup :=
  soup_of
    [ ("div[[", Raise "Malformed attribute selector");
      (".job-title", Ok (repeat (plain "h3") 2)) ].

(** The test suite's malformed selector, added to scenario A. *)
Definition with_invalid : dict string :=
  scenario_a_selectors ++ [("invalid", "[[broken")].

(** A document on which the simplified selector needs no further move. *)
Definition settling : Soup :=
  soup_of
    [ ("main section ul li .y", Ok (repeat (under ["list"] "a") 30));
      (".y", Ok (repeat (under ["list"] "a") 40)) ].

(** No date text is recognised. *)
Definition no_dates : string -> string -> option Job.datetime :=
  fun _ _ => None.

(** An extracted record with a title and a company. *)
Definition title_and_company : dict string :=
  [("title", "Engineer"); ("company", "Acme"); ("raw_html", "<h3>Engineer</h3>")].

Definition some_session : CrawlingService.CrawlSession :=
  {| CrawlingService.status := CrawlingService.RUNNING;
     CrawlingService.pages_crawled := 0;
     CrawlingService.jobs_found := 0;
     CrawlingService.jobs_saved := 0;
     CrawlingService.errors_count := 0 |}.

(** A listing page whose single item carries a title and no company. *)
Definition title_field : FieldElement :=
  {| get_attribute_href := Ok None; inner_text := Ok "  Engineer " |}.

Definition item_with_title : ItemElement :=
  {| query_selector := fun selector =>
       if String.eqb selector ".title" then Ok (Some title_field) else Ok None;
     inner_html := Ok "<h3>Engineer</h3>" |}.

(** The same item when the document drops it after its fields were
    read: reading its markup raises. *)
Definition detached_item : ItemElement :=
  {| query_selector := fun selector =>
       if String.eqb selector ".title" then Ok (Some title_field) else Ok None;
     inner_html := Raise "Element is not attached to the DOM" |}.

Definition company_field : FieldElement :=
  {| get_attribute_href := Ok None; inner_text := Ok "Acme" |}.

(** An item with a title and a company. *)
Definition item_with_both : ItemElement :=
  {| query_selector := fun selector =>
       if String.eqb selector ".title" then Ok (Some title_field)
       else if String.eqb selector ".company" then Ok (Some company_field)
       else Ok None;
     inner_html := Ok "<h3>Engineer</h3><span>Acme</span>" |}.

(** An item with neither a title nor a company. *)
Definition blank_item : ItemElement :=
  {| query_selector := fun selector => Ok None;
     inner_html := Ok "<li></li>" |}.

Definition listing_of (items : list ItemElement) : ListElement :=
  {| list_query_selector_all := fun selector =>
       if String.eqb selector ".job-item" then Ok items else Ok [] |}.

Definition page_of (address : string) (items : list ItemElement) : Page :=
  {| url := address;
     query_selector_all := fun selector =>
       if String.eqb selector ".job-list" then Ok [listing_of items] else Ok [];
     call_raises := fun _ => None;
     user_agent := None;
     viewport := None;
     init_scripts := 0;
     timezone := None;
     geolocation := None |}.

Definition crawl_selectors : dict string :=
  [ ("jobList", ".job-list"); ("jobItem", ".job-item");
    ("jobTitle", ".title"); ("companyName", ".company") ].

Definition simple_urljoin (base link : string) : Result string :=
  Ok (base ++ link)%string.

Definition default_settings : BrowserController.Settings :=
  {| BrowserController.user_agent_rotation := true;
     BrowserController.human_behavior_simulation := true |}.

Definition draws_all (n : nat) : AntiDetection.StealthDraws :=
  {| AntiDetection.user_agent_draw := n;
     AntiDetection.viewport_draw := n;
     AntiDetection.timezone_draw := n;
     AntiDetection.location_draw := n |}.

(** Turn [i] of a run: the first two pages load, hold the given items and
    link to a next page; from the third turn on the page does not load.
    The draws of turn [i] are all [i]. *)
Definition turn_of (items : list ItemElement) (i : nat)
  : BrowserController.Turn :=
  {| BrowserController.load :=
       {| BrowserController.new_page :=
            if i <? 2
            then Ok (page_of "https://example.com/jobs" items)
            else Raise "Target closed";
          BrowserController.stealth_draws := draws_all i;
          BrowserController.goto := Ok tt;
          BrowserController.content := Ok "<html></html>";
          BrowserController.screenshot := None |};
     BrowserController.next_page :=
       {| CrawlerAgent.has_next := true;
          CrawlerAgent.next_url :=
            Some ("https://example.com/jobs?page=" ++ str_of_nat (i + 2))%string |};
     BrowserController.sleep := Ok tt |}.

Definition world_of (items : list ItemElement) : BrowserController.World :=
  {| BrowserController.agent := Ok tt;
     BrowserController.turn := turn_of items |}.

(** The run whose pages hold one item each, with a title and no company. *)
Definition two_pages_then_failure : BrowserController.World :=
  world_of [item_with_title].

(** A controller as [execute_crawling_task] prepares it. *)
Definition fresh_controller : BrowserController.t :=
  BrowserController.initialize (BrowserController.init 0).

Definition start_url : option string := Some "https://example.com/jobs".

End Examples.

(* ===================================================================== *)
(** * Notions used to state the properties *)
(* ===================================================================== *)

Module Notions.

Import SelectorGenerator.

(** A locator matches when its evaluation returns at least one element;
    an evaluation that raises matches nothing. *)
Definition matches (soup : Soup) (locator : string) : bool :=
  match select soup locator with
  | Ok elements => nonempty elements
  | Raise _ => false
  end.

(** The roles of a locator set whose locator matches. *)
Definition matched_roles (soup : Soup) (selectors : dict string) : list string :=
  keys (filter (fun item => matches soup (snd item)) selectors).

(** A stored row is accepted when its score passes the threshold of
    [save_crawl_results]. *)
Definition accepted (job : Job.t) : bool :=
  CrawlingService.meets_threshold (Job.data_quality_score job).

Section Crawl.

Import BrowserController.

Variable urljoin : string -> string -> Result string.
Variable settings : Settings.
Variable selectors : dict string.
Variable max_pages : Z.

(** The page of this turn loads and its extraction succeeds. *)
Definition extraction_succeeds (w : Turn) (st : Loop) : bool :=
  let '(self', page_result) :=
    load_page settings (self st) (load w)
      (SelectorGenerator.opt_str (current_url st)) true false in
  load_success page_result
  && CrawlerAgent.success (extract_current urljoin selectors self').

(** The state at the head of the turn at which the loop stops because
    the page failed to load or to extract, if it stops so. *)
Fixpoint failure_stop (fuel : nat) (w : World) (i : nat) (st : Loop)
  : option Loop :=
  if continues max_pages st then
    match fuel with
    | O => None
    | S fuel' =>
        if extraction_succeeds (turn w i) st then
          let '(st', stop) :=
            loop_body urljoin settings selectors (turn w i) st in
          if stop then None else failure_stop fuel' w (S i) st'
        else Some st
    end
  else None.

End Crawl.

(** The records that a run of items contributes, in order: one for each
    item [_extract_single_job] returns a record for, none for the others. *)
Definition records_of (urljoin : string -> string -> Result string)
    (selectors : dict string) (page : Playwright.Page)
    (items : list Playwright.ItemElement) : list (dict string) :=
  flat_map
    (fun item =>
       match CrawlerAgent._extract_single_job urljoin item selectors page with
       | Some job_data => if nonempty job_data then [job_data] else []
       | None => []
       end)
    items.

(** The identity signals of the current page at each state of a run. *)
Definition page_fingerprints (states : list BrowserController.Loop)
  : list (option (option string * option Playwright.Viewport
                  * option string * option Playwright.Geolocation)) :=
  map (fun st =>
         option_map AntiDetection.fingerprint
           (BrowserController.current_page (BrowserController.self st)))
      states.

(** The signals that the draws [d] select. *)
Definition drawn_fingerprint (d : AntiDetection.StealthDraws)
  : option string * option Playwright.Viewport
    * option string * option Playwright.Geolocation :=
  (Some (AntiDetection.random_choice (AntiDetection.user_agent_draw d)
           AntiDetection.user_agents ""),
   Some (AntiDetection.random_choice (AntiDetection.viewport_draw d)
           AntiDetection.viewport_sizes
           {| Playwright.width := 0; Playwright.height := 0 |}),
   Some (AntiDetection.random_choice (AntiDetection.timezone_draw d)
           AntiDetection.timezones ""),
   Some (AntiDetection.random_choice (AntiDetection.location_draw d)
           AntiDetection.locations
           {| Playwright.latitude := 0; Playwright.longitude := 0 |})).

(** The locator that [generate_selectors] settles on for a role: the
    optimizer's answer when it is non-empty, else the first matching catalogue
    pattern, else none. *)
Definition chosen_locator (ai_selectors : dict string)
    (detected_elements : dict (list string)) (soup : SelectorGenerator.Soup)
    (key : string) : option string :=
  match SelectorGenerator._optimize_selector key
          (get_default ai_selectors key "") soup detected_elements with
  | Ok optimized =>
      if truthy_opt optimized then optimized
      else
        let fallback :=
          SelectorGenerator._generate_fallback_selector key soup in
        if truthy_opt fallback then fallback else None
  | Raise _ => None
  end.

(** The three roles whose expected number of matches is bounded. *)
Definition counted_role (selector_type : string) : bool :=
  SelectorGenerator.in_list selector_type ["jobList"; "jobItem"; "nextPage"].

(** The report entry that validation writes for a locator. *)
Definition report_entry (soup : SelectorGenerator.Soup) (locator : string)
  : PageAnalyzer.SelectorResult :=
  match SelectorGenerator.select soup locator with
  | Ok elements =>
      {| PageAnalyzer.valid := 0 <? List.length elements;
         PageAnalyzer.count := List.length elements;
         PageAnalyzer.selector := locator;
         PageAnalyzer.notes :=
           if 0 <? List.length elements
           then ("找到" ++ str_of_nat (List.length elements) ++ "个元素")%string
           else "未找到元素" |}
  | Raise e =>
      {| PageAnalyzer.valid := false;
         PageAnalyzer.count := 0;
         PageAnalyzer.selector := locator;
         PageAnalyzer.notes := ("选择器错误: " ++ e)%string |}
  end.

(** The number of elements that a configured selector of a role finds on
    a page; [None] when the role has no selector or the query raises. *)
Definition found_count (page : Playwright.Page) (selectors : dict string)
    (key : string) : option nat :=
  let selector := get_default selectors key "" in
  if truthy selector then
    match Playwright.query_selector_all page selector with
    | Ok elements => Some (List.length elements)
    | Raise _ => None
    end
  else None.

(** A next-page element that [find_next_page] passes over: its [disabled]
    attribute is a non-empty string, or its class contains [disabled]. *)
Definition marked_disabled (element : Playwright.NextElement) : bool :=
  match Playwright.next_disabled element, Playwright.next_class element with
  | Ok is_disabled, Ok class_attr =>
      truthy_opt is_disabled
      || contains "disabled" (lower (SelectorGenerator.opt_str class_attr))
  | _, _ => false
  end.

(** The last character of a string. *)
Fixpoint last_char (s : string) : option ascii :=
  match s with
  | EmptyString => None
  | String c EmptyString => Some c
  | String _ rest => last_char rest
  end.

(** A string that starts or ends with a blank. *)
Definition blank_edged (s : string) : bool :=
  match s with
  | EmptyString => false
  | String c _ =>
      is_space c
      || match last_char s with Some d => is_space d | None => false end
  end.

(** What an extracted record always holds. *)
Definition well_formed_record (job_data : dict string) : bool :=
  (truthy_opt (get job_data "title") || truthy_opt (get job_data "company"))
  && match get job_data "raw_html" with Some _ => true | None => false end.

End Notions.

(* ===================================================================== *)
(** * Properties *)
(* ===================================================================== *)

(** ** Dictionaries and strings *)

Lemma get_set_same {V} (d : dict V) (k : string) (v : V) :
  get (set d k v) k = Some v.
Proof.
  induction d as [|[k' v'] d IH]; simpl.
  - now rewrite String.eqb_refl.
  - destruct (String.eqb k k') eqn:E; simpl; rewrite E; auto.
Qed.

Lemma get_set_other {V} (d : dict V) (k k' : string) (v : V) :
  k <> k' -> get (set d k v) k' = get d k'.
Proof.
  intros Hne. induction d as [|[k0 v0] d IH]; simpl.
  - destruct (String.eqb k' k) eqn:E; auto.
    apply String.eqb_eq in E. congruence.
  - destruct (String.eqb k k0) eqn:E; simpl.
    + apply String.eqb_eq in E. subst k0.
      destruct (String.eqb k' k) eqn:E'; auto.
      apply String.eqb_eq in E'. congruence.
    + now rewrite IH.
Qed.

Lemma truthy_app_char (w : string) (c : ascii) :
  truthy (w ++ String c "")%string = true.
Proof. destruct w; reflexivity. Qed.

(** Every piece that [str.split()] returns is non-empty. *)
Lemma split_from_truthy (s w : string) :
  Forall (fun piece => truthy piece = true) (split_from w s).
Proof.
  revert w. induction s as [|c s IH]; intros w; simpl.
  - destruct (truthy w) eqn:E; auto.
  - destruct (is_space c).
    + destruct (truthy w) eqn:E; auto.
    + apply IH.
Qed.

Lemma split_last_truthy (s : string) :
  split s <> [] -> truthy (last (split s) "") = true.
Proof.
  intros Hne. pose proof (split_from_truthy s "") as HF.
  fold (split s) in HF.
  destruct (exists_last Hne) as [front [piece Heq]].
  rewrite Heq in *. rewrite last_last.
  apply Forall_app in HF. destruct HF as [_ HF]. now inversion HF.
Qed.

(** ** The validation loop *)

Module ValidateFacts.

Import SelectorGenerator PageAnalyzer Notions.

Lemma nonempty_length {A} (l : list A) : (0 <? List.length l) = nonempty l.
Proof. destruct l; reflexivity. Qed.

Lemma validate_entry_count (soup : Soup) (n : nat)
    (results : dict SelectorResult) (item : string * string) :
  fst (validate_entry soup (n, results) item)
  = n + (if matches soup (snd item) then 1 else 0).
Proof.
  destruct item as [key locator]. unfold validate_entry, matches. simpl.
  destruct (select soup locator) as [elements|e]; simpl.
  - rewrite nonempty_length. destruct (nonempty elements); simpl; lia.
  - lia.
Qed.

Lemma validate_loop_count (soup : Soup) (selectors : dict string) :
  forall state,
    fst (fold_left (validate_entry soup) selectors state)
    = fst state + List.length (matched_roles soup selectors).
Proof.
  unfold matched_roles, keys.
  induction selectors as [|item rest IH]; intros [n results].
  - simpl. lia.
  - cbn [fold_left]. rewrite IH.
    rewrite (validate_entry_count soup n results item).
    cbn [filter fst]. destruct (matches soup (snd item)); simpl; lia.
Qed.

(** The entry that the loop leaves for a role is the one written when
    the role was visited. *)
Lemma validate_loop_other (soup : Soup) (selectors : dict string) (key : string) :
  ~ In key (keys selectors) ->
  forall state,
    get (snd (fold_left (validate_entry soup) selectors state)) key
    = get (snd state) key.
Proof.
  induction selectors as [|[k locator] rest IH]; intros Hnot state; simpl.
  - reflexivity.
  - simpl in Hnot. rewrite IH by tauto.
    destruct state as [n results]. unfold validate_entry.
    destruct (select soup locator); simpl; apply get_set_other; tauto.
Qed.

Lemma validate_loop_raised (soup : Soup) (selectors : dict string)
    (key locator e : string) :
  well_formed selectors ->
  In (key, locator) selectors ->
  select soup locator = Raise e ->
  forall state,
    get (snd (fold_left (validate_entry soup) selectors state)) key
    = Some {| valid := false; count := 0; selector := locator;
              notes := ("选择器错误: " ++ e)%string |}.
Proof.
  unfold well_formed, keys.
  induction selectors as [|[k l] rest IH]; intros Hwf Hin Hsel state.
  - destruct Hin.
  - simpl in Hwf. inversion Hwf as [|? ? Hnot Hwf']; subst.
    destruct Hin as [Heq|Hin].
    + inversion Heq; subst. simpl.
      rewrite (validate_loop_other soup rest key Hnot).
      destruct state as [n results]. unfold validate_entry.
      rewrite Hsel. simpl. apply get_set_same.
    + simpl. now apply IH.
Qed.

Lemma ratio_as_quotient (a b : nat) :
  0 < b ->
  (Z.of_nat a # Pos.of_nat b == inject_Z (Z.of_nat a) / inject_Z (Z.of_nat b))%Q.
Proof.
  intros Hb. rewrite (Qmake_Qdiv (Z.of_nat a) (Pos.of_nat b)).
  replace (Z.pos (Pos.of_nat b)) with (Z.of_nat b); [reflexivity|].
  rewrite <- positive_nat_Z, Nat2Pos.id by lia. reflexivity.
Qed.

End ValidateFacts.

(** C1.  For every locator set and every parsed document, [validate_selectors]
    returns normally, and its [overall_score] is the number of roles whose
    locator matches at least one element divided by the number of roles of
    the set; it is 0 for the empty set.  A locator whose evaluation raises
    counts as matching nothing (see [Notions.matches]). *)
Theorem validate_overall_score (selectors : dict string)
    (soup : SelectorGenerator.Soup) :
  exists r,
    PageAnalyzer.validate_selectors selectors (Ok soup) = Ok r
    /\ (PageAnalyzer.overall_score r ==
        if 0 <? List.length (keys selectors)
        then inject_Z (Z.of_nat (List.length (Notions.matched_roles soup selectors)))
             / inject_Z (Z.of_nat (List.length (keys selectors)))
        else 0)%Q.
Proof.
  unfold PageAnalyzer.validate_selectors. cbn [Py.bind try_except].
  pose proof (ValidateFacts.validate_loop_count soup selectors (0, [])) as Hc.
  destruct (fold_left (PageAnalyzer.validate_entry soup) selectors (0, []))
    as [valid_selectors results] eqn:Hloop.
  cbn [fst] in Hc. eexists. split; [reflexivity|].
  cbn [PageAnalyzer.overall_score].
  assert (Hlen : List.length (keys selectors) = List.length selectors)
    by apply length_map.
  rewrite Hlen.
  destruct (0 <? List.length selectors) eqn:Hpos.
  - apply Nat.ltb_lt in Hpos. rewrite Hc, Nat.add_0_l.
    now apply ValidateFacts.ratio_as_quotient.
  - reflexivity.
Qed.

(** ** The optimizer *)

Module OptimizerFacts.

Import SelectorGenerator.

Lemma simplify_move_some (s s' : string) (elements : list Tag) (soup : Soup) :
  simplify_move s elements soup = Ok (Some s') ->
  4 < List.length (split s)
  /\ s' = last (split s) ""
  /\ exists found,
       select soup s' = Ok found
       /\ nonempty found = true
       /\ List.length found <= 2 * List.length elements.
Proof.
  unfold simplify_move.
  destruct (4 <? List.length (split s)) eqn:Hparts; [|discriminate].
  apply Nat.ltb_lt in Hparts. unfold Py.bind.
  destruct (select soup (last (split s) "")) as [found|e] eqn:Hsel;
    [|discriminate].
  destruct (nonempty found) eqn:Hne; simpl; [|discriminate].
  destruct (List.length found <=? List.length elements * 2) eqn:Hle;
    [|discriminate].
  intros H. inversion H; subst s'. apply Nat.leb_le in Hle.
  repeat split; auto. exists found. repeat split; auto. lia.
Qed.

Lemma narrow_move_some (s s' : string) (elements : list Tag) (soup : Soup) :
  narrow_move s elements soup = Ok (Some s') ->
  50 < List.length elements
  /\ exists first_element parent c cs found,
       hd_error elements = Some first_element
       /\ tag_parent first_element = Some parent
       /\ tag_class parent = Some (c :: cs)
       /\ s' = ("." ++ join "." (c :: cs) ++ " " ++ s)%string
       /\ select soup s' = Ok found
       /\ nonempty found = true
       /\ List.length found < List.length elements.
Proof.
  unfold narrow_move.
  destruct (50 <? List.length elements) eqn:Hmany; [|discriminate].
  apply Nat.ltb_lt in Hmany.
  destruct elements as [|first_element rest]; [discriminate|].
  destruct (tag_parent first_element) as [parent|] eqn:Hp; [|discriminate].
  destruct (tag_class parent) as [[|c cs]|] eqn:Hc; try discriminate.
  unfold Py.bind.
  destruct (select soup ("." ++ join "." (c :: cs) ++ " " ++ s)%string)
    as [found|e] eqn:Hsel; [|discriminate].
  destruct (nonempty found) eqn:Hne; simpl; [|discriminate].
  destruct (List.length found <? S (List.length rest)) eqn:Hlt; [|discriminate].
  intros H. inversion H; subst s'. apply Nat.ltb_lt in Hlt.
  split; [exact Hmany|].
  exists first_element, parent, c, cs, found. repeat split; auto.
Qed.

Lemma improve_some (s s' : string) (elements : list Tag) (soup : Soup) :
  _improve_selector s elements soup = Ok (Some s') ->
  simplify_move s elements soup = Ok (Some s')
  \/ (simplify_move s elements soup = Ok None
      /\ narrow_move s elements soup = Ok (Some s')).
Proof.
  unfold _improve_selector, Py.bind.
  destruct (simplify_move s elements soup) as [[simplified|]|e];
    intros H; try discriminate; auto.
Qed.

(** An improved selector is non-empty and finds something. *)
Lemma improve_selected (s s' : string) (elements : list Tag) (soup : Soup) :
  _improve_selector s elements soup = Ok (Some s') ->
  truthy s' = true
  /\ exists found, select soup s' = Ok found /\ nonempty found = true.
Proof.
  intros H. destruct (improve_some _ _ _ _ H) as [H1|[_ H2]].
  - apply simplify_move_some in H1.
    destruct H1 as (Hparts & Hlast & found & Hsel & Hne & _). split.
    + subst s'. apply split_last_truthy.
      intros Hnil. rewrite Hnil in Hparts. simpl in Hparts. lia.
    + now exists found.
  - apply narrow_move_some in H2.
    destruct H2 as (_ & f & p & c & cs & found & _ & _ & _ & Hs & Hsel & Hne & _).
    split; [subst s'; reflexivity|]. now exists found.
Qed.

(** Neither move applies to a short selector with few matches. *)
Lemma improve_none_when_small (s : string) (elements : list Tag) (soup : Soup) :
  List.length (split s) <= 4 ->
  List.length elements <= 50 ->
  _improve_selector s elements soup = Ok None.
Proof.
  intros Hparts Hfew. unfold _improve_selector, simplify_move, narrow_move.
  replace (4 <? List.length (split s)) with false
    by (symmetry; apply Nat.ltb_ge; lia).
  replace (50 <? List.length elements) with false
    by (symmetry; apply Nat.ltb_ge; lia).
  reflexivity.
Qed.

(** [_optimize_selector] on a selector that finds something. *)
Lemma optimize_found (selector_type s : string) (soup : Soup)
    (detected : dict (list string)) (elements : list Tag) :
  truthy s = true ->
  select soup s = Ok elements ->
  nonempty elements = true ->
  _optimize_selector selector_type s soup detected
  = if PrimFloat.leb quality_threshold
         (_evaluate_selector_quality selector_type s elements soup)
    then Ok (Some s)
    else match _improve_selector s elements soup with
         | Ok optimized =>
             Ok (if truthy_opt optimized then optimized else Some s)
         | Raise _ => Ok (Some s)
         end.
Proof.
  intros Ht Hsel Hne. unfold _optimize_selector.
  rewrite Ht, Hsel. cbn [negb Py.bind]. rewrite Hne.
  destruct (PrimFloat.leb quality_threshold _); [reflexivity|].
  destruct (_improve_selector s elements soup); reflexivity.
Qed.

(** [_optimize_selector] never raises. *)
Lemma optimize_returns (selector_type s : string) (soup : Soup)
    (detected : dict (list string)) :
  exists o, _optimize_selector selector_type s soup detected = Ok o.
Proof.
  unfold _optimize_selector.
  destruct (negb (truthy s)); [eauto|].
  unfold try_except.
  destruct (_ <- select soup s ;; _)%py; eauto.
Qed.

Lemma optimize_raised (selector_type s e : string) (soup : Soup)
    (detected : dict (list string)) :
  truthy s = true ->
  select soup s = Raise e ->
  _optimize_selector selector_type s soup detected = Ok (Some s).
Proof.
  intros Ht Hsel. unfold _optimize_selector. now rewrite Ht, Hsel.
Qed.

End OptimizerFacts.




(** C4 (amended).  When improving [s] yields [s'], and [s'] has at most
    four parts and finds at most 50 elements, running the optimizer on [s']
    returns [s'] again: a locator on which neither move applies is a fixed
    point.  Nothing is promised for an [s'] that is still long or broad. *)
Theorem optimizer_fixed_point (selector_type s s' : string)
    (elements : list SelectorGenerator.Tag) (soup : SelectorGenerator.Soup)
    (detected : dict (list string)) :
  SelectorGenerator._improve_selector s elements soup = Ok (Some s') ->
  List.length (split s') <= 4 ->
  (forall found,
      SelectorGenerator.select soup s' = Ok found -> List.length found <= 50) ->
  SelectorGenerator._optimize_selector selector_type s' soup detected
  = Ok (Some s').
Proof.
  intros Himp Hparts Hfew.
  destruct (OptimizerFacts.improve_selected _ _ _ _ Himp)
    as (Ht & found & Hsel & Hne).
  rewrite (OptimizerFacts.optimize_found selector_type s' soup detected found
             Ht Hsel Hne).
  destruct (PrimFloat.leb _ _); [reflexivity|].
  now rewrite (OptimizerFacts.improve_none_when_small s' found soup Hparts
                 (Hfew found Hsel)).
Qed.

(** A five-part locator is simplified to [.y], which is then kept. *)
Lemma optimizer_fixed_point_witness :
  SelectorGenerator._optimize_selector "jobList" ".y" Examples.settling []
  = Ok (Some ".y").
Proof.
  apply (optimizer_fixed_point "jobList" "main section ul li .y" ".y"
           (repeat (Examples.under ["list"] "a") 30) Examples.settling []).
  - vm_compute. reflexivity.
  - vm_compute. lia.
  - intros found H. vm_compute in H. inversion H. simpl. lia.
Defined.

(** C4 as stated fails: the five-part locator is simplified to [.x]
    (100 matches, within twice the original 60); improving [.x] on the same
    document narrows it to [.list .x] (80 matches), and so does the optimizer
    for the list role.  A second run does not give [.x] again. *)
Lemma improve_not_idempotent :
  SelectorGenerator._improve_selector Examples.long_selector
    (repeat (Examples.under ["list"] "a") 60) Examples.drifting
  = Ok (Some ".x")
  /\ SelectorGenerator.select Examples.drifting ".x"
     = Ok (repeat (Examples.under ["list"] "a") 100)
  /\ SelectorGenerator._improve_selector ".x"
       (repeat (Examples.under ["list"] "a") 100) Examples.drifting
     = Ok (Some ".list .x")
  /\ SelectorGenerator._optimize_selector "jobList" Examples.long_selector
       Examples.drifting []
     = Ok (Some ".x")
  /\ SelectorGenerator._optimize_selector "jobList" ".x" Examples.drifting []
     = Ok (Some ".list .x")
  /\ ".list .x" <> ".x".
Proof.
  repeat split; try (vm_compute; reflexivity). discriminate.
Qed.




(** ** Saving the records *)

Module SaveFacts.

Import CrawlingService Notions.

Section WithStrptime.

Variable strptime : string -> string -> option Job.datetime.

Lemma save_step_eq (db : list Job.t) (saved_jobs : nat) (job_data : dict string) :
  save_step strptime (db, saved_jobs) job_data
  = if accepted (make_job strptime job_data)
    then (db ++ [make_job strptime job_data], saved_jobs + 1)
    else (db, saved_jobs).
Proof. reflexivity. Qed.

Lemma save_loop (jobs : list (dict string)) :
  forall db saved_jobs,
    fold_left (save_step strptime) jobs (db, saved_jobs)
    = (db ++ filter accepted (map (make_job strptime) jobs),
       saved_jobs + List.length (filter accepted (map (make_job strptime) jobs))).
Proof.
  induction jobs as [|job_data rest IH]; intros db saved_jobs.
  - simpl. now rewrite app_nil_r, Nat.add_0_r.
  - cbn [fold_left map filter]. rewrite save_step_eq.
    destruct (accepted (make_job strptime job_data)).
    + rewrite IH, <- app_assoc. simpl. f_equal. lia.
    + now rewrite IH.
Qed.

Lemma save_returns (session_id : string) (session : CrawlSession)
    (jobs : list (dict string)) (crawl_result : BrowserController.CrawlResult) :
  save_crawl_results strptime session_id (Some session) jobs crawl_result
  = Ok (filter accepted (map (make_job strptime) jobs),
        {| status := COMPLETED;
           pages_crawled := BrowserController.pages_crawled crawl_result;
           jobs_found := List.length jobs;
           jobs_saved :=
             List.length (filter accepted (map (make_job strptime) jobs));
           errors_count :=
             List.length (BrowserController.errors crawl_result) |}).
Proof.
  unfold save_crawl_results. now rewrite save_loop.
Qed.

End WithStrptime.

End SaveFacts.

(** C7.  [save_crawl_results] adds a record's row if and only if the
    row's quality score is at least 0.5, and counts the rows it adds.  The
    test is [score >= 0.5] on binary64: a score of exactly 0.5 passes and
    0.499 does not; a record with a title and a company and nothing else
    scores exactly 0.5 and is accepted. *)
Theorem acceptance_threshold
    (strptime : string -> string -> option Job.datetime)
    (session_id : string) (session : CrawlingService.CrawlSession)
    (jobs : list (dict string)) (crawl_result : BrowserController.CrawlResult) :
  exists db session',
    CrawlingService.save_crawl_results strptime session_id (Some session)
      jobs crawl_result = Ok (db, session')
    /\ (forall job,
           In job db <->
           In job (map (CrawlingService.make_job strptime) jobs)
           /\ PrimFloat.leb 0.5 (Job.data_quality_score job) = true)
    /\ CrawlingService.jobs_saved session' = List.length db
    /\ CrawlingService.meets_threshold 0.5 = true
    /\ CrawlingService.meets_threshold 0.499 = false
    /\ Job.data_quality_score
         (CrawlingService.make_job strptime Examples.title_and_company)
       = 0.5%float.
Proof.
  rewrite SaveFacts.save_returns. eexists. eexists.
  split; [reflexivity|]. split; [|split; [reflexivity|]].
  - intros job. rewrite filter_In. unfold Notions.accepted.
    unfold CrawlingService.meets_threshold, CrawlingService.quality_threshold.
    tauto.
  - repeat split; vm_compute; reflexivity.
Qed.

(** ** The crawl loop *)

Module CrawlFacts.

Import BrowserController Notions.

Section Crawl.

Variable urljoin : string -> string -> Result string.
Variable settings : Settings.
Variable selectors : dict string.
Variable max_pages : Z.

Local Abbreviation body := (loop_body urljoin settings selectors).
Local Abbreviation loop := (crawl_loop urljoin settings selectors max_pages).
Local Abbreviation states := (crawl_states urljoin settings selectors max_pages).
Local Abbreviation succeeds := (extraction_succeeds urljoin settings selectors).

(** [load_page] leaves the anti-detection manager as it is. *)
Lemma load_page_manager (self0 : t) (w : Load) (target : string) (b1 b2 : bool) :
  anti_detection (fst (load_page settings self0 w target b1 b2))
  = anti_detection self0.
Proof.
  unfold load_page.
  destruct (browser self0); [|reflexivity].
  destruct (new_page w); [|reflexivity].
  destruct (goto w); [|reflexivity].
  destruct (content w); reflexivity.
Qed.

(** What one turn does to the page counter, the URL and the manager. *)
Lemma body_counts (w : Turn) (st : Loop) :
  crawled (fst (body w st))
  = (crawled st + (if succeeds w st then 1 else 0))%Z.
Proof.
  unfold loop_body, extraction_succeeds.
  destruct (load_page settings (self st) (load w)
              (SelectorGenerator.opt_str (current_url st)) true false)
    as [self' page_result].
  destruct (load_success page_result); simpl; [|lia].
  destruct (CrawlerAgent.success (extract_current urljoin selectors self'));
    simpl; [|lia].
  destruct (CrawlerAgent.has_next (next_page w)); [|reflexivity].
  destruct (sleep w); reflexivity.
Qed.

Lemma body_goes_on (w : Turn) (st : Loop) :
  snd (body w st) = false -> succeeds w st = true.
Proof.
  unfold loop_body, extraction_succeeds.
  destruct (load_page settings (self st) (load w)
              (SelectorGenerator.opt_str (current_url st)) true false)
    as [self' page_result].
  destruct (load_success page_result); simpl; [|discriminate].
  destruct (CrawlerAgent.success (extract_current urljoin selectors self'));
    simpl; [reflexivity|discriminate].
Qed.

Lemma body_failure (w : Turn) (st : Loop) :
  succeeds w st = false ->
  snd (body w st) = true
  /\ crawled (fst (body w st)) = crawled st
  /\ current_url (fst (body w st)) = current_url st
  /\ all_jobs (fst (body w st)) = all_jobs st
  /\ exists e, errs (fst (body w st)) = errs st ++ [e].
Proof.
  unfold loop_body, extraction_succeeds.
  destruct (load_page settings (self st) (load w)
              (SelectorGenerator.opt_str (current_url st)) true false)
    as [self' page_result].
  destruct (load_success page_result); simpl.
  - destruct (CrawlerAgent.success (extract_current urljoin selectors self'));
      simpl; [discriminate|]. intros _. repeat split. eauto.
  - intros _. repeat split. eauto.
Qed.

Lemma body_manager (w : Turn) (st : Loop) :
  anti_detection (self (fst (body w st))) = anti_detection (self st).
Proof.
  unfold loop_body.
  pose proof (load_page_manager (self st) (load w)
                (SelectorGenerator.opt_str (current_url st)) true false) as Hm.
  destruct (load_page settings (self st) (load w)
              (SelectorGenerator.opt_str (current_url st)) true false)
    as [self' page_result].
  simpl in Hm.
  destruct (load_success page_result); simpl; [|exact Hm].
  destruct (CrawlerAgent.success (extract_current urljoin selectors self'));
    simpl; [|exact Hm].
  destruct (CrawlerAgent.has_next (next_page w)); [|exact Hm].
  destruct (sleep w); exact Hm.
Qed.

Lemma last_cons_default {A} (a d : A) (l : list A) :
  last (a :: l) d = last l a.
Proof.
  revert a d. induction l as [|b l IH]; intros a d; [reflexivity|].
  change (last (a :: b :: l) d) with (last (b :: l) d).
  now rewrite (IH b d), (IH b a).
Qed.

(** The loop ends in the last of the states it goes through. *)
Lemma loop_is_last_state (fuel : nat) (w : World) :
  forall i st d, last (states fuel w i st) d = loop fuel w i st.
Proof.
  induction fuel as [|fuel IH]; intros i st d.
  - simpl. destruct (continues max_pages st); reflexivity.
  - cbn [crawl_states crawl_loop]. rewrite last_cons_default.
    destruct (continues max_pages st); [|reflexivity].
    destruct (body (turn w i) st) as [st' stop].
    destruct stop; [reflexivity|]. apply IH.
Qed.

(** The counter never passes the cap. *)
Lemma states_bounded (fuel : nat) (w : World) :
  forall i st,
    (0 <= crawled st <= max_pages)%Z ->
    Forall (fun st' => (0 <= crawled st' <= max_pages)%Z) (states fuel w i st).
Proof.
  induction fuel as [|fuel IH]; intros i st Hst.
  - simpl. destruct (continues max_pages st);
      (constructor; [exact Hst|constructor]).
  - cbn [crawl_states]. constructor; [exact Hst|].
    destruct (continues max_pages st) eqn:Hc; [|constructor].
    unfold continues in Hc. apply andb_prop in Hc. destruct Hc as [Hlt _].
    apply Z.ltb_lt in Hlt.
    pose proof (body_counts (turn w i) st) as Hn.
    destruct (body (turn w i) st) as [st' stop]. simpl in Hn.
    assert (0 <= crawled st' <= max_pages)%Z
      by (destruct (succeeds (turn w i) st); lia).
    destruct stop; [constructor; [assumption|constructor]|]. now apply IH.
Qed.

(** [max_pages - pages_crawled] turns are enough: more fuel changes
    nothing. *)
Lemma loop_fuel (fuel : nat) (w : World) :
  forall i st,
    (Z.to_nat (max_pages - crawled st) <= fuel)%nat ->
    forall extra, loop (fuel + extra) w i st = loop fuel w i st.
Proof.
  induction fuel as [|fuel IH]; intros i st Hfuel extra.
  - destruct (continues max_pages st) eqn:Hc.
    + unfold continues in Hc. apply andb_prop in Hc. destruct Hc as [Hlt _].
      apply Z.ltb_lt in Hlt. lia.
    + destruct extra; simpl; now rewrite Hc.
  - cbn [Nat.add crawl_loop].
    destruct (continues max_pages st) eqn:Hc; [|reflexivity].
    unfold continues in Hc. apply andb_prop in Hc. destruct Hc as [Hlt _].
    apply Z.ltb_lt in Hlt.
    pose proof (body_counts (turn w i) st) as Hn.
    pose proof (body_goes_on (turn w i) st) as Hgo.
    destruct (body (turn w i) st) as [st' stop]. simpl in Hn, Hgo.
    destruct stop; [reflexivity|].
    apply IH. rewrite Hn, Hgo by reflexivity. lia.
Qed.

Lemma loop_manager (fuel : nat) (w : World) :
  forall i st,
    anti_detection (self (loop fuel w i st)) = anti_detection (self st).
Proof.
  induction fuel as [|fuel IH]; intros i st.
  - simpl. destruct (continues max_pages st); reflexivity.
  - cbn [crawl_loop]. destruct (continues max_pages st); [|reflexivity].
    pose proof (body_manager (turn w i) st) as Hm.
    destruct (body (turn w i) st) as [st' stop]. simpl in Hm.
    destruct stop; [exact Hm|]. now rewrite IH.
Qed.

(** A run that stops on a failure ends in the state of the failed turn,
    with one more error. *)
Lemma loop_failure_stop (fuel : nat) (w : World) :
  forall i st st_f,
    failure_stop urljoin settings selectors max_pages fuel w i st = Some st_f ->
    continues max_pages st_f = true
    /\ crawled (loop fuel w i st) = crawled st_f
    /\ current_url (loop fuel w i st) = current_url st_f.
Proof.
  induction fuel as [|fuel IH]; intros i st st_f.
  - simpl. destruct (continues max_pages st); discriminate.
  - cbn [failure_stop crawl_loop].
    destruct (continues max_pages st) eqn:Hc; [|discriminate].
    destruct (succeeds (turn w i) st) eqn:Hs.
    + destruct (body (turn w i) st) as [st' stop].
      destruct stop; [discriminate|]. apply IH.
    + intros H. inversion H; subst st_f. split; [exact Hc|].
      destruct (body_failure (turn w i) st Hs) as (Hstop & Hn & Hu & _).
      destruct (body (turn w i) st) as [st' stop]. simpl in *.
      subst stop. now split.
Qed.

End Crawl.

End CrawlFacts.

Lemma forall_last {A} (P : A -> Prop) (l : list A) (d : A) :
  P d -> Forall P l -> P (last l d).
Proof.
  intros Hd HF. induction HF as [|a l Ha HF IH]; [exact Hd|].
  destruct l; [exact Ha|exact IH].
Qed.

(** C2.  With a page cap [max_pages] (a count: the request schema admits
    1 to 100), [pages_crawled] lies between 0 and [max_pages] in every state
    the loop goes through and in the result.  One turn of the loop adds
    exactly 1 to it when the page's extraction succeeds and 0 when the load
    or the extraction fails.  The loop needs at most [max_pages] turns, so
    the result does not depend on the bound on turns. *)
Theorem pages_crawled_bounded
    (urljoin : string -> string -> Result string)
    (settings : BrowserController.Settings) (selectors : dict string)
    (max_pages : Z) (self0 : BrowserController.t)
    (w : BrowserController.World) (start_url : option string) :
  (0 <= max_pages)%Z ->
  Forall (fun st => (0 <= BrowserController.crawled st <= max_pages)%Z)
    (BrowserController.crawl_states urljoin settings selectors max_pages
       (BrowserController.enough_fuel max_pages) w 0
       (BrowserController.initial self0 start_url))
  /\ (forall d,
         last (BrowserController.crawl_states urljoin settings selectors
                 max_pages (BrowserController.enough_fuel max_pages) w 0
                 (BrowserController.initial self0 start_url)) d
         = BrowserController.crawl_loop urljoin settings selectors max_pages
             (BrowserController.enough_fuel max_pages) w 0
             (BrowserController.initial self0 start_url))
  /\ (0 <= BrowserController.pages_crawled
             (snd (BrowserController.crawl_jobs urljoin settings selectors
                     max_pages self0 w start_url)) <= max_pages)%Z
  /\ (forall t st,
         BrowserController.crawled
           (fst (BrowserController.loop_body urljoin settings selectors t st))
         = (BrowserController.crawled st
            + (if Notions.extraction_succeeds urljoin settings selectors t st
               then 1 else 0))%Z)
  /\ (forall extra,
         BrowserController.crawl_loop urljoin settings selectors max_pages
           (BrowserController.enough_fuel max_pages + extra) w 0
           (BrowserController.initial self0 start_url)
         = BrowserController.crawl_loop urljoin settings selectors max_pages
             (BrowserController.enough_fuel max_pages) w 0
             (BrowserController.initial self0 start_url)).
Proof.
  intros Hcap.
  assert (Hinit : (0 <= BrowserController.crawled
                          (BrowserController.initial self0 start_url)
                   <= max_pages)%Z) by (simpl; lia).
  pose proof (CrawlFacts.states_bounded urljoin settings selectors max_pages
                (BrowserController.enough_fuel max_pages) w 0 _ Hinit) as Hall.
  split; [exact Hall|]. split; [intros d; apply CrawlFacts.loop_is_last_state|].
  split; [|split].
  - unfold BrowserController.crawl_jobs.
    destruct (BrowserController.agent w); [|exact Hinit]. cbn [snd BrowserController.pages_crawled].
    rewrite <- (CrawlFacts.loop_is_last_state urljoin settings selectors
                  max_pages _ w 0 _ (BrowserController.initial self0 start_url)).
    now apply forall_last.
  - apply CrawlFacts.body_counts.
  - intros extra. apply CrawlFacts.loop_fuel.
    unfold BrowserController.enough_fuel. simpl. rewrite Z.sub_0_r. lia.
Qed.

(** A run capped at ten pages whose third page fails to load. *)
Lemma pages_crawled_bounded_witness :
  (0 <= BrowserController.pages_crawled
          (snd (BrowserController.crawl_jobs Examples.simple_urljoin
                  Examples.default_settings Examples.crawl_selectors 10
                  Examples.fresh_controller Examples.two_pages_then_failure
                  Examples.start_url)) <= 10)%Z.
Proof.
  apply (pages_crawled_bounded Examples.simple_urljoin
           Examples.default_settings Examples.crawl_selectors 10
           Examples.fresh_controller Examples.two_pages_then_failure
           Examples.start_url).
  lia.
Defined.

(** C9.  In every result of [crawl_jobs], [has_next_page] is true exactly
    when [next_page_url] is not [None].  When building the agent raises, the
    result has [has_next_page = False] and no URL.  When the loop stops
    because a page fails to load or to extract, the cap is not reached and
    the result has [has_next_page = True] with the URL of the failed turn. *)
Theorem next_page_consistent
    (urljoin : string -> string -> Result string)
    (settings : BrowserController.Settings) (selectors : dict string)
    (max_pages : Z) (self0 : BrowserController.t)
    (w : BrowserController.World) (start_url : option string) :
  let result :=
    snd (BrowserController.crawl_jobs urljoin settings selectors max_pages
           self0 w start_url) in
  (BrowserController.has_next_page result = true
   <-> BrowserController.next_page_url result <> None)
  /\ (forall e,
         BrowserController.agent w = Raise e ->
         BrowserController.has_next_page result = false
         /\ BrowserController.next_page_url result = None)
  /\ (forall u st_f,
         BrowserController.agent w = Ok u ->
         Notions.failure_stop urljoin settings selectors max_pages
           (BrowserController.enough_fuel max_pages) w 0
           (BrowserController.initial self0 start_url) = Some st_f ->
         (BrowserController.crawled st_f < max_pages)%Z
         /\ BrowserController.pages_crawled result = BrowserController.crawled st_f
         /\ BrowserController.has_next_page result = true
         /\ BrowserController.next_page_url result
            = BrowserController.current_url st_f
         /\ truthy_opt (BrowserController.current_url st_f) = true).
Proof.
  cbv zeta. unfold BrowserController.crawl_jobs. split; [|split].
  - destruct (BrowserController.agent w); simpl.
    + destruct (BrowserController.current_url _);
        destruct (_ <? max_pages)%Z; simpl; split; congruence.
    + split; congruence.
  - intros e He. rewrite He. simpl. auto.
  - intros u st_f Hu Hstop. rewrite Hu. simpl.
    destruct (CrawlFacts.loop_failure_stop urljoin settings selectors max_pages
                _ w 0 _ st_f Hstop) as (Hc & Hn & Hurl).
    unfold BrowserController.continues in Hc.
    apply andb_prop in Hc. destruct Hc as [Hlt Ht].
    rewrite Hn, Hurl, Hlt. apply Z.ltb_lt in Hlt.
    destruct (BrowserController.current_url st_f); [|discriminate]. auto.
Qed.

(** C6 (amended).  The result's [success] is true exactly when at least
    one record was extracted, whatever the records' quality scores; when
    [save_crawl_results] accepts at least one of them, [success] is true. *)
Theorem success_iff_records_found
    (urljoin : string -> string -> Result string)
    (settings : BrowserController.Settings) (selectors : dict string)
    (max_pages : Z) (self0 : BrowserController.t)
    (w : BrowserController.World) (start_url : option string) :
  let result :=
    snd (BrowserController.crawl_jobs urljoin settings selectors max_pages
           self0 w start_url) in
  (BrowserController.success result = true
   <-> 0 < List.length (BrowserController.jobs result))
  /\ (forall strptime session_id session db session',
         CrawlingService.save_crawl_results strptime session_id (Some session)
           (BrowserController.jobs result) result = Ok (db, session') ->
         0 < CrawlingService.jobs_saved session' ->
         BrowserController.success result = true).
Proof.
  cbv zeta.
  assert (Hiff :
    BrowserController.success
      (snd (BrowserController.crawl_jobs urljoin settings selectors max_pages
              self0 w start_url)) = true
    <-> 0 < List.length
              (BrowserController.jobs
                 (snd (BrowserController.crawl_jobs urljoin settings selectors
                         max_pages self0 w start_url)))).
  { unfold BrowserController.crawl_jobs.
    destruct (BrowserController.agent w); simpl.
    - apply Nat.ltb_lt.
    - split; [discriminate|lia]. }
  split; [exact Hiff|].
  intros strptime session_id session db session' Hsave Hpos.
  apply Hiff. rewrite SaveFacts.save_returns in Hsave.
  inversion Hsave; subst. simpl in Hpos.
  pose proof (filter_length_le Notions.accepted
                (map (CrawlingService.make_job strptime)
                   (BrowserController.jobs
                      (snd (BrowserController.crawl_jobs urljoin settings
                              selectors max_pages self0 w start_url))))) as Hle.
  rewrite length_map in Hle. lia.
Qed.

(** C6 as stated fails: a one-page run whose only item has a title and
    no company completes with one record and [success = True], and
    [save_crawl_results] accepts none of its records. *)
Lemma success_without_accepted_records :
  let result :=
    snd (BrowserController.crawl_jobs Examples.simple_urljoin
           Examples.default_settings Examples.crawl_selectors 1
           Examples.fresh_controller Examples.two_pages_then_failure
           Examples.start_url) in
  BrowserController.success result = true
  /\ BrowserController.pages_crawled result = 1%Z
  /\ BrowserController.errors result = []
  /\ List.length (BrowserController.jobs result) = 1
  /\ exists db session',
       CrawlingService.save_crawl_results Examples.no_dates "session-1"
         (Some Examples.some_session) (BrowserController.jobs result) result
       = Ok (db, session')
       /\ CrawlingService.jobs_saved session' = 0.
Proof.
  cbv zeta. repeat split; try (vm_compute; reflexivity).
  eexists. eexists. split; vm_compute; reflexivity.
Qed.

(** The third page of the example run fails to load: the run stops there
    with two pages crawled and reports the third page's URL. *)
Example failed_third_page :
  let result :=
    snd (BrowserController.crawl_jobs Examples.simple_urljoin
           Examples.default_settings Examples.crawl_selectors 10
           Examples.fresh_controller Examples.two_pages_then_failure
           Examples.start_url) in
  option_map BrowserController.crawled
    (Notions.failure_stop Examples.simple_urljoin Examples.default_settings
       Examples.crawl_selectors 10 (BrowserController.enough_fuel 10)
       Examples.two_pages_then_failure 0
       (BrowserController.initial Examples.fresh_controller Examples.start_url))
  = Some 2%Z
  /\ BrowserController.pages_crawled result = 2%Z
  /\ BrowserController.has_next_page result = true
  /\ BrowserController.next_page_url result
     = Some "https://example.com/jobs?page=3".
Proof. cbv zeta. repeat split; vm_compute; reflexivity. Qed.

(** A one-page run whose only item has a title and a company: its record
    scores 0.5 and is accepted. *)
Example accepted_record_means_success :
  let result :=
    snd (BrowserController.crawl_jobs Examples.simple_urljoin
           Examples.default_settings Examples.crawl_selectors 1
           Examples.fresh_controller
           (Examples.world_of [Examples.item_with_both])
           Examples.start_url) in
  BrowserController.success result = true
  /\ exists db session',
       CrawlingService.save_crawl_results Examples.no_dates "session-1"
         (Some Examples.some_session) (BrowserController.jobs result) result
       = Ok (db, session')
       /\ CrawlingService.jobs_saved session' = 1.
Proof.
  cbv zeta. split; [vm_compute; reflexivity|].
  eexists. eexists. split; vm_compute; reflexivity.
Qed.

(** ** The stealth measures *)

Lemma call_succeeds (c : Playwright.PageCall)
    (effect : Playwright.Page -> Playwright.Page) (page : Playwright.Page) :
  Playwright.call_raises page c = None ->
  AntiDetection.call c effect (page, None) = (effect page, None).
Proof. intros H. unfold AntiDetection.call. now rewrite H. Qed.



(** ** Extraction *)

Module ExtractFacts.

Import Playwright CrawlerAgent Notions.

Section WithUrljoin.

Variable urljoin : string -> string -> Result string.
Variable selectors : dict string.
Variable page : Page.

Lemma nonempty_set {V} (d : dict V) (k : string) (v : V) :
  nonempty (set d k v) = true.
Proof.
  destruct d as [|[k' v'] d]; simpl; [reflexivity|].
  destruct (String.eqb k k'); reflexivity.
Qed.

(** What [_extract_single_job] returns, case by case. *)
Lemma single_job_cases (item : ItemElement) :
  let job_data := extract_fields item selectors page in
  (missing job_data "title" && missing job_data "company" = true ->
   _extract_single_job urljoin item selectors page = None)
  /\ (forall e,
         inner_html item = Raise e ->
         _extract_single_job urljoin item selectors page = None)
  /\ (missing job_data "title" && missing job_data "company" = false ->
      forall raw_html,
        inner_html item = Ok raw_html ->
        exists record,
          _extract_single_job urljoin item selectors page = Some record
          /\ nonempty record = true
          /\ get record "raw_html" = Some raw_html).
Proof.
  cbv zeta. unfold _extract_single_job.
  destruct (missing (extract_fields item selectors page) "title"
            && missing (extract_fields item selectors page) "company") eqn:Hm.
  - repeat split; try discriminate; reflexivity.
  - split; [discriminate|]. split.
    + intros e He. rewrite He. reflexivity.
    + intros _ raw_html Hhtml. rewrite Hhtml. cbn [Py.bind catch].
      eexists. split; [reflexivity|]. split.
      * apply nonempty_set.
      * apply get_set_same.
Qed.

Lemma extract_items_eq (items : list ItemElement) :
  forall jobs,
    extract_items urljoin items selectors page jobs
    = jobs ++ records_of urljoin selectors page items.
Proof.
  unfold extract_items, records_of.
  induction items as [|item rest IH]; intros jobs.
  - simpl. now rewrite app_nil_r.
  - cbn [fold_left flat_map]. rewrite IH.
    destruct (_extract_single_job urljoin item selectors page) as [job_data|].
    + destruct (nonempty job_data).
      * now rewrite <- app_assoc.
      * reflexivity.
    + reflexivity.
Qed.

Lemma extract_lists_eq (job_item_selector : string)
    (job_list_elements : list ListElement) :
  forall (items_of : list (list ItemElement)) jobs,
    map (fun job_list => list_query_selector_all job_list job_item_selector)
        job_list_elements
    = map Ok items_of ->
    extract_lists urljoin job_list_elements job_item_selector selectors page jobs
    = Ok (jobs ++ flat_map (records_of urljoin selectors page) items_of).
Proof.
  induction job_list_elements as [|job_list rest IH];
    intros items_of jobs Hq.
  - destruct items_of; [|discriminate]. simpl. now rewrite app_nil_r.
  - destruct items_of as [|items others]; [discriminate|].
    simpl in Hq. inversion Hq as [[Hhead Htail]].
    cbn [extract_lists flat_map]. rewrite Hhead. cbn [Py.bind].
    rewrite (IH others _ Htail), extract_items_eq. now rewrite app_assoc.
Qed.

End WithUrljoin.

End ExtractFacts.

(** C10 (amended).  An item whose extracted title and extracted company
    are both empty yields no record; so does an item whose markup cannot be
    read ([inner_html] raises), whatever its title and company.  An item
    with a non-empty title or company whose markup can be read yields a
    record.  A skipped item adds no error and does not stop the extraction:
    when the list and item queries succeed, [extract_jobs] succeeds with no
    error and returns, in order, the records of the items that yield one. *)
Theorem empty_items_skipped
    (urljoin : string -> string -> Result string)
    (selectors : dict string) (page : Playwright.Page)
    (item : Playwright.ItemElement) :
  let job_data := CrawlerAgent.extract_fields item selectors page in
  (CrawlerAgent.missing job_data "title"
   && CrawlerAgent.missing job_data "company" = true ->
   CrawlerAgent._extract_single_job urljoin item selectors page = None)
  /\ (forall e,
         Playwright.inner_html item = Raise e ->
         CrawlerAgent._extract_single_job urljoin item selectors page = None)
  /\ (CrawlerAgent.missing job_data "title"
      && CrawlerAgent.missing job_data "company" = false ->
      forall raw_html,
        Playwright.inner_html item = Ok raw_html ->
        exists record,
          CrawlerAgent._extract_single_job urljoin item selectors page
          = Some record
          /\ nonempty record = true
          /\ get record "raw_html" = Some raw_html)
  /\ (forall job_list_elements items_of,
         truthy (get_default selectors "jobList" "") = true ->
         truthy (get_default selectors "jobItem" "") = true ->
         Playwright.query_selector_all page (get_default selectors "jobList" "")
         = Ok job_list_elements ->
         nonempty job_list_elements = true ->
         map (fun job_list =>
                Playwright.list_query_selector_all job_list
                  (get_default selectors "jobItem" ""))
             job_list_elements
         = map Ok items_of ->
         CrawlerAgent.extract_jobs urljoin page selectors
         = {| CrawlerAgent.success := true;
              CrawlerAgent.jobs :=
                flat_map (Notions.records_of urljoin selectors page) items_of;
              CrawlerAgent.error := None |}).
Proof.
  cbv zeta.
  destruct (ExtractFacts.single_job_cases urljoin selectors page item)
    as (Hskip & Hraise & Hrecord).
  split; [exact Hskip|]. split; [exact Hraise|]. split; [exact Hrecord|].
  intros job_list_elements items_of Hl Hi Hq Hne Hitems.
  unfold CrawlerAgent.extract_jobs.
  rewrite Hl, Hq. cbn [negb Py.bind]. rewrite Hne, Hi. cbn [negb].
  now rewrite (ExtractFacts.extract_lists_eq urljoin selectors page _ _
                 items_of [] Hitems).
Qed.

(** C10 as stated fails: an item with the title [Engineer] whose markup
    cannot be read yields no record.  On a page holding a blank item, this
    item and a readable titled item, extraction succeeds with no error and
    returns the one record of the readable item. *)
Lemma titled_item_without_record :
  get (CrawlerAgent.extract_fields Examples.detached_item
         Examples.crawl_selectors (Examples.page_of "https://example.com/jobs" []))
      "title"
  = Some "Engineer"
  /\ CrawlerAgent._extract_single_job Examples.simple_urljoin
       Examples.detached_item Examples.crawl_selectors
       (Examples.page_of "https://example.com/jobs" [])
     = None
  /\ CrawlerAgent.extract_jobs Examples.simple_urljoin
       (Examples.page_of "https://example.com/jobs"
          [Examples.blank_item; Examples.detached_item; Examples.item_with_title])
       Examples.crawl_selectors
     = {| CrawlerAgent.success := true;
          CrawlerAgent.jobs :=
            [[("title", "Engineer"); ("company", "");
              ("raw_html", "<h3>Engineer</h3>")]];
          CrawlerAgent.error := None |}.
Proof.
  repeat split; vm_compute; reflexivity.
Qed.

(* ===================================================================== *)
(** * Further properties of the generator *)
(* ===================================================================== *)

Module ScoreFacts.

Import SelectorGenerator Notions.

Lemma add_cardinality_cases (selector_type : string) (n : nat) (score : float) :
  add_cardinality selector_type n score = (score + 0.3)%float
  \/ add_cardinality selector_type n score = (score + 0.2)%float
  \/ add_cardinality selector_type n score = score.
Proof.
  unfold add_cardinality.
  repeat match goal with
         | |- context [if ?b then _ else _] => destruct b
         end; auto.
Qed.

Lemma add_cardinality_other (selector_type : string) (n : nat) (score : float) :
  counted_role selector_type = false ->
  0 < n ->
  add_cardinality selector_type n score = (score + 0.3)%float.
Proof.
  unfold counted_role, add_cardinality, in_list. cbn [existsb].
  intros Hrole Hn.
  destruct (String.eqb selector_type "jobList"); [discriminate Hrole|].
  destruct (String.eqb selector_type "jobItem"); [discriminate Hrole|].
  destruct (String.eqb selector_type "nextPage"); [discriminate Hrole|].
  cbn [orb]. apply Nat.ltb_lt in Hn. now rewrite Hn.
Qed.

Lemma add_specificity_cases (n : nat) (score : float) :
  add_specificity n score = (score + 0.2)%float
  \/ add_specificity n score = (score + 0.1)%float
  \/ add_specificity n score = score.
Proof.
  unfold add_specificity.
  repeat match goal with
         | |- context [if ?b then _ else _] => destruct b
         end; auto.
Qed.

End ScoreFacts.

(** X1.  The quality score of a selector lies between 0 and 1 for every
    role, selector and list of matched elements, and it is at least 0.4 as
    soon as the selector matches something. *)
Theorem quality_score_range (selector_type selector : string)
    (elements : list SelectorGenerator.Tag) (soup : SelectorGenerator.Soup) :
  PrimFloat.leb 0
    (SelectorGenerator._evaluate_selector_quality
       selector_type selector elements soup) = true
  /\ PrimFloat.leb
       (SelectorGenerator._evaluate_selector_quality
          selector_type selector elements soup) 1 = true
  /\ (nonempty elements = true ->
      PrimFloat.leb 0.4
        (SelectorGenerator._evaluate_selector_quality
           selector_type selector elements soup) = true).
Proof.
  unfold SelectorGenerator._evaluate_selector_quality.
  destruct (nonempty elements);
    destruct (SelectorGenerator._is_semantically_relevant selector selector_type);
    match goal with
    | |- context [SelectorGenerator.add_cardinality ?t ?n ?s] =>
        destruct (ScoreFacts.add_cardinality_cases t n s) as [Hc|[Hc|Hc]];
        rewrite Hc
    end;
    match goal with
    | |- context [SelectorGenerator.add_specificity ?n ?s] =>
        destruct (ScoreFacts.add_specificity_cases n s) as [Hs|[Hs|Hs]];
        rewrite Hs
    end;
    (split; [vm_compute; reflexivity|split; [vm_compute; reflexivity|]]);
    intros H; try discriminate H; vm_compute; reflexivity.
Qed.

(** X2.  For a role other than the list, the item and the next page, a
    non-empty selector that matches at least one element always passes the
    0.7 threshold: the optimizer returns it as it is and never tries to
    improve it. *)
Theorem matching_selector_kept (selector_type ai_selector : string)
    (soup : SelectorGenerator.Soup) (detected : dict (list string))
    (elements : list SelectorGenerator.Tag) :
  Notions.counted_role selector_type = false ->
  truthy ai_selector = true ->
  SelectorGenerator.select soup ai_selector = Ok elements ->
  nonempty elements = true ->
  PrimFloat.leb SelectorGenerator.quality_threshold
    (SelectorGenerator._evaluate_selector_quality
       selector_type ai_selector elements soup) = true
  /\ SelectorGenerator._optimize_selector selector_type ai_selector soup detected
     = Ok (Some ai_selector).
Proof.
  intros Hrole Ht Hsel Hne.
  assert (Hq : PrimFloat.leb SelectorGenerator.quality_threshold
                 (SelectorGenerator._evaluate_selector_quality
                    selector_type ai_selector elements soup) = true).
  { unfold SelectorGenerator._evaluate_selector_quality. rewrite Hne.
    assert (Hpos : 0 < List.length elements)
      by (destruct elements; [discriminate|simpl; lia]).
    rewrite (ScoreFacts.add_cardinality_other selector_type _ _ Hrole Hpos).
    destruct (SelectorGenerator._is_semantically_relevant ai_selector selector_type);
      match goal with
      | |- context [SelectorGenerator.add_specificity ?n ?s] =>
          destruct (ScoreFacts.add_specificity_cases n s) as [Hs|[Hs|Hs]];
          rewrite Hs
      end; vm_compute; reflexivity. }
  split; [exact Hq|].
  rewrite (OptimizerFacts.optimize_found selector_type ai_selector soup
             detected elements Ht Hsel Hne).
  now rewrite Hq.
Qed.

(** The title selector of scenario A. *)
Lemma matching_selector_kept_witness :
  PrimFloat.leb SelectorGenerator.quality_threshold
    (SelectorGenerator._evaluate_selector_quality "jobTitle" ".title"
       (repeat (Examples.under ["job-item"] "h3") 3) Examples.scenario_a) = true
  /\ SelectorGenerator._optimize_selector "jobTitle" ".title"
       Examples.scenario_a []
     = Ok (Some ".title").
Proof.
  apply (matching_selector_kept "jobTitle" ".title" Examples.scenario_a []
           (repeat (Examples.under ["job-item"] "h3") 3));
    reflexivity.
Defined.

Module CandidateFacts.

Import SelectorGenerator Notions.

(** A candidate that matches scores above zero. *)
Lemma candidate_score_positive (candidate : string) (elements : list Tag) :
  nonempty elements = true ->
  PrimFloat.ltb 0 (candidate_score candidate elements) = true.
Proof.
  intros Hne. unfold candidate_score.
  assert (Hpos : (0 <? List.length elements) = true)
    by (destruct elements; [discriminate|reflexivity]).
  rewrite Hpos.
  destruct ((1 <=? List.length elements) && (List.length elements <=? 50));
    destruct ((1 <=? _calculate_specificity candidate)
              && (_calculate_specificity candidate <=? 4));
    vm_compute; reflexivity.
Qed.

Lemma loop_result (candidates : list string) (soup : Soup) :
  forall best score c,
    best_candidate_loop candidates soup best score = Some c ->
    best = Some c \/ (In c candidates /\ matches soup c = true).
Proof.
  induction candidates as [|candidate rest IH]; intros best score c H.
  - left. exact H.
  - cbn [best_candidate_loop] in H.
    destruct (select soup candidate) as [elements|e] eqn:Hsel.
    + destruct (nonempty elements) eqn:Hne.
      * destruct (PrimFloat.ltb score (candidate_score candidate elements)).
        -- destruct (IH _ _ _ H) as [Hb|[Hin Hm]].
           ++ inversion Hb; subst. right. split; [now left|].
              unfold matches. now rewrite Hsel.
           ++ right. split; [now right|exact Hm].
        -- destruct (IH _ _ _ H) as [Hb|[Hin Hm]]; [now left|].
           right. split; [now right|exact Hm].
      * destruct (IH _ _ _ H) as [Hb|[Hin Hm]]; [now left|].
        right. split; [now right|exact Hm].
    + destruct (IH _ _ _ H) as [Hb|[Hin Hm]]; [now left|].
      right. split; [now right|exact Hm].
Qed.

Lemma loop_keeps_some (candidates : list string) (soup : Soup) :
  forall b score, exists c,
    best_candidate_loop candidates soup (Some b) score = Some c.
Proof.
  induction candidates as [|candidate rest IH]; intros b score.
  - now exists b.
  - cbn [best_candidate_loop].
    destruct (select soup candidate) as [elements|e]; [|apply IH].
    destruct (nonempty elements); [|apply IH].
    destruct (PrimFloat.ltb score (candidate_score candidate elements));
      apply IH.
Qed.

Lemma loop_none (candidates : list string) (soup : Soup) :
  best_candidate_loop candidates soup None 0.0%float = None
  <-> forall c, In c candidates -> matches soup c = false.
Proof.
  induction candidates as [|candidate rest IH].
  - split; [intros _ c []|reflexivity].
  - cbn [best_candidate_loop]. unfold matches at 1.
    destruct (select soup candidate) as [elements|e] eqn:Hsel.
    + destruct (nonempty elements) eqn:Hne.
      * rewrite (candidate_score_positive candidate elements Hne).
        destruct (loop_keeps_some rest soup candidate
                    (candidate_score candidate elements)) as [c Hc].
        rewrite Hc. split; [discriminate|].
        intros Hall. specialize (Hall candidate (or_introl eq_refl)).
        unfold matches in Hall. rewrite Hsel, Hne in Hall. discriminate.
      * rewrite IH. split.
        -- intros Hall c [<-|Hin]; [|now apply Hall].
           unfold matches. now rewrite Hsel.
        -- intros Hall c Hin. apply Hall. now right.
    + rewrite IH. split.
      * intros Hall c [<-|Hin]; [|now apply Hall].
        unfold matches. now rewrite Hsel.
      * intros Hall c Hin. apply Hall. now right.
Qed.

Lemma first_matching_some (patterns : list string) (soup : Soup) (p : string) :
  first_matching patterns soup = Some p ->
  exists before after,
    patterns = before ++ p :: after
    /\ matches soup p = true
    /\ Forall (fun q => matches soup q = false) before.
Proof.
  induction patterns as [|pattern rest IH]; [discriminate|].
  cbn [first_matching]. intros H.
  destruct (matches soup pattern) eqn:Hm.
  - pose proof Hm as Hm'. unfold matches in Hm.
    destruct (select soup pattern) as [elements|e]; [|discriminate].
    rewrite Hm in H. inversion H; subst.
    exists [], rest. repeat split; [exact Hm'|constructor].
  - assert (Hrest : first_matching rest soup = Some p).
    { unfold matches in Hm.
      destruct (select soup pattern) as [elements|e]; [|exact H].
      now rewrite Hm in H. }
    destruct (IH Hrest) as (before & after & Heq & Hp & Hall).
    exists (pattern :: before), after. subst rest.
    repeat split; auto.
Qed.

Lemma first_matching_none (patterns : list string) (soup : Soup) :
  first_matching patterns soup = None
  <-> Forall (fun q => matches soup q = false) patterns.
Proof.
  induction patterns as [|pattern rest IH].
  - split; [constructor|reflexivity].
  - cbn [first_matching]. split.
    + intros H. constructor.
      * unfold matches.
        destruct (select soup pattern) as [elements|e]; [|reflexivity].
        destruct (nonempty elements); [discriminate|reflexivity].
      * apply IH.
        destruct (select soup pattern) as [elements|e]; [|exact H].
        destruct (nonempty elements); [discriminate|exact H].
    + intros H. inversion H as [|? ? Hm Hrest]; subst.
      unfold matches in Hm.
      destruct (select soup pattern) as [elements|e]; [|now apply IH].
      rewrite Hm. now apply IH.
Qed.

End CandidateFacts.

(** X3.  [_select_best_candidate] only ever answers with one of the
    candidates it was given, and one that matches at least one element; it
    answers [None] exactly when no candidate matches (a candidate whose
    evaluation raises is passed over). *)
Theorem best_candidate_matches (candidates : list string)
    (soup : SelectorGenerator.Soup) :
  (forall c,
      SelectorGenerator._select_best_candidate candidates soup = Some c ->
      In c candidates /\ Notions.matches soup c = true)
  /\ (SelectorGenerator._select_best_candidate candidates soup = None
      <-> forall c, In c candidates -> Notions.matches soup c = false).
Proof.
  unfold SelectorGenerator._select_best_candidate. split.
  - intros c H. destruct candidates as [|candidate rest]; [discriminate|].
    destruct (CandidateFacts.loop_result _ _ _ _ _ H) as [Hb|Hr];
      [discriminate|exact Hr].
  - destruct candidates as [|candidate rest].
    + split; [intros _ c []|reflexivity].
    + apply CandidateFacts.loop_none.
Qed.

(** X4.  [_generate_fallback_selector] answers with the first pattern of
    the role's catalogue list that matches at least one element: every
    pattern before it matches nothing or raises.  It answers [None] exactly
    when no pattern of the list matches, in particular for a role the
    catalogue does not know. *)
Theorem fallback_is_first_match (selector_type : string)
    (soup : SelectorGenerator.Soup) :
  (forall p,
      SelectorGenerator._generate_fallback_selector selector_type soup = Some p ->
      exists before after,
        get_default SelectorGenerator.fallback_patterns selector_type []
        = before ++ p :: after
        /\ Notions.matches soup p = true
        /\ Forall (fun q => Notions.matches soup q = false) before)
  /\ (SelectorGenerator._generate_fallback_selector selector_type soup = None
      <-> Forall (fun q => Notions.matches soup q = false)
            (get_default SelectorGenerator.fallback_patterns selector_type []))
  /\ (get SelectorGenerator.fallback_patterns selector_type = None ->
      SelectorGenerator._generate_fallback_selector selector_type soup = None).
Proof.
  unfold SelectorGenerator._generate_fallback_selector. split; [|split].
  - intros p. apply CandidateFacts.first_matching_some.
  - apply CandidateFacts.first_matching_none.
  - intros Hnone. unfold get_default. now rewrite Hnone.
Qed.

Module GenerateFacts.

Import SelectorGenerator Notions.

Lemma in_list_false (k : string) (l : list string) :
  ~ In k l -> in_list k l = false.
Proof.
  intros Hnot. unfold in_list.
  destruct (existsb (String.eqb k) l) eqn:E; [|reflexivity].
  apply existsb_exists in E. destruct E as [x [Hin Heq]].
  apply String.eqb_eq in Heq. subst x. contradiction.
Qed.

(** A loop that stores one optional value per key, over distinct keys. *)
Lemma fold_set_get {V} (f : string -> option V) (l : list string) :
  NoDup l ->
  forall (d0 : dict V) (k : string),
    (forall k', In k' l -> get d0 k' = None) ->
    get (fold_left
           (fun d key => match f key with Some v => set d key v | None => d end)
           l d0) k
    = if in_list k l then f k else get d0 k.
Proof.
  induction l as [|a l IH]; intros Hnd d0 k Hfresh.
  - reflexivity.
  - inversion Hnd as [|? ? Hnot Hnd']; subst. cbn [fold_left].
    rewrite IH; [|exact Hnd'|].
    + unfold in_list at 2. cbn [existsb]. fold (in_list k l).
      destruct (String.eqb k a) eqn:Heq.
      * apply String.eqb_eq in Heq. subst k.
        rewrite (in_list_false a l Hnot). cbn [orb].
        destruct (f a) as [v|]; [apply get_set_same|].
        apply Hfresh. now left.
      * cbn [orb]. destruct (in_list k l); [reflexivity|].
        destruct (f a) as [v|]; [|reflexivity].
        apply get_set_other. intros ->. now rewrite String.eqb_refl in Heq.
    + intros k' Hin. destruct (f a) as [v|].
      * rewrite get_set_other; [apply Hfresh; now right|].
        intros ->. contradiction.
      * apply Hfresh. now right.
Qed.

Lemma fold_left_pointwise {A B} (f g : A -> B -> A) (l : list B) :
  (forall a b, f a b = g a b) ->
  forall a, fold_left f l a = fold_left g l a.
Proof.
  intros Hfg. induction l as [|b l IH]; intros a; [reflexivity|].
  simpl. rewrite Hfg. apply IH.
Qed.

Lemma selector_types_distinct : NoDup selector_types.
Proof.
  unfold selector_types.
  repeat (constructor; [simpl; intuition discriminate|]). constructor.
Qed.

Lemma generate_for_key_eq (ai_selectors : dict string)
    (detected : dict (list string)) (soup : Soup)
    (selectors : dict string) (key : string) :
  generate_for_key ai_selectors detected soup selectors key
  = Ok (match chosen_locator ai_selectors detected soup key with
        | Some v => set selectors key v
        | None => selectors
        end).
Proof.
  unfold generate_for_key, chosen_locator.
  destruct (OptimizerFacts.optimize_returns key
              (get_default ai_selectors key "") soup detected) as [o Ho].
  rewrite Ho. cbn [Py.bind].
  destruct (truthy_opt o) eqn:Hto.
  - destruct o as [s|]; [reflexivity|discriminate].
  - destruct (truthy_opt (_generate_fallback_selector key soup)) eqn:Htf;
      [|reflexivity].
    destruct (_generate_fallback_selector key soup); [reflexivity|discriminate].
Qed.

Lemma generate_loop (ai_selectors : dict string)
    (detected : dict (list string)) (soup : Soup) (l : list string) :
  forall d0,
    fold_left
      (fun acc key =>
         selectors <- acc ;;
         generate_for_key ai_selectors detected soup selectors key)
      l (Ok d0)
    = Ok (fold_left
            (fun d key =>
               match chosen_locator ai_selectors detected soup key with
               | Some v => set d key v
               | None => d
               end)
            l d0).
Proof.
  induction l as [|a l IH]; intros d0; [reflexivity|].
  cbn [fold_left Py.bind]. rewrite generate_for_key_eq. apply IH.
Qed.

Lemma chosen_truthy (ai_selectors : dict string)
    (detected : dict (list string)) (soup : Soup) (key v : string) :
  chosen_locator ai_selectors detected soup key = Some v -> truthy v = true.
Proof.
  unfold chosen_locator.
  destruct (_optimize_selector key (get_default ai_selectors key "") soup detected)
    as [o|e]; [|discriminate].
  destruct (truthy_opt o) eqn:Hto.
  - intros ->. exact Hto.
  - destruct (truthy_opt (_generate_fallback_selector key soup)) eqn:Htf;
      [|discriminate].
    intros H. rewrite H in Htf. exact Htf.
Qed.

Lemma get_in {V} (d : dict V) (k : string) (v : V) :
  get d k = Some v -> In v (map snd d).
Proof.
  induction d as [|[k' v'] d IH]; [discriminate|]. simpl.
  destruct (String.eqb k k'); [intros H; inversion H; now left|].
  intros H. right. now apply IH.
Qed.

(** Every pattern of the catalogue is a non-empty string. *)
Lemma fallback_truthy (selector_type : string) (soup : Soup) :
  truthy_opt (_generate_fallback_selector selector_type soup) = true
  \/ _generate_fallback_selector selector_type soup = None.
Proof.
  destruct (_generate_fallback_selector selector_type soup) as [p|] eqn:Hf;
    [left|now right].
  apply CandidateFacts.first_matching_some in Hf.
  destruct Hf as (before & after & Heq & _ & _).
  assert (Hall : forallb (forallb truthy) (map snd fallback_patterns) = true)
    by (vm_compute; reflexivity).
  unfold get_default in Heq.
  destruct (get fallback_patterns selector_type) as [patterns|] eqn:Hg.
  - apply get_in in Hg. rewrite forallb_forall in Hall.
    specialize (Hall _ Hg). rewrite forallb_forall in Hall.
    apply Hall. rewrite Heq. apply in_or_app. right. now left.
  - destruct before; discriminate.
Qed.

End GenerateFacts.

(** X5.  On a parsed document [generate_selectors] returns normally, with
    entries for the nine roles only.  For each role the entry is the
    optimizer's answer for the AI selector when that answer is non-empty,
    else the first matching catalogue pattern, and the role is left out when
    there is neither; no stored locator is empty.  When the document cannot
    be parsed the exception is raised again by the handler's own parse. *)
Theorem generated_selectors_by_role (ai_selectors : dict string)
    (detected : dict (list string)) (soup : SelectorGenerator.Soup) :
  (exists d,
      SelectorGenerator.generate_selectors ai_selectors detected (Ok soup) = Ok d
      /\ (forall key,
             get d key
             = if SelectorGenerator.in_list key SelectorGenerator.selector_types
               then Notions.chosen_locator ai_selectors detected soup key
               else None)
      /\ (forall key v, get d key = Some v -> truthy v = true))
  /\ (forall e,
         SelectorGenerator.generate_selectors ai_selectors detected (Raise e)
         = Raise e).
Proof.
  split; [|reflexivity].
  unfold SelectorGenerator.generate_selectors. cbn [Py.bind].
  rewrite GenerateFacts.generate_loop. cbn [try_except].
  eexists. split; [reflexivity|].
  assert (Hget : forall key,
    get (fold_left
           (fun d key0 =>
              match Notions.chosen_locator ai_selectors detected soup key0 with
              | Some v => set d key0 v
              | None => d
              end) SelectorGenerator.selector_types []) key
    = if SelectorGenerator.in_list key SelectorGenerator.selector_types
      then Notions.chosen_locator ai_selectors detected soup key
      else None).
  { intros key.
    rewrite (GenerateFacts.fold_set_get
               (Notions.chosen_locator ai_selectors detected soup)
               _ GenerateFacts.selector_types_distinct [] key);
      [reflexivity|reflexivity]. }
  split; [exact Hget|].
  intros key v Hv. rewrite Hget in Hv.
  destruct (SelectorGenerator.in_list key SelectorGenerator.selector_types);
    [|discriminate].
  now apply GenerateFacts.chosen_truthy in Hv.
Qed.

(** X6.  On a parsed document [_generate_heuristic_selectors] maps each of
    the nine roles to the first catalogue pattern that matches, and leaves
    out the roles for which none does. *)
Theorem heuristic_selectors_by_role (soup : SelectorGenerator.Soup) :
  exists d,
    SelectorGenerator._generate_heuristic_selectors (Ok soup) = Ok d
    /\ forall key,
         get d key
         = if SelectorGenerator.in_list key SelectorGenerator.selector_types
           then SelectorGenerator._generate_fallback_selector key soup
           else None.
Proof.
  unfold SelectorGenerator._generate_heuristic_selectors. cbn [Py.bind].
  eexists. split; [reflexivity|]. intros key.
  rewrite (GenerateFacts.fold_left_pointwise _
             (fun d k =>
                match SelectorGenerator._generate_fallback_selector k soup with
                | Some v => set d k v
                | None => d
                end)).
  - now rewrite (GenerateFacts.fold_set_get
                   (fun k => SelectorGenerator._generate_fallback_selector k soup)
                   _ GenerateFacts.selector_types_distinct [] key).
  - intros d k.
    destruct (GenerateFacts.fallback_truthy k soup) as [Ht|Hn].
    + rewrite Ht.
      destruct (SelectorGenerator._generate_fallback_selector k soup);
        [reflexivity|discriminate].
    + now rewrite Hn.
Qed.

(* ===================================================================== *)
(** * Further properties of validation *)
(* ===================================================================== *)

Module ReportFacts.

Import SelectorGenerator PageAnalyzer Notions.

Lemma set_fresh {V} (d : dict V) (k : string) (v : V) :
  ~ In k (keys d) -> set d k v = d ++ [(k, v)].
Proof.
  induction d as [|[k' v'] d IH]; intros Hnot; [reflexivity|].
  simpl in *. destruct (String.eqb k k') eqn:Heq.
  - apply String.eqb_eq in Heq. subst. tauto.
  - rewrite IH by tauto. reflexivity.
Qed.

Lemma get_of_in {V} (d : dict V) (k : string) (v : V) :
  NoDup (keys d) -> In (k, v) d -> get d k = Some v.
Proof.
  induction d as [|[k' v'] d IH]; intros Hnd Hin; [destruct Hin|].
  simpl in *. inversion Hnd as [|? ? Hnot Hnd']; subst.
  destruct Hin as [Heq|Hin].
  - inversion Heq; subst. now rewrite String.eqb_refl.
  - destruct (String.eqb k k') eqn:Heq.
    + apply String.eqb_eq in Heq. subst. exfalso. apply Hnot.
      apply in_map_iff. now exists (k', v).
    + now apply IH.
Qed.

Lemma validate_entry_eq (soup : Soup) (n : nat) (d : dict SelectorResult)
    (key locator : string) :
  snd (validate_entry soup (n, d) (key, locator))
  = set d key (report_entry soup locator).
Proof.
  unfold validate_entry, report_entry.
  destruct (select soup locator); reflexivity.
Qed.

Lemma validate_loop_report (soup : Soup) (selectors : dict string) :
  forall n d,
    NoDup (keys d ++ keys selectors) ->
    snd (fold_left (validate_entry soup) selectors (n, d))
    = d ++ map (fun item => (fst item, report_entry soup (snd item))) selectors.
Proof.
  induction selectors as [|[key locator] rest IH]; intros n d Hnd.
  - simpl. now rewrite app_nil_r.
  - cbn [fold_left map fst snd].
    pose proof (validate_entry_eq soup n d key locator) as Hstep.
    destruct (validate_entry soup (n, d) (key, locator)) as [n' d'].
    simpl in Hstep. subst d'.
    assert (Hfresh : ~ In key (keys d)).
    { intros Hin. apply NoDup_remove_2 in Hnd. apply Hnd.
      apply in_or_app. now left. }
    rewrite (set_fresh d key _ Hfresh).
    rewrite IH.
    + now rewrite <- app_assoc.
    + unfold keys in *. rewrite map_app, <- app_assoc. exact Hnd.
Qed.

Lemma suggestions_loop (results : dict SelectorResult) :
  forall acc,
    fold_left
      (fun suggestions (item : string * SelectorResult) =>
         let '(key, result) := item in
         if negb (valid result)
         then suggestions ++ [(key ++ "选择器无效，需要调整")%string]
         else if count result =? 0
         then suggestions ++ [(key ++ "选择器未找到元素，可能需要更宽泛的选择器")%string]
         else suggestions)
      results acc
    = acc ++ flat_map
               (fun item : string * SelectorResult =>
                  if negb (valid (snd item))
                  then [(fst item ++ "选择器无效，需要调整")%string]
                  else if count (snd item) =? 0
                  then [(fst item ++ "选择器未找到元素，可能需要更宽泛的选择器")%string]
                  else [])
               results.
Proof.
  induction results as [|[key result] rest IH]; intros acc.
  - simpl. now rewrite app_nil_r.
  - cbn [fold_left flat_map fst snd]. rewrite IH.
    destruct (negb (valid result)); [now rewrite <- app_assoc|].
    destruct (count result =? 0); [now rewrite <- app_assoc|].
    reflexivity.
Qed.

Lemma report_entry_valid (soup : Soup) (locator : string) :
  valid (report_entry soup locator) = matches soup locator
  /\ valid (report_entry soup locator) = (0 <? count (report_entry soup locator))
  /\ selector (report_entry soup locator) = locator.
Proof.
  unfold report_entry, matches.
  destruct (select soup locator) as [elements|e]; simpl.
  - repeat split. apply ValidateFacts.nonempty_length.
  - repeat split.
Qed.

Lemma validate_report (selectors : dict string) (soup : Soup) :
  well_formed selectors ->
  exists r,
    validate_selectors selectors (Ok soup) = Ok r
    /\ selector_results r
       = map (fun item => (fst item, report_entry soup (snd item))) selectors
    /\ suggestions r = make_suggestions (selector_results r).
Proof.
  intros Hwf. unfold validate_selectors. cbn [Py.bind try_except].
  pose proof (validate_loop_report soup selectors 0 [] Hwf) as Hr.
  destruct (fold_left (validate_entry soup) selectors (0, []))
    as [valid_selectors results] eqn:Hloop.
  assert (Hres : results
                 = map (fun item => (fst item, report_entry soup (snd item)))
                     selectors).
  { change results with (snd (valid_selectors, results)).
    rewrite <- Hloop. exact Hr. }
  rewrite Hres. eexists. split; [reflexivity|]. split; reflexivity.
Qed.

End ReportFacts.

(** X7.  For a locator set, validation suggests exactly one adjustment
    per role whose locator matches nothing (or raises), in the order of the
    set: the role's name followed by the fixed text.  The second message
    of the source (found no element, broaden the selector) is never
    produced, because an entry with count 0 is already invalid. *)
Theorem suggestions_for_unmatched (selectors : dict string)
    (soup : SelectorGenerator.Soup) :
  well_formed selectors ->
  exists r,
    PageAnalyzer.validate_selectors selectors (Ok soup) = Ok r
    /\ PageAnalyzer.suggestions r
       = map (fun item => (fst item ++ "选择器无效，需要调整")%string)
           (filter (fun item => negb (Notions.matches soup (snd item)))
              selectors).
Proof.
  intros Hwf.
  destruct (ReportFacts.validate_report selectors soup Hwf)
    as (r & Hr & Hres & Hsug).
  exists r. split; [exact Hr|]. rewrite Hsug, Hres.
  unfold PageAnalyzer.make_suggestions.
  rewrite ReportFacts.suggestions_loop. cbn [app].
  clear. induction selectors as [|[key locator] rest IH]; [reflexivity|].
  cbn [map flat_map filter fst snd].
  destruct (ReportFacts.report_entry_valid soup locator) as (Hv & Hc & _).
  rewrite Hv in Hc. rewrite Hv.
  destruct (Notions.matches soup locator); cbn [negb].
  - destruct (PageAnalyzer.count (Notions.report_entry soup locator));
      [discriminate|]. simpl. exact IH.
  - simpl. now rewrite IH.
Qed.

(** Scenario A with the malformed selector added: one suggestion. *)
Lemma suggestions_for_unmatched_witness :
  exists r,
    PageAnalyzer.validate_selectors Examples.with_invalid
      (Ok Examples.scenario_a) = Ok r
    /\ PageAnalyzer.suggestions r
       = map (fun item => (fst item ++ "选择器无效，需要调整")%string)
           (filter
              (fun item => negb (Notions.matches Examples.scenario_a (snd item)))
              Examples.with_invalid).
Proof.
  apply (suggestions_for_unmatched Examples.with_invalid Examples.scenario_a).
  unfold well_formed. vm_compute.
  repeat constructor; simpl; intuition discriminate.
Defined.

(** X8.  The validation report has one entry per role of the set, in the
    order of the set.  The entry of a role records the role's locator; it
    is valid exactly when the locator matches, which is exactly when its
    count is positive, and the count is the number of elements found. *)
Theorem report_covers_roles (selectors : dict string)
    (soup : SelectorGenerator.Soup) :
  well_formed selectors ->
  exists r,
    PageAnalyzer.validate_selectors selectors (Ok soup) = Ok r
    /\ keys (PageAnalyzer.selector_results r) = keys selectors
    /\ forall key locator,
         In (key, locator) selectors ->
         exists entry,
           get (PageAnalyzer.selector_results r) key = Some entry
           /\ PageAnalyzer.selector entry = locator
           /\ PageAnalyzer.valid entry = Notions.matches soup locator
           /\ PageAnalyzer.valid entry = (0 <? PageAnalyzer.count entry)
           /\ (forall elements,
                  SelectorGenerator.select soup locator = Ok elements ->
                  PageAnalyzer.count entry = List.length elements).
Proof.
  intros Hwf.
  destruct (ReportFacts.validate_report selectors soup Hwf)
    as (r & Hr & Hres & _).
  exists r. split; [exact Hr|].
  assert (Hkeys : keys (PageAnalyzer.selector_results r) = keys selectors).
  { rewrite Hres. unfold keys. rewrite map_map. reflexivity. }
  split; [exact Hkeys|].
  intros key locator Hin. exists (Notions.report_entry soup locator).
  destruct (ReportFacts.report_entry_valid soup locator) as (Hv & Hc & Hs).
  split; [|split; [exact Hs|split; [exact Hv|split; [exact Hc|]]]].
  - apply ReportFacts.get_of_in.
    + rewrite Hkeys. exact Hwf.
    + rewrite Hres. apply in_map_iff. now exists (key, locator).
  - intros elements Hsel. unfold Notions.report_entry. now rewrite Hsel.
Qed.

(** The four roles of scenario A. *)
Lemma report_covers_roles_witness :
  exists r,
    PageAnalyzer.validate_selectors Examples.scenario_a_selectors
      (Ok Examples.scenario_a) = Ok r
    /\ keys (PageAnalyzer.selector_results r)
       = keys Examples.scenario_a_selectors
    /\ forall key locator,
         In (key, locator) Examples.scenario_a_selectors ->
         exists entry,
           get (PageAnalyzer.selector_results r) key = Some entry
           /\ PageAnalyzer.selector entry = locator
           /\ PageAnalyzer.valid entry
              = Notions.matches Examples.scenario_a locator
           /\ PageAnalyzer.valid entry = (0 <? PageAnalyzer.count entry)
           /\ (forall elements,
                  SelectorGenerator.select Examples.scenario_a locator
                  = Ok elements ->
                  PageAnalyzer.count entry = List.length elements).
Proof.
  apply (report_covers_roles Examples.scenario_a_selectors Examples.scenario_a).
  unfold well_formed. vm_compute.
  repeat constructor; simpl; intuition discriminate.
Defined.

(* ===================================================================== *)
(** * Further properties of the records *)
(* ===================================================================== *)

Module JobFacts.

Import Job.

(** A required field earns its weight exactly when its value is truthy:
    the three branches of the source all add the weight. *)
Lemma required_step_eq (score total_weight : float) (v : Value) (w : float) :
  required_step (score, total_weight) (v, w)
  = ((if value_truthy v then (score + w)%float else score),
     (total_weight + w)%float).
Proof.
  unfold required_step. destruct v as [|s|d|l]; simpl.
  - reflexivity.
  - destruct (truthy s); [|reflexivity].
    destruct (0 <? String.length (strip s)); reflexivity.
  - reflexivity.
  - destruct (nonempty l); reflexivity.
Qed.

Lemma bonus_step_le (n : nat) (v : Value) :
  n <= bonus_step n v <= n + 1.
Proof.
  unfold bonus_step.
  destruct (value_truthy v); [|lia].
  destruct (is_nonempty_list v); [lia|].
  destruct (is_nonblank_str v); lia.
Qed.

Lemma bonus_count_le (l : list Value) :
  forall n, fold_left bonus_step l n <= n + List.length l.
Proof.
  induction l as [|v l IH]; intros n; simpl; [lia|].
  specialize (IH (bonus_step n v)).
  pose proof (bonus_step_le n v). lia.
Qed.

(** The score as a function of which required fields are present and of
    the number of bonus fields. *)
Lemma score_by_presence (self : t) :
  calculate_quality_score self
  = let present (b : bool) (w score : float) :=
      if b then (score + w)%float else score in
    min_float
      ((present (truthy (job_link self)) 0.1
          (present (value_truthy (of_opt_date (published_at self))) 0.1
             (present (truthy (job_description self)) 0.2
                (present (truthy (location self)) 0.1
                   (present (truthy (company_name self)) 0.2
                      (present (truthy (title self)) 0.3 0.0)))))
        / (0.0 + 0.3 + 0.2 + 0.1 + 0.2 + 0.1 + 0.1))
       + (float_of_nat (fold_left bonus_step (bonus_fields self) 0%nat)
          / float_of_nat 4%nat) * 0.1)%float
      1.0.
Proof.
  unfold calculate_quality_score, required_fields.
  cbn [fold_left]. rewrite !required_step_eq. reflexivity.
Qed.

End JobFacts.

(** X9.  The data quality score of a row lies between 0 and 1, whatever
    its fields hold. *)
Theorem job_score_range (self : Job.t) :
  PrimFloat.leb 0 (Job.calculate_quality_score self) = true
  /\ PrimFloat.leb (Job.calculate_quality_score self) 1 = true.
Proof.
  rewrite JobFacts.score_by_presence. cbv zeta.
  pose proof (JobFacts.bonus_count_le (Job.bonus_fields self) 0) as Hb.
  cbn [Job.bonus_fields List.length Nat.add] in Hb.
  generalize dependent (fold_left Job.bonus_step (Job.bonus_fields self) 0).
  intros n Hn.
  destruct (truthy (Job.title self)), (truthy (Job.company_name self)),
    (truthy (Job.location self)), (truthy (Job.job_description self)),
    (Job.value_truthy (Job.of_opt_date (Job.published_at self))),
    (truthy (Job.job_link self));
    do 5 (destruct n as [|n]; [split; vm_compute; reflexivity|]); lia.
Qed.

(** X10.  The score looks at a required field only through its
    truthiness: two rows whose required fields are present or absent alike,
    with the same bonus fields, score the same.  A title made of blanks
    therefore earns the same credit as a real one. *)
Theorem job_score_by_presence (a b : Job.t) :
  truthy (Job.title a) = truthy (Job.title b) ->
  truthy (Job.company_name a) = truthy (Job.company_name b) ->
  truthy (Job.location a) = truthy (Job.location b) ->
  truthy (Job.job_description a) = truthy (Job.job_description b) ->
  truthy (Job.job_link a) = truthy (Job.job_link b) ->
  (Job.published_at a = None <-> Job.published_at b = None) ->
  Job.bonus_fields a = Job.bonus_fields b ->
  Job.calculate_quality_score a = Job.calculate_quality_score b.
Proof.
  intros Ht Hc Hl Hd Hk Hp Hb.
  rewrite !JobFacts.score_by_presence. cbv zeta.
  rewrite Ht, Hc, Hl, Hd, Hk, Hb.
  assert (Hp' : Job.value_truthy (Job.of_opt_date (Job.published_at a))
                = Job.value_truthy (Job.of_opt_date (Job.published_at b))).
  { destruct (Job.published_at a), (Job.published_at b); simpl; try reflexivity.
    - destruct Hp as [_ Hp]. discriminate (Hp eq_refl).
    - destruct Hp as [Hp _]. discriminate (Hp eq_refl). }
  now rewrite Hp'.
Qed.

(** A blank title against a real one. *)
Lemma job_score_by_presence_witness :
  Job.calculate_quality_score
    (CrawlingService.make_job Examples.no_dates
       [("title", "   "); ("company", "Acme")])
  = Job.calculate_quality_score
      (CrawlingService.make_job Examples.no_dates Examples.title_and_company).
Proof.
  apply (job_score_by_presence
           (CrawlingService.make_job Examples.no_dates
              [("title", "   "); ("company", "Acme")])
           (CrawlingService.make_job Examples.no_dates
              Examples.title_and_company));
    reflexivity.
Defined.

(** X11.  A record with a non-empty title and a non-empty company is
    always accepted by [save_crawl_results], whatever else it holds and
    whatever the date parser answers. *)
Theorem titled_company_record_accepted
    (strptime : string -> string -> option Job.datetime)
    (job_data : dict string) :
  truthy (get_default job_data "title" "") = true ->
  truthy (get_default job_data "company" "") = true ->
  CrawlingService.meets_threshold
    (Job.data_quality_score (CrawlingService.make_job strptime job_data))
  = true.
Proof.
  intros Ht Hc. unfold CrawlingService.make_job, Job.update_quality_score.
  cbn [Job.data_quality_score].
  rewrite JobFacts.score_by_presence. cbv zeta.
  cbn [Job.title Job.company_name Job.location Job.job_description
       Job.job_link Job.published_at Job.bonus_fields Job.salary_range
       Job.job_type Job.experience_level Job.skills_required].
  rewrite Ht, Hc.
  destruct (truthy (get_default job_data "location" "")),
    (truthy (get_default job_data "description" "")),
    (Job.value_truthy
       (Job.of_opt_date
          (CrawlingService._parse_date strptime (get job_data "published_at")))),
    (truthy (get_default job_data "link" ""));
    vm_compute; reflexivity.
Qed.

(** The record with a title and a company only. *)
Lemma titled_company_record_accepted_witness :
  CrawlingService.meets_threshold
    (Job.data_quality_score
       (CrawlingService.make_job Examples.no_dates Examples.title_and_company))
  = true.
Proof.
  apply (titled_company_record_accepted Examples.no_dates
           Examples.title_and_company); reflexivity.
Defined.


Module DateFacts.

Import CrawlingService.

Lemma first_parse_some (strptime : string -> string -> option Job.datetime)
    (text : string) (formats : list string) (d : Job.datetime) :
  first_parse strptime text formats = Some d ->
  exists before fmt after,
    formats = before ++ fmt :: after
    /\ strptime text fmt = Some d
    /\ Forall (fun f => strptime text f = None) before.
Proof.
  induction formats as [|fmt rest IH]; [discriminate|].
  cbn [first_parse]. destruct (strptime text fmt) as [d'|] eqn:Hp.
  - intros H. inversion H; subst. exists [], fmt, rest.
    repeat split; [exact Hp|constructor].
  - intros H. destruct (IH H) as (before & f & after & Heq & Hf & Hall).
    exists (fmt :: before), f, after. subst rest. repeat split; auto.
Qed.

Lemma first_parse_none (strptime : string -> string -> option Job.datetime)
    (text : string) (formats : list string) :
  first_parse strptime text formats = None
  <-> Forall (fun f => strptime text f = None) formats.
Proof.
  induction formats as [|fmt rest IH].
  - split; [constructor|reflexivity].
  - cbn [first_parse]. destruct (strptime text fmt) as [d|] eqn:Hp.
    + split; [discriminate|]. intros H. inversion H; congruence.
    + rewrite IH. split; [now constructor|].
      intros H. now inversion H.
Qed.

End DateFacts.

(** X13.  [_parse_date] answers [None] for a missing or empty text.  For
    any other text it strips the blanks around it and answers with the parse
    under the first of the six formats, in their fixed order, that accepts
    the stripped text; it answers [None] exactly when none accepts it. *)
Theorem parse_date_first_format
    (strptime : string -> string -> option Job.datetime) :
  CrawlingService._parse_date strptime None = None
  /\ CrawlingService._parse_date strptime (Some "") = None
  /\ (forall text d,
         CrawlingService._parse_date strptime (Some text) = Some d ->
         exists before fmt after,
           CrawlingService.date_formats = before ++ fmt :: after
           /\ strptime (strip text) fmt = Some d
           /\ Forall (fun f => strptime (strip text) f = None) before)
  /\ (forall text,
         truthy text = true ->
         (CrawlingService._parse_date strptime (Some text) = None
          <-> Forall (fun f => strptime (strip text) f = None)
                CrawlingService.date_formats)).
Proof.
  split; [reflexivity|]. split; [reflexivity|]. split.
  - intros text d. unfold CrawlingService._parse_date.
    cbn [truthy_opt SelectorGenerator.opt_str].
    destruct (truthy text); [|discriminate]. cbn [negb].
    apply DateFacts.first_parse_some.
  - intros text Ht. unfold CrawlingService._parse_date.
    cbn [truthy_opt SelectorGenerator.opt_str].
    rewrite Ht. cbn [negb]. apply DateFacts.first_parse_none.
Qed.

(* ===================================================================== *)
(** * Further properties of the stealth measures *)
(* ===================================================================== *)

Module StealthFacts.

Import Playwright AntiDetection.

Lemma random_choice_in {A} (draw : nat) (seq : list A) (default : A) :
  seq <> [] -> In (random_choice draw seq default) seq.
Proof.
  intros Hne. unfold random_choice. apply nth_In.
  apply Nat.mod_upper_bound. destruct seq; [congruence|discriminate].
Qed.

(** Once a call has raised, the calls after it do nothing. *)
Lemma call_after_raise (c : PageCall) (effect : Page -> Page)
    (page : Page) (e : string) :
  call c effect (page, Some e) = (page, Some e).
Proof. reflexivity. Qed.

Lemma call_raising (c : PageCall) (effect : Page -> Page)
    (page : Page) (e : string) :
  call_raises page c = Some e ->
  call c effect (page, None) = (page, Some e).
Proof. intros H. unfold call. now rewrite H. Qed.

Lemma flat_map_length_le {A B} (f : A -> list B) (g : A -> nat) (l : list A) :
  (forall x, List.length (f x) <= g x) ->
  List.length (flat_map f l) <= list_sum (map g l).
Proof.
  intros Hf. induction l as [|x l IH]; simpl; [lia|].
  rewrite length_app. specialize (Hf x). lia.
Qed.

Lemma find_indicators_bound (page_text : string) :
  List.length (find_indicators page_text) <= 14.
Proof.
  unfold find_indicators.
  etransitivity.
  - apply (flat_map_length_le _ (fun entry => List.length (snd entry))).
    intros [detection_type keywords]. cbn [snd].
    etransitivity.
    + apply (flat_map_length_le _ (fun _ => 1)).
      intros kw. destruct (contains kw page_text); simpl; lia.
    + clear. induction keywords; simpl; lia.
  - vm_compute. lia.
Qed.

Lemma find_indicators_sound (page_text : string) (i : Indicator) :
  In i (find_indicators page_text) ->
  contains (keyword i) page_text = true
  /\ exists keywords,
       get bot_indicators (indicator_type i) = Some keywords
       /\ In (keyword i) keywords.
Proof.
  unfold find_indicators. rewrite in_flat_map.
  intros [[detection_type keywords] [Hentry Hin]].
  rewrite in_flat_map in Hin. destruct Hin as [kw [Hkw Hi]].
  destruct (contains kw page_text) eqn:Hc; [|destruct Hi].
  destruct Hi as [<-|[]]. cbn [keyword indicator_type].
  split; [exact Hc|]. exists keywords. split; [|exact Hkw].
  apply ReportFacts.get_of_in; [|exact Hentry].
  unfold keys, bot_indicators. cbn [map fst].
  repeat (constructor; [simpl; intuition discriminate|]). constructor.
Qed.

End StealthFacts.


(** X15.  [apply_stealth_measures] stops at the first page call that
    raises: when the first call it makes raises, the page is left exactly as
    it was; when the time-zone call raises after the earlier calls went
    through, the user agent, the viewport and the init script are applied
    and the time zone and the geolocation are left as they were.  With
    user-agent rotation off, the user agent is never touched. *)
Theorem stealth_stops_at_failure (self : AntiDetection.t)
    (draws : AntiDetection.StealthDraws) (page : Playwright.Page) :
  (forall e,
      Playwright.call_raises page Playwright.set_extra_http_headers = Some e ->
      AntiDetection.apply_stealth_measures self true draws page = page)
  /\ (forall e,
         Playwright.call_raises page Playwright.set_viewport_size = Some e ->
         AntiDetection.apply_stealth_measures self false draws page = page)
  /\ Playwright.user_agent
       (AntiDetection.apply_stealth_measures self false draws page)
     = Playwright.user_agent page
  /\ (forall e,
         Playwright.call_raises page Playwright.set_extra_http_headers = None ->
         Playwright.call_raises page Playwright.set_viewport_size = None ->
         Playwright.call_raises page Playwright.add_init_script = None ->
         Playwright.call_raises page Playwright.emulate_timezone = Some e ->
         let page' := AntiDetection.apply_stealth_measures self true draws page in
         Playwright.user_agent page'
         = Some (AntiDetection.random_choice
                   (AntiDetection.user_agent_draw draws)
                   AntiDetection.user_agents "")
         /\ Playwright.viewport page'
            = Some (AntiDetection.random_choice
                      (AntiDetection.viewport_draw draws)
                      AntiDetection.viewport_sizes
                      {| Playwright.width := 0; Playwright.height := 0 |})
         /\ Playwright.init_scripts page' = S (Playwright.init_scripts page)
         /\ Playwright.timezone page' = Playwright.timezone page
         /\ Playwright.geolocation page' = Playwright.geolocation page).
Proof.
  split; [|split; [|split]].
  - intros e He. unfold AntiDetection.apply_stealth_measures.
    rewrite (StealthFacts.call_raising _ _ _ _ He).
    now rewrite !StealthFacts.call_after_raise.
  - intros e He. unfold AntiDetection.apply_stealth_measures.
    rewrite (StealthFacts.call_raising _ _ _ _ He).
    now rewrite !StealthFacts.call_after_raise.
  - unfold AntiDetection.apply_stealth_measures, AntiDetection.call.
    repeat match goal with
           | |- context [Playwright.call_raises ?p ?c] =>
               destruct (Playwright.call_raises p c)
           end; reflexivity.
  - intros e H1 H2 H3 H4. cbv zeta.
    unfold AntiDetection.apply_stealth_measures.
    rewrite call_succeeds by exact H1.
    rewrite call_succeeds by exact H2.
    rewrite call_succeeds by exact H3.
    rewrite (StealthFacts.call_raising Playwright.emulate_timezone _ _ e)
      by exact H4.
    rewrite StealthFacts.call_after_raise. cbn [fst].
    repeat split.
Qed.

Module DetectionFacts.

Import AntiDetection.

Lemma confidence_of_count (n : nat) :
  0 < n <= 14 ->
  let c := min_float (Job.float_of_nat n * 0.3)%float 1.0%float in
  PrimFloat.ltb 0 c = true
  /\ PrimFloat.leb c 1 = true
  /\ (4 <= n -> c = 1.0%float)
  /\ (n < 4 -> PrimFloat.ltb c 1 = true).
Proof.
  intros [Hpos Hle]. cbv zeta.
  destruct n as [|n]; [lia|].
  do 14 (destruct n as [|n];
         [repeat split; intros; try lia; vm_compute; reflexivity|]).
  lia.
Qed.

End DetectionFacts.


(* ===================================================================== *)
(** * Further properties of the crawler agent *)
(* ===================================================================== *)

(** Case analysis on the scrutinee of an innermost [match] of the goal. *)
Ltac destruct_innermost :=
  repeat match goal with
         | |- context [match ?x with _ => _ end] =>
             lazymatch x with
             | context [match _ with _ => _ end] => fail
             | _ => destruct x
             end
         end.

Module NextPageFacts.

Import Playwright CrawlerAgent Notions.

Lemma class_or_empty (class_attr : option string) :
  (if truthy_opt class_attr then SelectorGenerator.opt_str class_attr else "")
  = SelectorGenerator.opt_str class_attr.
Proof. destruct class_attr as [[|c s]|]; reflexivity. Qed.

Lemma first_usable_all_marked (elements : list NextElement) :
  forallb marked_disabled elements = true ->
  first_usable elements = Ok None.
Proof.
  induction elements as [|element rest IH]; [reflexivity|].
  cbn [forallb first_usable]. intros H. apply andb_prop in H.
  destruct H as [Hm Hrest]. unfold marked_disabled in Hm.
  destruct (next_disabled element) as [d|e]; [|discriminate].
  destruct (next_class element) as [c|e]; [|discriminate].
  cbn [Py.bind]. rewrite class_or_empty.
  destruct (truthy_opt d); cbn [negb andb]; [now apply IH|].
  cbn [orb] in Hm. rewrite Hm. cbn [negb]. now apply IH.
Qed.

Lemma prefix_truthy (p s : string) :
  truthy p = true -> String.prefix p s = true -> truthy s = true.
Proof. destruct p; [discriminate|]. destruct s; [discriminate|reflexivity]. Qed.

End NextPageFacts.

(** X17.  [find_next_page] never raises, and its answer is consistent:
    [has_next] is true exactly when a next URL is given, and exactly when no
    error is reported.  Without a selector it answers no.  When the selector
    finds elements and each of them has a non-empty [disabled] attribute or
    a class containing [disabled], it answers no with the notice that the
    element is unusable.  When the first element found has an absent or
    empty [disabled] attribute, a class without [disabled] and an absolute
    [href], it answers yes with that [href] unchanged. *)
Theorem next_page_answer_consistent
    (urljoin : string -> string -> Result string)
    (query : string -> Result (list Playwright.NextElement))
    (page : Playwright.Page) (next_page_selector : string) :
  let answer :=
    CrawlerAgent.find_next_page urljoin query page next_page_selector in
  (CrawlerAgent.has_next (fst answer) = true
   <-> CrawlerAgent.next_url (fst answer) <> None)
  /\ (CrawlerAgent.has_next (fst answer) = true <-> snd answer = None)
  /\ (truthy next_page_selector = false ->
      answer = (CrawlerAgent.no_next, Some "缺少下一页选择器"))
  /\ (forall elements,
         truthy next_page_selector = true ->
         query next_page_selector = Ok elements ->
         nonempty elements = true ->
         forallb Notions.marked_disabled elements = true ->
         answer = (CrawlerAgent.no_next, Some "下一页元素不可用"))
  /\ (forall element rest is_disabled class_attr href,
         truthy next_page_selector = true ->
         query next_page_selector = Ok (element :: rest) ->
         Playwright.next_disabled element = Ok is_disabled ->
         truthy_opt is_disabled = false ->
         Playwright.next_class element = Ok class_attr ->
         contains "disabled" (lower (SelectorGenerator.opt_str class_attr))
         = false ->
         Playwright.next_href element = Ok (Some href) ->
         startswith href "http://" || startswith href "https://" = true ->
         answer
         = ({| CrawlerAgent.has_next := true;
               CrawlerAgent.next_url := Some href |}, None)).
Proof.
  cbv zeta. split; [|split; [|split; [|split]]].
  - unfold CrawlerAgent.find_next_page, catch, Py.bind.
    destruct_innermost; simpl; split; congruence.
  - unfold CrawlerAgent.find_next_page, catch, Py.bind.
    destruct_innermost; simpl; split; congruence.
  - intros Ht. unfold CrawlerAgent.find_next_page. now rewrite Ht.
  - intros elements Ht Hq Hne Hall. unfold CrawlerAgent.find_next_page.
    rewrite Ht, Hq. cbn [negb Py.bind]. rewrite Hne. cbn [negb Py.bind].
    rewrite Hne. cbn [negb].
    now rewrite (NextPageFacts.first_usable_all_marked elements Hall).
  - intros element rest is_disabled class_attr href Ht Hq Hd Hdf Hc Hcf Hh Habs.
    unfold CrawlerAgent.find_next_page.
    rewrite Ht, Hq. cbn [negb nonempty Py.bind CrawlerAgent.first_usable].
    rewrite Hd, Hc. cbn [Py.bind].
    rewrite NextPageFacts.class_or_empty, Hdf, Hcf. cbn [negb andb Py.bind].
    rewrite Hh. cbn [Py.bind SelectorGenerator.opt_str truthy_opt].
    assert (Hth : truthy href = true).
    { apply orb_prop in Habs. unfold startswith in Habs.
      destruct Habs as [H|H];
        eapply NextPageFacts.prefix_truthy; try exact H; reflexivity. }
    rewrite Hth. cbn [catch].
    unfold CrawlerAgent._normalize_url. rewrite Hth, Habs. reflexivity.
Qed.

(** X18.  [validate_page_structure] declares a page valid exactly when it
    reports no error, and that is exactly when the list, item and title
    roles each have a selector that finds at least one element on the page
    and the item selector finds at most 200.  A missing selector, a selector
    that finds nothing, a query that raises, or more than 200 items each
    make the page invalid. *)
Theorem page_structure_valid_iff (page : Playwright.Page)
    (selectors : dict string) :
  let r := CrawlerAgent.validate_page_structure page selectors in
  (CrawlerAgent.structure_valid r = true
   <-> CrawlerAgent.structure_errors r = [])
  /\ (CrawlerAgent.structure_valid r = true
      <-> exists lists items titles,
            Notions.found_count page selectors "jobList" = Some (S lists)
            /\ Notions.found_count page selectors "jobItem" = Some (S items)
            /\ S items <= 200
            /\ Notions.found_count page selectors "jobTitle" = Some (S titles)).
Proof.
  cbv zeta.
  unfold CrawlerAgent.validate_page_structure, CrawlerAgent.required_selectors,
    Notions.found_count.
  cbn [CrawlerAgent.check_required].
  destruct (truthy (get_default selectors "jobList" "")),
    (truthy (get_default selectors "jobItem" "")),
    (truthy (get_default selectors "jobTitle" ""));
    cbn [negb];
    repeat match goal with
           | |- context [Playwright.query_selector_all ?p ?s] =>
               destruct (Playwright.query_selector_all p s) as [[|? ?]|?]
           end;
    cbn [List.length Nat.eqb get set String.eqb Ascii.eqb
         Bool.eqb CrawlerAgent.found app CrawlerAgent.structure_valid
         CrawlerAgent.structure_errors];
    try (split; split; intros H;
         try discriminate H;
         try (destruct H as (a & b & c & H1 & H2 & H3 & H4); discriminate);
         fail).
  all: match goal with
       | |- context [200 <? S (List.length ?l)] =>
           destruct (200 <? S (List.length l)) eqn:Hmany
       end;
    cbn [List.length Nat.eqb app]; split; split; intros H;
    try discriminate H; try reflexivity.
  all: try (destruct H as (a & b & c & H1 & H2 & H3 & H4);
            first [ discriminate
                  | inversion H2; subst; apply Nat.ltb_lt in Hmany;
                    simpl in *; lia ]).
  apply Nat.ltb_ge in Hmany. do 3 eexists. repeat split. simpl. lia.
Qed.

Module StripFacts.

Import Notions.

Lemma lstrip_head (s : string) :
  lstrip s = EmptyString
  \/ exists c r, lstrip s = String c r /\ is_space c = false.
Proof.
  induction s as [|c s IH]; [now left|]. simpl.
  destruct (is_space c) eqn:Hc; [exact IH|].
  right. now exists c, s.
Qed.

Lemma rstrip_cons (c : ascii) (r : string) :
  is_space c = false -> rstrip (String c r) = String c (rstrip r).
Proof.
  intros Hc. simpl. rewrite Hc. destruct (rstrip r); reflexivity.
Qed.

Lemma rstrip_last (s : string) :
  match last_char (rstrip s) with
  | Some d => is_space d = false
  | None => True
  end.
Proof.
  induction s as [|c s IH]; [exact I|]. simpl.
  destruct (rstrip s) as [|c' r'] eqn:Hr.
  - destruct (is_space c) eqn:Hc; simpl; [exact I|exact Hc].
  - exact IH.
Qed.

(** [str.strip()] leaves no blank at either end. *)
Lemma strip_edges (s : string) : blank_edged (strip s) = false.
Proof.
  unfold strip. destruct (lstrip_head s) as [He|(c & r & He & Hc)];
    rewrite He; [reflexivity|].
  rewrite (rstrip_cons c r Hc). unfold blank_edged. rewrite Hc. cbn [orb].
  pose proof (rstrip_last (String c r)) as Hl.
  rewrite (rstrip_cons c r Hc) in Hl.
  destruct (last_char (String c (rstrip r))); [exact Hl|reflexivity].
Qed.

End StripFacts.


Module RecordFacts.

Import Playwright CrawlerAgent Notions.

Section WithUrljoin.

Variable urljoin : string -> string -> Result string.
Variable selectors : dict string.
Variable page : Page.

Lemma single_well_formed (item : ItemElement) (record : dict string) :
  _extract_single_job urljoin item selectors page = Some record ->
  well_formed_record record = true.
Proof.
  unfold _extract_single_job.
  destruct (missing (extract_fields item selectors page) "title"
            && missing (extract_fields item selectors page) "company") eqn:Hm;
    [discriminate|].
  destruct (inner_html item) as [raw_html|e]; [|discriminate].
  cbn [Py.bind catch]. intros H. inversion H; subst. clear H.
  unfold well_formed_record. rewrite get_set_same. rewrite andb_true_r.
  rewrite !(get_set_other _ "raw_html") by discriminate.
  assert (Hsame : forall key,
    key <> "link" ->
    get (if truthy_opt (get (extract_fields item selectors page) "link")
         then set (extract_fields item selectors page) "link"
                (_normalize_url urljoin
                   (get_default (extract_fields item selectors page) "link" "")
                   (url page))
         else extract_fields item selectors page) key
    = get (extract_fields item selectors page) key).
  { intros key Hk.
    destruct (truthy_opt (get (extract_fields item selectors page) "link"));
      [|reflexivity].
    apply get_set_other. congruence. }
  rewrite !Hsame by discriminate.
  unfold missing in Hm.
  destruct (truthy_opt (get (extract_fields item selectors page) "title"));
    [reflexivity|].
  destruct (truthy_opt (get (extract_fields item selectors page) "company"));
    [reflexivity|discriminate].
Qed.

Lemma records_well_formed (items : list ItemElement) :
  Forall (fun record => well_formed_record record = true)
    (records_of urljoin selectors page items).
Proof.
  unfold records_of. apply Forall_forall. intros record Hin.
  apply in_flat_map in Hin. destruct Hin as [item [_ Hin]].
  destruct (_extract_single_job urljoin item selectors page) as [job_data|]
    eqn:Hs; [|destruct Hin].
  destruct (nonempty job_data); [|destruct Hin].
  destruct Hin as [<-|[]]. now apply single_well_formed with (item := item).
Qed.

Lemma lists_well_formed (job_item_selector : string)
    (job_list_elements : list ListElement) :
  forall jobs result,
    extract_lists urljoin job_list_elements job_item_selector selectors page jobs
    = Ok result ->
    Forall (fun record => well_formed_record record = true) jobs ->
    Forall (fun record => well_formed_record record = true) result.
Proof.
  induction job_list_elements as [|job_list rest IH]; intros jobs result.
  - intros H. inversion H; subst. auto.
  - cbn [extract_lists].
    destruct (list_query_selector_all job_list job_item_selector)
      as [job_items|e]; [|discriminate].
    cbn [Py.bind]. intros H Hjobs. apply (IH _ _ H).
    rewrite ExtractFacts.extract_items_eq. apply Forall_app.
    split; [exact Hjobs|apply records_well_formed].
Qed.

End WithUrljoin.

End RecordFacts.

(** X20.  [extract_jobs] never raises and its answer is consistent:
    it succeeds exactly when it reports no error, and a failed extraction
    carries no record.  It fails with a fixed message when the list selector
    or the item selector is missing and when the list selector finds
    nothing, and with the exception's text when the page query raises. *)
Theorem extraction_answer_consistent
    (urljoin : string -> string -> Result string)
    (page : Playwright.Page) (selectors : dict string) :
  let r := CrawlerAgent.extract_jobs urljoin page selectors in
  (CrawlerAgent.success r = true <-> CrawlerAgent.error r = None)
  /\ (CrawlerAgent.success r = false -> CrawlerAgent.jobs r = [])
  /\ (truthy (get_default selectors "jobList" "") = false ->
      r = CrawlerAgent.failed "缺少职位列表选择器")
  /\ (truthy (get_default selectors "jobList" "") = true ->
      (forall e,
          Playwright.query_selector_all page (get_default selectors "jobList" "")
          = Raise e ->
          r = CrawlerAgent.failed e)
      /\ (Playwright.query_selector_all page (get_default selectors "jobList" "")
          = Ok [] ->
          r = CrawlerAgent.failed
                ("未找到职位列表: " ++ get_default selectors "jobList" ""))
      /\ (forall job_list_elements,
             Playwright.query_selector_all page
               (get_default selectors "jobList" "")
             = Ok job_list_elements ->
             nonempty job_list_elements = true ->
             truthy (get_default selectors "jobItem" "") = false ->
             r = CrawlerAgent.failed "缺少职位项选择器")).
Proof.
  cbv zeta. unfold CrawlerAgent.extract_jobs.
  split; [|split; [|split]].
  - unfold catch, Py.bind. destruct_innermost; simpl; split; congruence.
  - unfold catch, Py.bind. destruct_innermost; simpl; congruence.
  - intros H. now rewrite H.
  - intros Ht. rewrite Ht. cbn [negb]. split; [|split].
    + intros e H. now rewrite H.
    + intros H. now rewrite H.
    + intros els H Hne Hi. rewrite H. cbn [Py.bind]. now rewrite Hne, Hi.
Qed.

Lemma extract_jobs_well_formed (urljoin : string -> string -> Result string)
    (page : Playwright.Page) (selectors : dict string) :
  Forall (fun record => Notions.well_formed_record record = true)
    (CrawlerAgent.jobs (CrawlerAgent.extract_jobs urljoin page selectors)).
Proof.
  unfold CrawlerAgent.extract_jobs.
  destruct (negb (truthy (get_default selectors "jobList" "")));
    [constructor|].
  destruct (Playwright.query_selector_all page (get_default selectors "jobList" ""))
    as [job_list_elements|e]; [|constructor].
  cbn [Py.bind].
  destruct (negb (nonempty job_list_elements)); [constructor|].
  destruct (negb (truthy (get_default selectors "jobItem" "")));
    [constructor|].
  destruct (CrawlerAgent.extract_lists urljoin job_list_elements
              (get_default selectors "jobItem" "") selectors page [])
    as [jobs|e] eqn:Hl; [|constructor].
  cbn [Py.bind catch CrawlerAgent.jobs].
  apply (RecordFacts.lists_well_formed urljoin selectors page _ _ _ _ Hl).
  constructor.
Qed.

(** X21.  Every record that [extract_jobs] returns has a non-empty title
    or a non-empty company, and carries the item's markup under
    [raw_html]. *)
Theorem extracted_records_well_formed
    (urljoin : string -> string -> Result string)
    (page : Playwright.Page) (selectors : dict string) :
  Forall (fun record => Notions.well_formed_record record = true)
    (CrawlerAgent.jobs (CrawlerAgent.extract_jobs urljoin page selectors)).
Proof.
  unfold CrawlerAgent.extract_jobs.
  destruct (negb (truthy (get_default selectors "jobList" "")));
    [constructor|].
  destruct (Playwright.query_selector_all page (get_default selectors "jobList" ""))
    as [job_list_elements|e]; [|constructor].
  cbn [Py.bind].
  destruct (negb (nonempty job_list_elements)); [constructor|].
  destruct (negb (truthy (get_default selectors "jobItem" "")));
    [constructor|].
  destruct (CrawlerAgent.extract_lists urljoin job_list_elements
              (get_default selectors "jobItem" "") selectors page [])
    as [jobs|e] eqn:Hl; [|constructor].
  cbn [Py.bind catch CrawlerAgent.jobs].
  apply (RecordFacts.lists_well_formed urljoin selectors page _ _ _ _ Hl).
  constructor.
Qed.

(** X22.  [load_page] never raises and its answer is consistent: it
    carries the requested URL, it succeeds exactly when it has no error
    message, and a failed load has empty content and no screenshot.  Without
    a browser it fails with a fixed message and leaves the controller as it
    was; a successful load has made the page, with the stealth measures
    applied, the controller's current page. *)
Theorem load_answer_consistent (settings : BrowserController.Settings)
    (self : BrowserController.t) (w : BrowserController.Load)
    (target : string) (wait_for_load take_screenshot : bool) :
  let out :=
    BrowserController.load_page settings self w target wait_for_load
      take_screenshot in
  BrowserController.load_url (snd out) = target
  /\ (BrowserController.load_success (snd out) = true
      <-> BrowserController.error_message (snd out) = None)
  /\ (BrowserController.load_success (snd out) = false ->
      BrowserController.html_content (snd out) = ""
      /\ BrowserController.screenshot_path (snd out) = None)
  /\ (take_screenshot = false ->
      BrowserController.screenshot_path (snd out) = None)
  /\ (BrowserController.browser self = None ->
      out = (self, BrowserController.load_failure target "浏览器未初始化"))
  /\ (BrowserController.load_success (snd out) = true ->
      exists page html,
        BrowserController.new_page w = Ok page
        /\ BrowserController.content w = Ok html
        /\ BrowserController.html_content (snd out) = html
        /\ BrowserController.current_page (fst out)
           = Some (AntiDetection.apply_stealth_measures
                     (BrowserController.anti_detection self)
                     (BrowserController.user_agent_rotation settings)
                     (BrowserController.stealth_draws w) page)).
Proof.
  cbv zeta. unfold BrowserController.load_page.
  destruct (BrowserController.browser self) as [b|];
    [destruct (BrowserController.new_page w) as [page|e];
     [destruct (BrowserController.goto w) as [u|e];
      [destruct (BrowserController.content w) as [html|e]|]|]|];
    cbn [fst snd BrowserController.load_failure BrowserController.load_url
         BrowserController.load_success BrowserController.error_message
         BrowserController.html_content BrowserController.screenshot_path
         BrowserController.current_page BrowserController.set_current_page];
    (split; [reflexivity|]);
    (split; [split; congruence|]);
    (split; [intros H; first [discriminate H | now split]|]);
    (split; [intros H; try rewrite H; reflexivity|]);
    (split; [intros H; first [discriminate H | reflexivity]|]);
    intros H; try discriminate H.
  exists page, html. repeat split.
Qed.

Module CrawlInvariants.

Import BrowserController Notions.

Section Crawl.

Variable urljoin : string -> string -> Result string.
Variable settings : Settings.
Variable selectors : dict string.
Variable max_pages : Z.

Local Abbreviation body := (loop_body urljoin settings selectors).
Local Abbreviation loop := (crawl_loop urljoin settings selectors max_pages).

(** What holds at the head of the loop and is kept by every turn holds
    when the loop ends. *)
Lemma loop_invariant (P : Loop -> Prop) :
  (forall w st, P st -> P (fst (body w st))) ->
  forall fuel w i st, P st -> P (loop fuel w i st).
Proof.
  intros Hbody. induction fuel as [|fuel IH]; intros w i st Hst.
  - simpl. destruct (continues max_pages st); exact Hst.
  - cbn [crawl_loop]. destruct (continues max_pages st); [|exact Hst].
    pose proof (Hbody (turn w i) st Hst) as Hb.
    destruct (body (turn w i) st) as [st' stop]. simpl in Hb.
    destruct stop; [exact Hb|]. now apply IH.
Qed.

(** A turn adds records only together with a page. *)
Lemma body_jobs (w : Turn) (st : Loop) :
  (all_jobs (fst (body w st)) = all_jobs st
   /\ crawled (fst (body w st)) = crawled st)
  \/ (exists page,
        current_page (self (fst (body w st))) = Some page
        /\ all_jobs (fst (body w st))
           = all_jobs st
             ++ CrawlerAgent.jobs (CrawlerAgent.extract_jobs urljoin page selectors)
        /\ crawled (fst (body w st)) = (crawled st + 1)%Z).
Proof.
  unfold loop_body.
  destruct (load_page settings (self st) (load w)
              (SelectorGenerator.opt_str (current_url st)) true false)
    as [self' page_result].
  destruct (load_success page_result); cbn [negb]; [|left; now split].
  unfold extract_current.
  destruct (current_page self') as [page|] eqn:Hp; cbn [CrawlerAgent.failed
    CrawlerAgent.success]; [|left; now split].
  destruct (CrawlerAgent.success (CrawlerAgent.extract_jobs urljoin page selectors));
    [|left; now split].
  right. exists page.
  destruct (CrawlerAgent.has_next (next_page w));
    [destruct (sleep w)|]; cbn [fst self all_jobs crawled]; now repeat split.
Qed.

(** A turn that goes on adds no error; a turn that stops adds at most
    one. *)
Lemma body_errors (w : Turn) (st : Loop) :
  (snd (body w st) = false -> errs (fst (body w st)) = errs st)
  /\ (List.length (errs (fst (body w st))) <= S (List.length (errs st)))%nat.
Proof.
  unfold loop_body.
  destruct (load_page settings (self st) (load w)
              (SelectorGenerator.opt_str (current_url st)) true false)
    as [self' page_result].
  destruct (load_success page_result); cbn [negb];
    [destruct (CrawlerAgent.success (extract_current urljoin selectors self'));
     [destruct (CrawlerAgent.has_next (next_page w));
      [destruct (sleep w)|]|]|];
    cbn [fst snd errs]; rewrite ?length_app; cbn [List.length];
    (split; [intros H; first [discriminate H | reflexivity]|lia]).
Qed.

Lemma loop_errors (fuel : nat) (w : World) :
  forall i st,
    (List.length (errs (loop fuel w i st)) <= S (List.length (errs st)))%nat.
Proof.
  induction fuel as [|fuel IH]; intros i st.
  - simpl. destruct (continues max_pages st); lia.
  - cbn [crawl_loop]. destruct (continues max_pages st); [|lia].
    destruct (body_errors (turn w i) st) as [Hgo Hle].
    destruct (body (turn w i) st) as [st' stop]. simpl in Hgo, Hle.
    destruct stop; [exact Hle|].
    specialize (IH (S i) st'). rewrite Hgo in IH by reflexivity. exact IH.
Qed.

(** Records come with pages: no page counted, no record. *)
Lemma loop_jobs_need_pages (fuel : nat) (w : World) (i : nat) (st : Loop) :
  (0 <= crawled st)%Z /\ (all_jobs st = [] \/ 1 <= crawled st)%Z ->
  (0 <= crawled (loop fuel w i st))%Z
  /\ (all_jobs (loop fuel w i st) = [] \/ 1 <= crawled (loop fuel w i st))%Z.
Proof.
  apply (loop_invariant
           (fun st => (0 <= crawled st)%Z
                      /\ (all_jobs st = [] \/ 1 <= crawled st)%Z)).
  clear. intros w st [H0 H1].
  destruct (body_jobs w st) as [[Hj Hc]|(page & _ & _ & Hc)];
    rewrite ?Hj, Hc; (split; [lia|]); [exact H1|right; lia].
Qed.

Lemma loop_records_well_formed (fuel : nat) (w : World) (i : nat) (st : Loop) :
  Forall (fun record => well_formed_record record = true) (all_jobs st) ->
  Forall (fun record => well_formed_record record = true)
    (all_jobs (loop fuel w i st)).
Proof.
  apply (loop_invariant
           (fun st => Forall (fun record => well_formed_record record = true)
                        (all_jobs st))).
  clear. intros w st H.
  destruct (body_jobs w st) as [[Hj _]|(page & _ & Hj & _)]; rewrite Hj;
    [exact H|].
  apply Forall_app. split; [exact H|].
  apply extract_jobs_well_formed.
Qed.

End Crawl.

End CrawlInvariants.

Lemma crawl_errors_bounded
    (urljoin : string -> string -> Result string)
    (settings : BrowserController.Settings) (selectors : dict string)
    (max_pages : Z) (self0 : BrowserController.t)
    (w : BrowserController.World) (start_url : option string) :
  let out :=
    BrowserController.crawl_jobs urljoin settings selectors max_pages self0 w
      start_url in
  (List.length (BrowserController.errors (snd out)) <= 1)%nat
  /\ (BrowserController.success (snd out) = true ->
      (1 <= BrowserController.pages_crawled (snd out))%Z).
Proof.
  cbv zeta. unfold BrowserController.crawl_jobs.
  destruct (BrowserController.agent w) as [u|e0];
    cbn [fst snd BrowserController.errors BrowserController.success
         BrowserController.pages_crawled].
  - split.
    + apply (CrawlInvariants.loop_errors urljoin settings selectors max_pages).
    + intros Hs.
      destruct (CrawlInvariants.loop_jobs_need_pages urljoin settings selectors
                  max_pages (BrowserController.enough_fuel max_pages) w 0
                  (BrowserController.initial self0 start_url))
        as [_ [Hnil|Hone]]; [simpl; split; [lia|now left]| |exact Hone].
      rewrite Hnil in Hs. discriminate Hs.
  - split; [simpl; lia|discriminate].
Qed.

Lemma crawl_records_invariant
    (urljoin : string -> string -> Result string)
    (settings : BrowserController.Settings) (selectors : dict string)
    (max_pages : Z) (self0 : BrowserController.t)
    (w : BrowserController.World) (start_url : option string) :
  Forall (fun record => Notions.well_formed_record record = true)
    (BrowserController.jobs
       (snd (BrowserController.crawl_jobs urljoin settings selectors max_pages
               self0 w start_url))).
Proof.
  unfold BrowserController.crawl_jobs.
  destruct (BrowserController.agent w) as [u|e];
    cbn [snd BrowserController.jobs]; [|constructor].
  apply CrawlInvariants.loop_records_well_formed. constructor.
Qed.

(** X23.  [crawl_jobs] reports at most one error, since every error ends
    the run; a successful crawl has counted at least one page; and when
    building the agent raises, the result is a failure with no record, no
    page and that one error, and the controller is left as it was. *)
Theorem crawl_reports_one_error
    (urljoin : string -> string -> Result string)
    (settings : BrowserController.Settings) (selectors : dict string)
    (max_pages : Z) (self0 : BrowserController.t)
    (w : BrowserController.World) (start_url : option string) :
  let out :=
    BrowserController.crawl_jobs urljoin settings selectors max_pages self0 w
      start_url in
  (List.length (BrowserController.errors (snd out)) <= 1)%nat
  /\ (BrowserController.success (snd out) = true ->
      (1 <= BrowserController.pages_crawled (snd out))%Z)
  /\ (forall e,
         BrowserController.agent w = Raise e ->
         fst out = self0
         /\ BrowserController.success (snd out) = false
         /\ BrowserController.jobs (snd out) = []
         /\ BrowserController.pages_crawled (snd out) = 0%Z
         /\ BrowserController.errors (snd out)
            = [("爬取过程发生异常: " ++ e)%string]
         /\ BrowserController.has_next_page (snd out) = false
         /\ BrowserController.next_page_url (snd out) = None).
Proof.
  cbv zeta. unfold BrowserController.crawl_jobs.
  destruct (BrowserController.agent w) as [u|e0];
    cbn [fst snd BrowserController.errors BrowserController.success
         BrowserController.pages_crawled BrowserController.jobs
         BrowserController.has_next_page BrowserController.next_page_url].
  - split; [|split].
    + apply (CrawlInvariants.loop_errors urljoin settings selectors max_pages).
    + intros Hs.
      destruct (CrawlInvariants.loop_jobs_need_pages urljoin settings selectors
                  max_pages (BrowserController.enough_fuel max_pages) w 0
                  (BrowserController.initial self0 start_url))
        as [_ [Hnil|Hone]]; [simpl; split; [lia|now left]| |exact Hone].
      rewrite Hnil in Hs. discriminate Hs.
    + intros e He. discriminate He.
  - split; [simpl; lia|]. split; [discriminate|].
    intros e He. inversion He; subst. repeat split.
Qed.

(** X24.  Every record in the result of [crawl_jobs] has a non-empty
    title or a non-empty company and carries its markup: the crawl adds
    only what [extract_jobs] returned. *)
Theorem crawled_records_well_formed
    (urljoin : string -> string -> Result string)
    (settings : BrowserController.Settings) (selectors : dict string)
    (max_pages : Z) (self0 : BrowserController.t)
    (w : BrowserController.World) (start_url : option string) :
  Forall (fun record => Notions.well_formed_record record = true)
    (BrowserController.jobs
       (snd (BrowserController.crawl_jobs urljoin settings selectors max_pages
               self0 w start_url))).
Proof.
  unfold BrowserController.crawl_jobs.
  destruct (BrowserController.agent w) as [u|e];
    cbn [snd BrowserController.jobs]; [|constructor].
  apply CrawlInvariants.loop_records_well_formed. constructor.
Qed.

(** X25.  Once the agent is built, with a page cap of zero or less, or
    with no start URL (none or the empty string), [crawl_jobs] loads
    nothing: the controller is unchanged and the result is a failure with no
    record, no page and no error.  [has_next_page] is then true exactly when the cap is positive
    and the start URL is the empty string. *)
Theorem crawl_without_turns
    (urljoin : string -> string -> Result string)
    (settings : BrowserController.Settings) (selectors : dict string)
    (max_pages : Z) (self0 : BrowserController.t)
    (w : BrowserController.World) (start_url : option string) (u : unit) :
  BrowserController.agent w = Ok u ->
  (max_pages <= 0)%Z \/ truthy_opt start_url = false ->
  let out :=
    BrowserController.crawl_jobs urljoin settings selectors max_pages self0 w
      start_url in
  fst out = self0
  /\ BrowserController.success (snd out) = false
  /\ BrowserController.jobs (snd out) = []
  /\ BrowserController.pages_crawled (snd out) = 0%Z
  /\ BrowserController.errors (snd out) = []
  /\ (BrowserController.has_next_page (snd out) = true
      <-> (0 < max_pages)%Z /\ start_url = Some "").
Proof.
  intros Ha Hstop. cbv zeta. unfold BrowserController.crawl_jobs.
  rewrite Ha.
  assert (Hloop : BrowserController.crawl_loop urljoin settings selectors
                    max_pages (BrowserController.enough_fuel max_pages) w 0
                    (BrowserController.initial self0 start_url)
                  = BrowserController.initial self0 start_url).
  { assert (Hc : BrowserController.continues max_pages
                   (BrowserController.initial self0 start_url) = false).
    { unfold BrowserController.continues. simpl.
      destruct Hstop as [Hm|Hu].
      - replace (0 <? max_pages)%Z with false; [reflexivity|].
        symmetry. apply Z.ltb_ge. exact Hm.
      - rewrite Hu. apply andb_false_r. }
    destruct (BrowserController.enough_fuel max_pages); simpl;
      simpl in Hc; now rewrite Hc. }
  rewrite Hloop. simpl.
  do 5 (split; [reflexivity|]).
  destruct start_url as [[|c s]|].
  - split; [intros H; apply Z.ltb_lt in H; now split|].
    intros [Hm _]. apply Z.ltb_lt. exact Hm.
  - destruct Hstop as [Hm|Hu]; [|discriminate Hu].
    split; [intros H; apply Z.ltb_lt in H; lia|].
    intros [_ Hs]. discriminate Hs.
  - split; [discriminate|]. intros [_ Hs]. discriminate Hs.
Qed.

Lemma crawl_without_turns_witness :
  BrowserController.errors
    (snd (BrowserController.crawl_jobs Examples.simple_urljoin
            Examples.default_settings Examples.crawl_selectors 0
            Examples.fresh_controller Examples.two_pages_then_failure
            Examples.start_url))
  = [].
Proof.
  apply (crawl_without_turns Examples.simple_urljoin Examples.default_settings
           Examples.crawl_selectors 0 Examples.fresh_controller
           Examples.two_pages_then_failure Examples.start_url tt).
  - reflexivity.
  - left. lia.
Defined.

Module VariationFacts.

Lemma split_on_nonempty (sep : ascii) (s : string) : split_on sep s <> [].
Proof.
  destruct s as [|c r]; simpl; [discriminate|].
  destruct (Ascii.eqb c sep); [discriminate|].
  destruct (split_on sep r); discriminate.
Qed.

(** Joining the parts with the separator gives the string back. *)
Lemma join_split_on (sep : ascii) (s : string) :
  join (String sep EmptyString) (split_on sep s) = s.
Proof.
  unfold join. induction s as [|c r IH]; [reflexivity|]. simpl.
  pose proof (split_on_nonempty sep r) as Hne.
  destruct (Ascii.eqb c sep) eqn:Hc.
  - apply Ascii.eqb_eq in Hc. subst c.
    destruct (split_on sep r) as [|part parts]; [contradiction|].
    simpl. simpl in IH. now rewrite IH.
  - destruct (split_on sep r) as [|part parts]; [contradiction|].
    destruct parts as [|part' parts]; simpl in *; now rewrite IH.
Qed.

(** No part holds the separator. *)
Lemma split_on_parts (sep : ascii) (s : string) :
  Forall (fun part => contains (String sep EmptyString) part = false)
    (split_on sep s).
Proof.
  induction s as [|c r IH]; [repeat constructor|]. simpl.
  destruct (Ascii.eqb c sep) eqn:Hc.
  - constructor; [reflexivity|exact IH].
  - destruct (split_on sep r) as [|part parts]; [repeat constructor; simpl|].
    + destruct (ascii_dec sep c) as [->|_]; [|reflexivity].
      now rewrite Ascii.eqb_refl in Hc.
    + inversion IH; subst. constructor; [|assumption].
      simpl. destruct (ascii_dec sep c) as [->|_];
        [now rewrite Ascii.eqb_refl in Hc|]. assumption.
Qed.

Lemma append_assoc (a b c : string) :
  ((a ++ b) ++ c)%string = (a ++ b ++ c)%string.
Proof.
  induction a as [|x a IH]; simpl; [reflexivity|]. now rewrite IH.
Qed.

Lemma join_removelast (sep : string) (parts : list string) :
  (2 <= List.length parts)%nat ->
  join sep parts
  = (join sep (removelast parts) ++ sep ++ last parts "")%string.
Proof.
  unfold join. induction parts as [|a parts IH]; simpl; [lia|].
  destruct parts as [|b parts]; [simpl; lia|]. intros _.
  destruct parts as [|c parts]; [reflexivity|].
  change (removelast (a :: b :: c :: parts))
    with (a :: removelast (b :: c :: parts)).
  change (last (a :: b :: c :: parts) "") with (last (b :: c :: parts) "").
  rewrite IH by (simpl; lia).
  change (removelast (b :: c :: parts)) with (b :: removelast (c :: parts)).
  cbn [String.concat].
  now rewrite !append_assoc.
Qed.

Lemma contains_separator (sep : ascii) (a rest : string) :
  contains (String sep EmptyString) (a ++ String sep rest)%string = true.
Proof.
  induction a as [|c a IH]; simpl.
  - destruct (ascii_dec sep sep); [|contradiction]. now destruct rest.
  - rewrite IH. apply orb_true_r.
Qed.

(** Two parts or more mean that the separator occurs. *)
Lemma parts_need_separator (sep : ascii) (s : string) :
  (2 <= List.length (split_on sep s))%nat ->
  contains (String sep EmptyString) s = true.
Proof.
  intros Hlen. pose proof (join_split_on sep s) as Hj.
  destruct (split_on sep s) as [|a [|b parts]]; simpl in Hlen; try lia.
  rewrite <- Hj. unfold join. cbn [String.concat].
  apply contains_separator.
Qed.

Lemma prefix_append (s t : string) :
  String.prefix s (s ++ t)%string = true.
Proof.
  induction s as [|c s IH]; simpl; [now destruct t|].
  destruct (ascii_dec c c); [exact IH|contradiction].
Qed.

Lemma prefix_self (s : string) : String.prefix s s = true.
Proof.
  induction s as [|c s IH]; simpl; [reflexivity|].
  destruct (ascii_dec c c); [exact IH|contradiction].
Qed.

End VariationFacts.

(** X26.  [generate_selector_variations] returns between four and eight
    selectors, the base selector first.  Every variation either extends the
    base selector, or is the base selector cut before its last dot: the base
    selector is then that variation, a dot, and a last part without a dot.
    Joining the parts of the base selector with dots gives it back, and
    when it has more than two parts the cut variation comes second. *)
Theorem selector_variations_shape (base_selector : string) :
  let variations :=
    SelectorGenerator.generate_selector_variations base_selector in
  let parts := split_on "."%char base_selector in
  hd_error variations = Some base_selector
  /\ (4 <= List.length variations <= 8)%nat
  /\ Forall (fun variation =>
               startswith variation base_selector = true
               \/ exists tail,
                    base_selector = (variation ++ "." ++ tail)%string
                    /\ contains "." tail = false)
       variations
  /\ join "." parts = base_selector
  /\ ((2 <? List.length parts) = true ->
      nth_error variations 1 = Some (join "." (removelast parts))).
Proof.
  cbv zeta. unfold SelectorGenerator.generate_selector_variations.
  assert (Hdot : (2 <? List.length (split_on "."%char base_selector)) = true ->
                 contains "." base_selector = true).
  { intros Hlen. apply Nat.ltb_lt in Hlen.
    apply (VariationFacts.parts_need_separator "."%char). lia. }
  assert (Hcut : (2 <? List.length (split_on "."%char base_selector)) = true ->
                 exists tail,
                   base_selector
                   = (join "." (removelast (split_on "."%char base_selector))
                      ++ "." ++ tail)%string
                   /\ contains "." tail = false).
  { intros Hlen. apply Nat.ltb_lt in Hlen.
    exists (last (split_on "."%char base_selector) "").
    split.
    - rewrite <- VariationFacts.join_removelast by lia.
      symmetry. apply VariationFacts.join_split_on.
    - pose proof (VariationFacts.split_on_parts "."%char base_selector) as Hp.
      rewrite Forall_forall in Hp. apply Hp.
      destruct (split_on "."%char base_selector) as [|a l];
        [simpl in Hlen; lia|].
      destruct (@exists_last _ (a :: l)) as (l' & z & Hz); [discriminate|].
      rewrite Hz. rewrite last_last. apply in_or_app. right. now left. }
  pose proof (VariationFacts.prefix_self base_selector) as Hself.
  assert (Hext : forall t,
             startswith (base_selector ++ t)%string base_selector = true)
    by (intros t; apply VariationFacts.prefix_append).
  split; [|split; [|split; [|split]]].
  - destruct (contains "." base_selector);
      [destruct (2 <? List.length (split_on "."%char base_selector))|];
      destruct (negb (contains "[" base_selector)); reflexivity.
  - destruct (contains "." base_selector);
      [destruct (2 <? List.length (split_on "."%char base_selector))|];
      destruct (negb (contains "[" base_selector)); simpl; lia.
  - destruct (contains "." base_selector);
      [destruct (2 <? List.length (split_on "."%char base_selector)) eqn:Hlen|];
      destruct (negb (contains "[" base_selector));
      cbn [app];
      repeat (constructor; [first [ left; exact Hself
                                  | left; apply Hext
                                  | right; apply Hcut; reflexivity ]|]);
      constructor.
  - apply VariationFacts.join_split_on.
  - intros Hlen. rewrite (Hdot Hlen), Hlen.
    destruct (negb (contains "[" base_selector)); reflexivity.
Qed.

Module PipelineFacts.

Import BrowserController.

Lemma crawl_pages_bounded (urljoin : string -> string -> Result string)
    (settings : Settings) (selectors : dict string) (max_pages : Z)
    (self0 : t) (w : World) (start_url : option string) :
  (0 <= max_pages)%Z ->
  (0 <= pages_crawled
          (snd (crawl_jobs urljoin settings selectors max_pages self0 w
                  start_url)) <= max_pages)%Z.
Proof.
  intros Hcap.
  assert (Hinit : (0 <= crawled (initial self0 start_url) <= max_pages)%Z)
    by (simpl; lia).
  unfold crawl_jobs. destruct (agent w); [|exact Hinit].
  cbn [snd pages_crawled].
  rewrite <- (CrawlFacts.loop_is_last_state urljoin settings selectors
                max_pages _ w 0 _ (initial self0 start_url)).
  apply forall_last; [exact Hinit|].
  now apply CrawlFacts.states_bounded.
Qed.

Lemma make_job_raw_data (strptime : string -> string -> option Job.datetime)
    (job_data : dict string) :
  Job.raw_data (CrawlingService.make_job strptime job_data) = job_data.
Proof. reflexivity. Qed.

End PipelineFacts.


